(** * neuro_tender: the acquisition-and-evaluation pipeline

    A shallow embedding of the Python sources [scorer.py], [parser.py],
    [parsers/base_parser.py], [downloader.py], [uploader.py],
    [file_utils.py] and [main.py], and the properties of the pipeline
    that are checked against them.

    Python [str] values are lists of Unicode code points, dictionaries are
    finite maps, and the code's effects (network requests, sleeps, disk
    writes, the mutable [TenderProcessor] object, raised exceptions) are
    threaded through a state-and-exception monad.  Everything the outside
    answers is read from a [World], indexed by a clock that advances with
    every question put to it, so the same request may be answered
    differently the second time.  A call of a [requests] session is one
    question: the retry adapter that the sessions mount may exchange
    several requests with the server within it. *)

From Stdlib Require Import NArith List String Ascii Lia Bool Arith.
From stdpp Require Import gmap strings list fin_maps pretty.

(* ===================================================================== *)
(** * Python strings *)
(* ===================================================================== *)

Abbreviation pystr := (list N).

Module Str.

(** Source literals are written in UTF-8; [utf8] turns the bytes of a
    literal into the code points Python sees. *)
Fixpoint decode (bs : list N) : pystr :=
  match bs with
  | [] => []
  | b0 :: r0 =>
    if (b0 <? 128)%N then b0 :: decode r0
    else match r0 with
         | [] => []
         | b1 :: r1 =>
           if (b0 <? 224)%N
           then ((b0 - 192) * 64 + (b1 - 128))%N :: decode r1
           else match r1 with
                | [] => []
                | b2 :: r2 =>
                  if (b0 <? 240)%N
                  then ((b0 - 224) * 4096 + (b1 - 128) * 64 + (b2 - 128))%N
                         :: decode r2
                  else match r2 with
                       | [] => []
                       | b3 :: r3 =>
                         ((b0 - 240) * 262144 + (b1 - 128) * 4096
                          + (b2 - 128) * 64 + (b3 - 128))%N :: decode r3
                       end
                end
         end
  end.

Definition utf8 (s : string) : pystr :=
  decode (map N_of_ascii (list_ascii_of_string s)).

(** [s.startswith(p)] *)
Fixpoint startswith (p s : pystr) : bool :=
  match p, s with
  | [], _ => true
  | _ :: _, [] => false
  | a :: p', b :: s' => (a =? b)%N && startswith p' s'
  end.

(** [needle in hay] *)
Fixpoint contains (needle hay : pystr) : bool :=
  startswith needle hay ||
  match hay with
  | [] => false
  | _ :: t => contains needle t
  end.

(** [s[a:b]] for [0 <= a <= b]: out-of-range bounds are clamped *)
Definition slice (a b : nat) (s : pystr) : pystr := take (b - a) (drop a s).

(** [s[:-k]] *)
Definition drop_last (k : nat) (s : pystr) : pystr := take (length s - k) s.

(** [sep.join(parts)] *)
Fixpoint join (sep : pystr) (parts : list pystr) : pystr :=
  match parts with
  | [] => []
  | [p] => p
  | p :: rest => p ++ sep ++ join sep rest
  end.

(** truthiness of a [str]: non-empty *)
Definition truthy (s : pystr) : bool :=
  match s with [] => false | _ :: _ => true end.

Definition eqb (a b : pystr) : bool := bool_decide (a = b).

(** [str(n)] for a non-negative integer: decimal digits, whose code
    points are their ASCII codes *)
Definition of_nat (n : nat) : pystr :=
  map N_of_ascii (list_ascii_of_string (pretty n)).

End Str.

(** A row of the documents table of an announcement page, as
    [process_by_announcement_id] reads it. *)
Record doc_row := {
  row_columns : nat;                   (* len(row.find_all("td")) *)
  row_doc_name : pystr;                (* columns[0].get_text(strip=True) *)
  row_onclick : option pystr;          (* columns[2].find("button", onclick=True)["onclick"] *)
}.

(** The parts of the Python runtime and of third-party libraries the code
    calls as pure functions and that are not re-implemented here. *)
Class PyLib := {
  str_lower : pystr -> pystr;          (* str.lower *)
  str_strip : pystr -> pystr;          (* str.strip *)
  str_isdigit : pystr -> bool;         (* str.isdigit *)
  str_replace : pystr -> pystr -> pystr -> pystr;   (* s.replace(old, new) *)
  (** [re.search(r"actionModalShowFiles\(\d+,(\d+)\)", s).group(1)] *)
  re_show_files : pystr -> option pystr;
  (** [re.search(r"\b\d{12}\b", s).group(0)] *)
  re_twelve_digits : pystr -> option pystr;
  (** the file name announced by a Content-Disposition header: the
      [filename*=UTF-8''...] form unquoted, else the quoted [filename=] *)
  disposition_filename : pystr -> option pystr;
  (** [os.path.splitext(name)[1]] *)
  splitext_ext : pystr -> pystr;
  (** [datetime.fromisoformat(s).strftime("%d.%m.%Y %H:%M")], [None] on
      [ValueError] *)
  isoformat_to_display : pystr -> option pystr;
  (** BeautifulSoup queries on a page body *)
  html_links : pystr -> list pystr;            (* find_all("a", href=True) *)
  html_doc_rows : pystr -> list doc_row;       (* select("table.table-bordered tr") *)
  html_input_after_label : pystr -> pystr -> option pystr;
  html_table_cell : pystr -> pystr -> option pystr;
}.

(* ===================================================================== *)
(** * Configuration ([config.py]) *)
(* ===================================================================== *)

Record ScrapingConfig := {
  scraping_request_delay : nat;
  scraping_max_retries : nat;
  scraping_retry_delay : nat;
}.

Record DocumentConfig := {
  document_chunk_size : nat;
  document_max_chunks : nat;
  document_keyword_threshold : nat;
}.

(** The global [config] object.  Its fields are Python ints and floats read
    as amounts (characters, attempts, seconds), hence naturals here. *)
Class AppConfig := {
  scraping : ScrapingConfig;
  document : DocumentConfig;
}.

Definition default_config : AppConfig := {|
  scraping := {| scraping_request_delay := 2; scraping_max_retries := 3;
                 scraping_retry_delay := 5 |};
  document := {| document_chunk_size := 3000; document_max_chunks := 5;
                 document_keyword_threshold := 2 |};
|}.

(** [configGS]: names of the checkpoint files *)
Definition configGS_stage1s : pystr := Eval vm_compute in Str.utf8 "stage1_success.json".
Definition configGS_stage2s : pystr := Eval vm_compute in Str.utf8 "stage2_success.json".
Definition configGS_filtered : pystr := Eval vm_compute in Str.utf8 "filtered.json".

(** [x or default] on an optional integer argument: [None] and [0] are
    both falsy. *)
Definition or_default (x : option nat) (d : nat) : nat :=
  match x with
  | Some (S n) => S n
  | _ => d
  end.

(* ===================================================================== *)
(** * The outside world, the program state and the effect monad *)
(* ===================================================================== *)

(** What a request to the model service yields once the transport, the
    status check and the JSON decoding are through: nothing usable
    ([NoResponse]: connection error, HTTP error status, undecodable body),
    a JSON body without the expected field ([Malformed]), or the text of
    the field. *)
Inductive model_reply :=
| NoResponse
| Malformed
| Content (text : pystr).

Inductive chat_kind := Summarize | Classify | Translate.

(** How one call of [session.get] ends on the side of the server: with no
    connection ([ConnError]), or with the last response the session has
    received in that call. *)
Inductive http_reply :=
| ConnError
| Status (code : nat) (body : pystr).

(** The JSON body posted to the intake system ([data] in
    [DocumentUploader.upload]); the constant fields are left out. *)
Record Payload := {
  p_bin : pystr;
  p_nazvanie_kompanii : pystr;
  p_tekst_soobsheniya : pystr;
  p_kratkij_ii_analiz_ts : pystr;
  p_base64 : pystr;
  p_md5sum : pystr;
}.

Class World := {
  (** [POST {base_url}/api/generate] with the stage-1 prompt built around
      the description *)
  w_generate : nat -> pystr -> model_reply;
  (** [POST .../v1/chat/completions] with one of the three system prompts
      and the user content *)
  w_chat : nat -> chat_kind -> pystr -> model_reply;
  (** one call [session.get(url)]: within it the mounted adapter may
      send the request several times; this is how the call ends (see
      [session_reply] for what the caller gets) *)
  w_get : nat -> pystr -> http_reply;
  (** [session.head(href)] followed by [raise_for_status]: [None] is a
      [RequestException], otherwise the Content-Disposition header *)
  w_head : nat -> pystr -> option (option pystr);
  (** [session.get(href, stream=True)] followed by [raise_for_status] *)
  w_fetch : nat -> pystr -> bool;
  (** whether opening and writing a file succeeds; asked a second time
      after a failure, whether the file had been opened *)
  w_disk_ok : nat -> bool;
  (** one call [session.post] to the intake system, within which the
      mounted adapter may post several times: [None] is a request error,
      otherwise the first key of [data.document_id] if the body has one *)
  w_intake : nat -> Payload -> option (option pystr);
  (** text extraction (python-docx, PyMuPDF, OCR) over the files of a
      document folder; [None] when no file gives text *)
  w_doc_text : pystr -> gset pystr -> option pystr;
  (** base64 content and MD5 digest of the first supported file *)
  w_file_base64 : pystr -> gset pystr -> option pystr;
  w_file_md5 : pystr -> gset pystr -> option pystr;
}.

(** What the program does to the outside, one event for each call of the
    library: a call of [session.get], [session.head] or [session.post]
    is one event, however many times the adapter of the session sends
    the request within it. *)
Inductive event :=
| EGenerate (description : pystr)
| EChat (k : chat_kind) (text : pystr)
| EGet (url : pystr)
| EHead (url : pystr)
| EFetch (url : pystr)
| EUpload (data : Payload)
| ESleep (seconds : nat)
| EWriteJson (name : pystr)
| EMkdir (folder : pystr)
| EWriteFile (folder name : pystr).

(** The record built by [get_announcement_info] (a dict with fixed keys;
    ['summary'] is added by [process_announcement]). *)
Record Info := {
  i_announcement_id : pystr;
  i_name : option pystr;
  i_amount : option pystr;
  i_type : option pystr;
  i_status : option pystr;
  i_correspondent : pystr;
  i_correspondent_id : option pystr;
  i_started_at : option pystr;
  i_finished_at : option pystr;
  i_techspec_summary : pystr;
  i_link : pystr;
  i_summary : option pystr;
}.

(** Content of a checkpoint file / of the dictionary it is dumped from;
    [Truncated] is the file that [open(file_path, "w")] has emptied and
    [json.dump] has not filled. *)
Inductive checkpoint :=
| Filtered (m : gmap pystr pystr)         (* id -> {'name': name} *)
| Stage1 (m : gmap pystr bool)            (* id -> True *)
| Stage2 (m : gmap pystr Info)            (* id -> info *)
| Truncated.

Record ProcessingStats := {
  total_processed : nat;
  stats_stage1_success : nat;
  stats_stage2_success : nat;
  uploads_successful : nat;
  errors : nat;
}.

(** The [TenderProcessor] object *)
Record TenderProcessor := {
  stats : ProcessingStats;
  stage1_success : gmap pystr bool;
  stage2_success : gmap pystr Info;
  already_processed : gmap pystr pystr;
}.

Record state := {
  clock : nat;                          (* requests answered so far *)
  log : list event;                     (* effects, oldest first *)
  files : gmap pystr checkpoint;        (* JSON files under data_dir *)
  folders : gmap pystr (gset pystr);    (* document folders under data_dir *)
  processor : TenderProcessor;          (* [self] of main.py *)
}.

Inductive exn :=
| NameError
| TypeError
| ValueError
| KeyError
| OSError
| RequestException.

Inductive res (A : Type) :=
| Ok (a : A)
| Raise (e : exn).
Arguments Ok {A} a.
Arguments Raise {A} e.

(** A computation: runs from a state, returns or raises, and leaves a state
    either way. *)
Definition M (A : Type) : Type := state -> res A * state.

#[global] Instance M_ret : MRet M := fun A a s => (Ok a, s).
#[global] Instance M_bind : MBind M := fun A B k m s =>
  match m s with
  | (Ok a, s') => k a s'
  | (Raise e, s') => (Raise e, s')
  end.

Definition raise {A} (e : exn) : M A := fun s => (Raise e, s).

(** [try: m  except Exception as e: h e] *)
Definition try_except {A} (m : M A) (h : exn -> M A) : M A := fun s =>
  match m s with
  | (Ok a, s') => (Ok a, s')
  | (Raise e, s') => h e s'
  end.

(** run [m] and hand its outcome over as a value *)
Definition attempt {A} (m : M A) : M (res A) := fun s =>
  let '(r, s') := m s in (Ok r, s').

Definition get_state : M state := fun s => (Ok s, s).

Definition emit (e : event) : M unit := fun s =>
  (Ok tt, {| clock := clock s; log := log s ++ [e]; files := files s;
             folders := folders s; processor := processor s |}).

(** An exchange with the outside: logged, answered by the world at the
    current clock, and the clock advances. *)
Definition ask {A} (e : event) (answer : nat -> A) : M A := fun s =>
  (Ok (answer (clock s)),
   {| clock := S (clock s); log := log s ++ [e]; files := files s;
      folders := folders s; processor := processor s |}).

(** A further question about an exchange that is logged already: the
    world answers at the current clock, which advances. *)
Definition follow_up {A} (answer : nat -> A) : M A := fun s =>
  (Ok (answer (clock s)),
   {| clock := S (clock s); log := log s; files := files s;
      folders := folders s; processor := processor s |}).

(** [time.sleep(seconds)] *)
Definition sleep (seconds : nat) : M unit := emit (ESleep seconds).

(** The sessions of parser.py, parsers/base_parser.py and downloader.py
    mount [HTTPAdapter(max_retries=Retry(total=max_retries,
    status_forcelist=[429, 500, 502, 503, 504]))]. *)
Definition status_forcelist : list nat := [429; 500; 502; 503; 504].

(** What a call of [session.get] hands to its caller.  The adapter sends
    the request again when the status is in the forcelist; when its
    re-sends are used up and the last response still has such a status,
    the call raises [RetryError], a [RequestException].  A response with
    a status of the forcelist is never returned. *)
Definition session_reply (reply : http_reply) : http_reply :=
  match reply with
  | Status code body =>
    if bool_decide (code ∈ status_forcelist) then ConnError
    else Status code body
  | ConnError => ConnError
  end.

(** [json.dump] into [data_dir / name]: the file now holds [doc] *)
Definition write_json (name : pystr) (doc : checkpoint) : M unit := fun s =>
  (Ok tt, {| clock := clock s; log := log s;
             files := <[name := doc]> (files s);
             folders := folders s; processor := processor s |}).

(** [(data_dir / raw_id).mkdir(parents=True, exist_ok=True)] *)
Definition make_folder (raw_id : pystr) : M unit := fun s =>
  (Ok tt, {| clock := clock s; log := log s; files := files s;
             folders := <[raw_id := default ∅ (folders s !! raw_id)]> (folders s);
             processor := processor s |}).

(** a file written under [data_dir / raw_id / name] *)
Definition create_file (raw_id name : pystr) : M unit := fun s =>
  (Ok tt, {| clock := clock s; log := log s; files := files s;
             folders :=
               <[raw_id := {[name]} ∪ default ∅ (folders s !! raw_id)]> (folders s);
             processor := processor s |}).

(** an update of the fields of the [TenderProcessor] object *)
Definition modify_processor (f : TenderProcessor -> TenderProcessor) : M unit :=
  fun s =>
  (Ok tt, {| clock := clock s; log := log s; files := files s;
             folders := folders s; processor := f (processor s) |}).

(* ===================================================================== *)
(** * file_utils.py *)
(* ===================================================================== *)

Module FileUtils.
Section FileUtils.
Context {W : World}.

(** Whole-file overwrite of [data_dir / name]; any error is swallowed
    and reported as [False].  [open(file_path, "w")] empties the file
    before [json.dump] writes: a failure after the file was opened leaves
    it truncated, a failure before leaves it as it was. *)
Definition save_results_to_json (results : checkpoint) (name : pystr) : M bool :=
  ok ← ask (EWriteJson name) w_disk_ok;
  if ok : bool
  then write_json name results;; mret true
  else
    opened ← follow_up w_disk_ok;
    (if opened : bool then write_json name Truncated else mret tt);;
    mret false.

(** [get_results_from_json(configGS['filtered'])]: the dictionary of the
    file, or [{}] when the file is missing or unreadable. *)
Definition get_results_from_json (path : pystr) : M (gmap pystr pystr) :=
  s ← get_state;
  match files s !! path with
  | Some (Filtered m) => mret m
  | _ => mret ∅
  end.

Definition get_docx_or_pdf_content_by_announcement_id
    (announcement_id : pystr) : M (option pystr) :=
  s ← get_state;
  match folders s !! announcement_id with
  | None => mret None                       (* not folder_path.is_dir() *)
  | Some names => mret (w_doc_text announcement_id names)
  end.

Definition get_file_md5 (announcement_id : pystr) : M (option pystr) :=
  s ← get_state;
  match folders s !! announcement_id with
  | None => mret None
  | Some names => mret (w_file_md5 announcement_id names)
  end.

Definition get_file_convert (announcement_id : pystr) : M (option pystr) :=
  s ← get_state;
  match folders s !! announcement_id with
  | None => mret None
  | Some names => mret (w_file_base64 announcement_id names)
  end.

End FileUtils.
End FileUtils.

(* ===================================================================== *)
(** * scorer.py *)
(* ===================================================================== *)

Module Scorer.

Definition possible : pystr := Eval vm_compute in Str.utf8 "возможно".
Definition net : pystr := Eval vm_compute in Str.utf8 "нет".
Definition unknown : pystr := Eval vm_compute in Str.utf8 "неизвестно".
Definition da : pystr := Eval vm_compute in Str.utf8 "да".
Definition newline : pystr := [10%N].

(** The names bound at module level in scorer.py: its imports
    ([from config import config, configGS] and the others), [logger],
    and its own classes, functions and constants. *)
Definition module_globals : list string :=
  [ "datetime"; "sleep"; "Dict"; "Any"; "Optional"; "Callable";
    "dataclass"; "requests"; "json"; "logging"; "re";
    "get_docx_or_pdf_content_by_announcement_id"; "save_results_to_json";
    "config"; "configGS"; "logger"; "ModelResponse"; "ModelClient";
    "request_to_model"; "get_summary_from_model";
    "get_translate_of_summary"; "final_request_to_model"; "KEYWORDS";
    "final_score"; "_has_enough_keywords"; "_process_short_text";
    "_process_long_text"; "_retry_model_request"; "_normalize_decision";
    "_save_result" ]%string.

(** Reading a global name that the function body does not bind. *)
Definition load_global (name : string) : M unit :=
  if bool_decide (name ∈ module_globals) then mret tt else raise NameError.

Record ModelResponse := {
  decision : pystr;
  summary : pystr;
}.

Definition KEYWORDS : list pystr := Eval vm_compute in
  map Str.utf8
    [ "электронный документооборот"; "система электронного документооборота";
      "электронная цифровая подпись"; "целостность документа";
      "подлинность документа"; "удостоверяющий центр";
      "регистрационно-контрольная карточка"; "согласование документа";
      "регистрация документов"; "внутренние документы"; "эцп"; "сэд" ]%string.

(** [range(start, stop, step)] as the iterator produces it; [stop]
    rounds are enough for [step >= 1]. *)
Fixpoint range_from (fuel start stop step : nat) : list nat :=
  match fuel with
  | 0 => []
  | S fuel' =>
    if start <? stop then start :: range_from fuel' (start + step) stop step
    else []
  end.

Definition py_range (start stop step : nat) : M (list nat) :=
  if step =? 0 then raise ValueError     (* range() arg 3 must not be zero *)
  else mret (range_from stop start stop step).

Section Scorer.
Context {lib : PyLib} {cfg : AppConfig} {W : World}.

Definition request_to_model (description : pystr) : M pystr :=
  try_except
    (response ← ask (EGenerate description) (fun t => w_generate t description);
     match response with
     | NoResponse => mret unknown
     | Malformed => raise TypeError
     | Content text =>
       let raw_output := str_lower (str_strip text) in
       if Str.contains possible raw_output then mret possible
       else if Str.contains net raw_output then mret net
       else mret unknown
     end)
    (fun _ => mret unknown).

Definition get_summary_from_model (text : pystr) : M pystr :=
  try_except
    (response ← ask (EChat Summarize text) (fun t => w_chat t Summarize text);
     match response with
     | NoResponse => mret []
     | Malformed => raise KeyError
     | Content c => mret (str_strip c)
     end)
    (fun _ => mret []).

(** The request body is built first ([{"model": model_name, ...}]), then
    posted; [raise_for_status] and the indexing of the JSON body raise. *)
Definition get_translate_of_summary (text : pystr) : M pystr :=
  load_global "model_name";;
  response ← ask (EChat Translate text) (fun t => w_chat t Translate text);
  match response with
  | NoResponse => raise RequestException
  | Malformed => raise KeyError
  | Content c => mret (str_strip c)
  end.

Definition final_request_to_model (text : pystr) : M pystr :=
  load_global "model_name";;
  response ← ask (EChat Classify text) (fun t => w_chat t Classify text);
  match response with
  | NoResponse => raise RequestException
  | Malformed => raise KeyError
  | Content c => mret (str_lower (str_strip c))
  end.

Definition _has_enough_keywords (text : pystr) (threshold : option nat) : bool :=
  let threshold := or_default threshold (document_keyword_threshold document) in
  let count :=
    length (List.filter
              (fun keyword => Str.contains (str_lower keyword) (str_lower text))
              KEYWORDS) in
  threshold <=? count.

(** [for attempt in range(max_retry)]: a truthy result is returned, an
    empty one or an exception is followed by [sleep(delay)]. *)
Fixpoint _retry_model_request (func : M pystr) (max_retry delay : nat) : M pystr :=
  match max_retry with
  | 0 => mret net
  | S remaining =>
    outcome ← attempt func;
    match outcome with
    | Ok (c :: result) => mret (c :: result)
    | _ => sleep delay;; _retry_model_request func remaining delay
    end
  end.

Definition _normalize_decision (response : pystr) : pystr :=
  let response := str_lower (str_strip response) in
  if Str.startswith da response then da else net.

Definition _process_short_text (text : pystr) : M (pystr * pystr) :=
  summary ← get_summary_from_model text;
  decision ← _retry_model_request (final_request_to_model text) 3 5;
  mret (summary, _normalize_decision decision).

(** The [for i, start in enumerate(range(0, len(text), chunk_size))] loop
    of [_process_long_text]. *)
Fixpoint _process_long_text_loop (text : pystr) (chunk_size max_chunks : nat)
    (i : nat) (starts : list nat) (summaries : list pystr) : M (list pystr) :=
  match starts with
  | [] => mret summaries
  | start :: rest =>
    if max_chunks <=? i then mret summaries      (* break *)
    else
      let chunk := Str.slice start (start + chunk_size) text in
      summary ← _retry_model_request (get_summary_from_model chunk) 3 5;
      _process_long_text_loop text chunk_size max_chunks (S i) rest
                              (summaries ++ [summary])
  end.

(** What follows the loop: the combined summary and the decision. *)
Definition _process_long_text_decide (summaries : list pystr) : M (pystr * pystr) :=
  let full_summary := Str.join newline summaries in
  decision_summary ← _retry_model_request (get_summary_from_model full_summary) 3 5;
  final_decision ← _retry_model_request (final_request_to_model decision_summary) 3 5;
  mret (full_summary, _normalize_decision final_decision).

Definition _process_long_text (text : pystr) (chunk_size max_chunks : option nat)
    : M (pystr * pystr) :=
  let chunk_size := or_default chunk_size (document_chunk_size document) in
  let max_chunks := or_default max_chunks (document_max_chunks document) in
  starts ← py_range 0 (length text) chunk_size;
  summaries ← _process_long_text_loop text chunk_size max_chunks 0 starts [];
  _process_long_text_decide summaries.

(** [_save_result] builds a local dictionary and logs; nothing is stored. *)
Definition _save_result (announcement_id : pystr)
    (summary final_score : option pystr) : M unit := mret tt.

Definition rejection : ModelResponse := {| decision := net; summary := [] |}.

(** The [try] block of [final_score], up to the translation *)
Definition final_score_evaluate (announcement_id : pystr)
    : M (option (pystr * pystr)) :=
  doc_text ← FileUtils.get_docx_or_pdf_content_by_announcement_id announcement_id;
  match doc_text with
  | None | Some [] =>
    _save_result announcement_id None (Some net);; mret None
  | Some doc_text =>
    if negb (_has_enough_keywords doc_text None)
    then _save_result announcement_id None (Some net);; mret None
    else
      '(summary, decision) ←
        (if length doc_text <=? document_chunk_size document
         then _process_short_text doc_text
         else _process_long_text doc_text None None);
      (if Str.eqb decision da
       then _save_result announcement_id (Some summary) None
       else _save_result announcement_id None (Some net));;
      mret (Some (summary, decision))
  end.

Definition final_score (announcement_id : pystr) : M ModelResponse :=
  try_except
    (evaluated ← final_score_evaluate announcement_id;
     match evaluated with
     | None => mret rejection
     | Some (summary, decision) =>
       translated_summary ← get_translate_of_summary summary;
       mret {| decision := decision; summary := translated_summary |}
     end)
    (fun _ => mret rejection).

End Scorer.
End Scorer.

(* ===================================================================== *)
(** * parser.py and parsers/base_parser.py: the retry client *)
(* ===================================================================== *)

Module Parser.
Section Parser.
Context {cfg : AppConfig} {W : World}.

(** [for attempt in range(1, retries + 1)]: the body of both
    [WebScraper.request_with_retry] and [BaseParser.request_with_retry];
    [remaining] counts the iterations left, [attempt] is the loop
    variable. *)
Fixpoint request_with_retry_loop (url : pystr) (retries pause : nat)
    (attempt remaining : nat) : M (option pystr) :=
  match remaining with
  | 0 => mret None
  | S remaining' =>
    reply ← ask (EGet url) (fun t => w_get t url);
    match session_reply reply with
    | Status code body =>
      if code =? 200 then mret (Some body)
      else
        (if code =? 429 then sleep 60 else sleep pause);;
        request_with_retry_loop url retries pause (S attempt) remaining'
    | ConnError =>
      (if attempt <? retries then sleep pause else mret tt);;
      request_with_retry_loop url retries pause (S attempt) remaining'
    end
  end.

(** [WebScraper.request_with_retry(url, retries=None, pause=None)] *)
Definition request_with_retry (url : pystr) (retries pause : option nat)
    : M (option pystr) :=
  let retries := or_default retries (scraping_max_retries scraping) in
  let pause := or_default pause (scraping_retry_delay scraping) in
  request_with_retry_loop url retries pause 1 retries.

End Parser.
End Parser.

Module BaseParser.
Section BaseParser.
Context {W : World}.

Record SiteConfig := {
  base_url : pystr;
  search_url : pystr;
  request_delay : nat;
  max_retries : nat;
  retry_delay : nat;
}.

(** [BaseParser.request_with_retry(self, url)] with [self.config] *)
Definition request_with_retry (config : SiteConfig) (url : pystr)
    : M (option pystr) :=
  Parser.request_with_retry_loop url (max_retries config) (retry_delay config)
                                 1 (max_retries config).

End BaseParser.
End BaseParser.

(* ===================================================================== *)
(** * downloader.py *)
(* ===================================================================== *)

Module Downloader.

Record DownloadStats := {
  total_files : nat;
  downloaded_files : nat;
  skipped_files : nat;
  download_errors : nat;
}.

Definition new_stats : DownloadStats :=
  {| total_files := 0; downloaded_files := 0; skipped_files := 0;
     download_errors := 0 |}.

Definition add_skipped (st : DownloadStats) : DownloadStats :=
  {| total_files := total_files st; downloaded_files := downloaded_files st;
     skipped_files := S (skipped_files st);
     download_errors := download_errors st |}.

Definition add_downloaded (st : DownloadStats) : DownloadStats :=
  {| total_files := total_files st;
     downloaded_files := S (downloaded_files st);
     skipped_files := skipped_files st;
     download_errors := download_errors st |}.

Definition add_error (st : DownloadStats) : DownloadStats :=
  {| total_files := total_files st; downloaded_files := downloaded_files st;
     skipped_files := skipped_files st;
     download_errors := S (download_errors st) |}.

Definition url_announce : pystr :=
  Eval vm_compute in Str.utf8 "https://goszakup.gov.kz/ru/announce/index/".
Definition url_show_files : pystr :=
  Eval vm_compute in
    Str.utf8 "https://goszakup.gov.kz/ru/announce/actionAjaxModalShowFiles/".
Definition tab_documents : pystr := Eval vm_compute in Str.utf8 "?tab=documents".
Definition slash : pystr := Eval vm_compute in Str.utf8 "/".
Definition underscore : pystr := Eval vm_compute in Str.utf8 "_".
Definition dot_pdf : pystr := Eval vm_compute in Str.utf8 ".pdf".
Definition signature : pystr := Eval vm_compute in Str.utf8 "signature".
Definition tech_spec : pystr := Eval vm_compute in Str.utf8 "Техническая спецификация".
Definition tech_task : pystr := Eval vm_compute in Str.utf8 "Техническое задание".
Definition label_number : pystr := Eval vm_compute in Str.utf8 "Номер объявления".
Definition label_name : pystr := Eval vm_compute in Str.utf8 "Наименование объявления".
Definition label_status : pystr := Eval vm_compute in Str.utf8 "Статус объявления".
Definition label_start : pystr := Eval vm_compute in Str.utf8 "Срок начала приема заявок".
Definition label_end : pystr := Eval vm_compute in Str.utf8 "Срок окончания приема заявок".
Definition th_type : pystr := Eval vm_compute in Str.utf8 "Способ проведения закупки".
Definition th_organizer : pystr := Eval vm_compute in Str.utf8 "Организатор".
Definition th_amount : pystr := Eval vm_compute in Str.utf8 "Сумма закупки".

(** The [while file_path.exists()] loop of [download_file]: the name
    under which the file is saved.  [size folder + 1] rounds are enough
    (see [unique_name_fresh]). *)
Fixpoint unique_name_loop (fuel : nat) (folder : gset pystr)
    (category_id ext file_path : pystr) (counter : nat) : pystr :=
  match fuel with
  | 0 => file_path
  | S fuel' =>
    if bool_decide (file_path ∈ folder)
    then unique_name_loop fuel' folder category_id ext
           (category_id ++ underscore ++ Str.of_nat counter ++ ext) (S counter)
    else file_path
  end.

Definition unique_name (folder : gset pystr) (category_id ext : pystr) : pystr :=
  unique_name_loop (S (size folder)) folder category_id ext (category_id ++ ext) 1.

Section Downloader.
Context {lib : PyLib} {cfg : AppConfig} {W : World}.

(** The [for attempt in range(max_retries)] loop of
    [FileDownloader.get_with_retries]; [session.get] then
    [raise_for_status], which raises on 4xx and 5xx. *)
Fixpoint get_with_retries_loop (url : pystr) (max_retries delay : nat)
    (attempt remaining : nat) (st : DownloadStats)
    : M (option pystr * DownloadStats) :=
  match remaining with
  | 0 => mret (None, st)
  | S remaining' =>
    reply ← ask (EGet url) (fun t => w_get t url);
    match session_reply reply with
    | Status code body =>
      if (400 <=? code) && (code <? 600)
      then
        (if attempt <? max_retries - 1
         then sleep delay;;
              get_with_retries_loop url max_retries delay (S attempt) remaining' st
         else get_with_retries_loop url max_retries delay (S attempt) remaining'
                                    (add_error st))
      else mret (Some body, st)
    | ConnError =>
      if attempt <? max_retries - 1
      then sleep delay;;
           get_with_retries_loop url max_retries delay (S attempt) remaining' st
      else get_with_retries_loop url max_retries delay (S attempt) remaining'
                                 (add_error st)
    end
  end.

(** [FileDownloader.get_with_retries(url, max_retries=None, delay=None)];
    [st] is [self.stats]. *)
Definition get_with_retries (st : DownloadStats) (url : pystr)
    (max_retries delay : option nat) : M (option pystr * DownloadStats) :=
  let max_retries := or_default max_retries (scraping_max_retries scraping) in
  let delay := or_default delay (scraping_retry_delay scraping) in
  get_with_retries_loop url max_retries delay 0 max_retries st.

Definition get_announcement_info (announcement_id : pystr) : M (option Info) :=
  try_except
    (let company_url := url_announce ++ announcement_id in
     '(response, _) ← get_with_retries new_stats company_url None None;
     match response with
     | None => mret None
     | Some body =>
       let number := html_input_after_label body label_number in
       let correspondent_text := default [] (html_table_cell body th_organizer) in
       let '(correspondent_text, correspondent_id) :=
         match re_twelve_digits correspondent_text with
         | Some found =>
           (str_strip (str_replace correspondent_text found []), Some found)
         | None => (correspondent_text, None)
         end in
       mret (Some {|
         i_announcement_id :=
           match number with
           | Some (c :: n) => c :: n
           | _ => announcement_id
           end;
         i_name := html_input_after_label body label_name;
         i_amount := html_table_cell body th_amount;
         i_type := html_table_cell body th_type;
         i_status := html_input_after_label body label_status;
         i_correspondent := correspondent_text;
         i_correspondent_id := correspondent_id;
         i_started_at := html_input_after_label body label_start;
         i_finished_at := html_input_after_label body label_end;
         i_techspec_summary := [];
         i_link := company_url;
         i_summary := None |})
     end)
    (fun _ => mret None).

(** Extension of the saved file: [".pdf"] unless the Content-Disposition
    header names a file. *)
Definition extension_of (content_disposition : option pystr) : pystr :=
  match content_disposition with
  | Some (c :: cd) =>
    match disposition_filename (c :: cd) with
    | Some file_name => splitext_ext file_name
    | None => dot_pdf
    end
  | _ => dot_pdf
  end.

(** The [for link in file_links] loop of [download_file] *)
Fixpoint download_file_loop (announcement_id category_id raw_id : pystr)
    (file_links : list pystr) (downloaded_count : nat) (st : DownloadStats)
    : M (nat * DownloadStats) :=
  match file_links with
  | [] => mret (downloaded_count, st)
  | href :: rest =>
    let continue count st' :=
      download_file_loop announcement_id category_id raw_id rest count st' in
    if Str.contains signature href then continue downloaded_count st
    else
      head_response ← ask (EHead href) (fun t => w_head t href);
      match head_response with
      | None => continue downloaded_count st
      | Some content_disposition =>
        let ext := extension_of content_disposition in
        s ← get_state;
        let folder := default ∅ (folders s !! raw_id) in
        let file_path := unique_name folder category_id ext in
        if bool_decide (file_path ∈ folder)
        then continue downloaded_count (add_skipped st)
        else
          sleep 3;;
          fetched ← ask (EFetch href) (fun t => w_fetch t href);
          if fetched : bool
          then
            written ← ask (EWriteFile raw_id file_path) w_disk_ok;
            if written : bool
            then
              create_file raw_id file_path;;
              continue (S downloaded_count) (add_downloaded st)
            else
              (* [open(file_path, "wb")] comes before the chunks of
                 [iter_content] are written: a failure after it leaves
                 the file, which is not counted *)
              opened ← follow_up w_disk_ok;
              (if opened : bool then create_file raw_id file_path
               else mret tt);;
              continue downloaded_count (add_error st)
          else continue downloaded_count (add_error st)
      end
  end.

(** [download_file] together with the counters of its [FileDownloader],
    which the Python function drops on return. *)
Definition download_file_stats (announcement_id category_id raw_id : pystr)
    : M (bool * DownloadStats) :=
  let download_url := url_show_files ++ announcement_id ++ slash ++ category_id in
  '(response, st) ← get_with_retries new_stats download_url None None;
  match response with
  | None => mret (false, st)
  | Some body =>
    match html_links body with
    | [] => mret (false, st)
    | file_links =>
      made ← ask (EMkdir raw_id) w_disk_ok;
      if made : bool
      then
        make_folder raw_id;;
        '(downloaded_count, st) ←
          download_file_loop announcement_id category_id raw_id file_links 0 st;
        mret (0 <? downloaded_count, st)
      else raise OSError
    end
  end.

Definition download_file (announcement_id category_id raw_id : pystr) : M bool :=
  try_except
    ('(ok, _) ← download_file_stats announcement_id category_id raw_id; mret ok)
    (fun _ => mret false).

(** The [for row in rows] loop of [process_by_announcement_id]; it ends
    at the first technical-specification row whose button carries a
    category id. *)
Fixpoint find_and_download (announcement_id raw_id : pystr)
    (rows : list doc_row) : M bool :=
  match rows with
  | [] => mret false
  | row :: rest =>
    if row_columns row <? 3 then find_and_download announcement_id raw_id rest
    else if Str.contains tech_spec (row_doc_name row)
            || Str.contains tech_task (row_doc_name row)
    then
      match row_onclick row with
      | Some onclick =>
        match re_show_files onclick with
        | Some category_id => download_file announcement_id category_id raw_id
        | None => find_and_download announcement_id raw_id rest
        end
      | None => find_and_download announcement_id raw_id rest
      end
    else find_and_download announcement_id raw_id rest
  end.

Definition process_by_announcement_id (announcement_id : pystr) : M (option Info) :=
  try_except
    (let raw_id := announcement_id in
     let announcement_id := Str.drop_last 2 announcement_id in
     let page_url := url_announce ++ announcement_id ++ tab_documents in
     '(response, _) ← get_with_retries new_stats page_url None None;
     match response with
     | None => mret None
     | Some body =>
       sleep 2;;
       found ← find_and_download announcement_id raw_id (html_doc_rows body);
       get_announcement_info announcement_id
     end)
    (fun _ => mret None).

End Downloader.
End Downloader.

(* ===================================================================== *)
(** * uploader.py: the intake submitter *)
(* ===================================================================== *)

Module Uploader.

Definition not_given : pystr := Eval vm_compute in Str.utf8 "Не указано".
Definition none_text : pystr := Eval vm_compute in Str.utf8 "None".
Definition colon : pystr := Eval vm_compute in Str.utf8 ": ".
Definition f_name : pystr := Eval vm_compute in Str.utf8 "Название".
Definition f_amount : pystr := Eval vm_compute in Str.utf8 "Сумма закупки".
Definition f_type : pystr := Eval vm_compute in Str.utf8 "Тип закупки".
Definition f_status : pystr := Eval vm_compute in Str.utf8 "Статус объявления".
Definition f_start : pystr := Eval vm_compute in Str.utf8 "Срок начала приема заявок".
Definition f_end : pystr := Eval vm_compute in Str.utf8 "Срок окончания приема заявок".
Definition f_number : pystr := Eval vm_compute in Str.utf8 "Номер объявления".
Definition f_link : pystr := Eval vm_compute in Str.utf8 "Ссылка".

(** [f"{value}"] of a value that is a string or [None] *)
Definition show (value : option pystr) : pystr := default none_text value.

Section Uploader.
Context {lib : PyLib} {W : World}.

(** [DocumentUploader._validate_input_data]: raises [ValueError] *)
Definition _validate_input_data
    (company_name bin message file md5sum kratkij_ii_analiz_ts : pystr) : M unit :=
  if negb (forallb Str.truthy [company_name; bin; message; file; md5sum])
  then raise ValueError
  else if negb (str_isdigit bin) || negb (length bin =? 12)
  then raise ValueError
  else if negb (Str.truthy file)
  then raise ValueError
  else if negb (Str.truthy md5sum) || negb (length md5sum =? 32)
  then raise ValueError
  else mret tt.

(** [DocumentUploader.upload], which the module-level [upload] wraps *)
Definition upload
    (company_name bin message file md5sum kratkij_ii_analiz_ts : pystr)
    : M (option pystr) :=
  validated ← attempt (_validate_input_data company_name bin message file
                                             md5sum kratkij_ii_analiz_ts);
  match validated with
  | Raise ValueError => mret None
  | Raise e => raise e
  | Ok _ =>
    let data := {| p_bin := bin; p_nazvanie_kompanii := company_name;
                   p_tekst_soobsheniya := message;
                   p_kratkij_ii_analiz_ts := kratkij_ii_analiz_ts;
                   p_base64 := file; p_md5sum := md5sum |} in
    response ← ask (EUpload data) (fun t => w_intake t data);
    match response with
    | Some (Some document_id) => mret (Some document_id)
    | _ => mret None
    end
  end.

Definition _format_tender_message (item : Info) (started_at finished_at : pystr)
    : pystr :=
  let fields :=
    [ (f_name, show (i_name item));
      (f_amount, show (i_amount item));
      (f_type, show (i_type item));
      (f_status, show (i_status item));
      (f_start, started_at);
      (f_end, finished_at);
      (f_number, i_announcement_id item);
      (f_link, i_link item) ] in
  Str.join Scorer.newline
           (map (fun '(field, value) => field ++ colon ++ value) fields).

Definition executor (item : Info) : M (option pystr) :=
  match i_announcement_id item with
  | [] => mret None
  | announcement_id =>
    try_except
      (match i_correspondent item, i_correspondent_id item with
       | c :: company_name, Some (b :: bin) =>
         let company_name := c :: company_name in
         let bin := b :: bin in
         let '(started_at, finished_at) :=
           match i_started_at item ≫= isoformat_to_display,
                 i_finished_at item ≫= isoformat_to_display with
           | Some started_at, Some finished_at => (started_at, finished_at)
           | _, _ => (not_given, not_given)
           end in
         let kratkij_ii_analiz_ts := default [] (i_summary item) in
         let message := _format_tender_message item started_at finished_at in
         file ← FileUtils.get_file_convert announcement_id;
         match file with
         | Some (f :: file) =>
           md5sum ← FileUtils.get_file_md5 announcement_id;
           match md5sum with
           | Some (m :: md5sum) =>
             upload company_name bin message (f :: file) (m :: md5sum)
                    kratkij_ii_analiz_ts
           | _ => mret None
           end
         | _ => mret None
         end
       | _, _ => mret None
       end)
      (fun _ => mret None)
  end.

End Uploader.
End Uploader.

(* ===================================================================== *)
(** * main.py: the orchestrator *)
(* ===================================================================== *)

Module Main.

Definition key_name : pystr := Eval vm_compute in Str.utf8 "name".

(** [result2['decision']]: [ModelResponse] is a plain dataclass and
    defines no [__getitem__], so subscripting it raises [TypeError]
    ("'ModelResponse' object is not subscriptable"). *)
Definition ModelResponse_getitem (result : Scorer.ModelResponse) (key : string)
    : M pystr := raise TypeError.

(** [entry['name']] *)
Definition entry_getitem (entry : gmap pystr pystr) (key : pystr) : M pystr :=
  match entry !! key with
  | Some v => mret v
  | None => raise KeyError
  end.

Definition modify_stats (f : ProcessingStats -> ProcessingStats) : M unit :=
  modify_processor (fun p =>
    {| stats := f (stats p); stage1_success := stage1_success p;
       stage2_success := stage2_success p;
       already_processed := already_processed p |}).

Definition incr_total (st : ProcessingStats) : ProcessingStats :=
  {| total_processed := S (total_processed st);
     stats_stage1_success := stats_stage1_success st;
     stats_stage2_success := stats_stage2_success st;
     uploads_successful := uploads_successful st; errors := errors st |}.
Definition incr_stage1 (st : ProcessingStats) : ProcessingStats :=
  {| total_processed := total_processed st;
     stats_stage1_success := S (stats_stage1_success st);
     stats_stage2_success := stats_stage2_success st;
     uploads_successful := uploads_successful st; errors := errors st |}.
Definition incr_stage2 (st : ProcessingStats) : ProcessingStats :=
  {| total_processed := total_processed st;
     stats_stage1_success := stats_stage1_success st;
     stats_stage2_success := S (stats_stage2_success st);
     uploads_successful := uploads_successful st; errors := errors st |}.
Definition incr_uploads (st : ProcessingStats) : ProcessingStats :=
  {| total_processed := total_processed st;
     stats_stage1_success := stats_stage1_success st;
     stats_stage2_success := stats_stage2_success st;
     uploads_successful := S (uploads_successful st); errors := errors st |}.
Definition incr_errors (st : ProcessingStats) : ProcessingStats :=
  {| total_processed := total_processed st;
     stats_stage1_success := stats_stage1_success st;
     stats_stage2_success := stats_stage2_success st;
     uploads_successful := uploads_successful st; errors := S (errors st) |}.

(** [self.already_processed[k] = {'name': v}] *)
Definition set_already_processed (k v : pystr) : M unit :=
  modify_processor (fun p =>
    {| stats := stats p; stage1_success := stage1_success p;
       stage2_success := stage2_success p;
       already_processed := <[k := v]> (already_processed p) |}).

(** [self.stage1_success[k] = True] *)
Definition set_stage1_success (k : pystr) : M unit :=
  modify_processor (fun p =>
    {| stats := stats p;
       stage1_success := <[k := true]> (stage1_success p);
       stage2_success := stage2_success p;
       already_processed := already_processed p |}).

(** [self.stage2_success[k] = info] *)
Definition set_stage2_success (k : pystr) (info : Info) : M unit :=
  modify_processor (fun p =>
    {| stats := stats p; stage1_success := stage1_success p;
       stage2_success := <[k := info]> (stage2_success p);
       already_processed := already_processed p |}).

Definition with_summary (info : Info) (summary : pystr) : Info :=
  {| i_announcement_id := i_announcement_id info; i_name := i_name info;
     i_amount := i_amount info; i_type := i_type info;
     i_status := i_status info; i_correspondent := i_correspondent info;
     i_correspondent_id := i_correspondent_id info;
     i_started_at := i_started_at info; i_finished_at := i_finished_at info;
     i_techspec_summary := i_techspec_summary info; i_link := i_link info;
     i_summary := Some summary |}.

Definition new_processor : TenderProcessor :=
  {| stats := {| total_processed := 0; stats_stage1_success := 0;
                 stats_stage2_success := 0; uploads_successful := 0;
                 errors := 0 |};
     stage1_success := ∅; stage2_success := ∅; already_processed := ∅ |}.

Section Main.
Context {lib : PyLib} {cfg : AppConfig} {W : World}.

(** [TenderProcessor.load_processed_data] *)
Definition load_processed_data : M unit :=
  loaded ← FileUtils.get_results_from_json configGS_filtered;
  modify_processor (fun p =>
    {| stats := stats p; stage1_success := stage1_success p;
       stage2_success := stage2_success p;
       already_processed := loaded |}).

(** The start of the [try] block of [process_announcement]: count the
    announcement, mark it as seen and rewrite the "filtered" file. *)
Definition process_announcement_mark (announcement_id : pystr)
    (entry : gmap pystr pystr) : M unit :=
  modify_stats incr_total;;
  name ← entry_getitem entry key_name;
  set_already_processed announcement_id name;;
  s ← get_state;
  FileUtils.save_results_to_json (Filtered (already_processed (processor s)))
                                 configGS_filtered;;
  mret tt.

(** The rest of the [try] block: stage 1 on the title, document
    acquisition, stage 2, upload.  The writes to [entry]
    ([entry['result1']], [entry['result2']]) change a dictionary of
    [full_data] that is not read again and are left out. *)
Definition process_announcement_stages (announcement_id : pystr)
    (entry : gmap pystr pystr) : M unit :=
  name ← entry_getitem entry key_name;
  result1 ← Scorer.request_to_model name;
  if Str.eqb result1 Scorer.possible
  then
    modify_stats incr_stage1;;
    set_stage1_success announcement_id;;
    info ← Downloader.process_by_announcement_id announcement_id;
    match info with
    | None => modify_stats incr_errors
    | Some info =>
      result2 ← Scorer.final_score announcement_id;
      (* entry['result2'] = result2['decision'], the log line, the test *)
      _ ← ModelResponse_getitem result2 "decision";
      _ ← ModelResponse_getitem result2 "decision";
      decision ← ModelResponse_getitem result2 "decision";
      if Str.eqb decision Scorer.da
      then
        modify_stats incr_stage2;;
        summary ← ModelResponse_getitem result2 "summary";
        let info := with_summary info summary in
        set_stage2_success announcement_id info;;
        document_id ← Uploader.executor info;
        match document_id with
        | Some (_ :: _) => modify_stats incr_uploads
        | _ => modify_stats incr_errors
        end
      else mret tt
    end
  else mret tt.

(** [TenderProcessor.process_announcement] *)
Definition process_announcement (announcement_id : pystr)
    (entry : gmap pystr pystr) : M unit :=
  try_except
    (process_announcement_mark announcement_id entry;;
     process_announcement_stages announcement_id entry)
    (fun _ => modify_stats incr_errors).

(** [TenderProcessor.save_results] *)
Definition save_results : M unit :=
  try_except
    (s ← get_state;
     let p := processor s in
     FileUtils.save_results_to_json (Stage1 (stage1_success p)) configGS_stage1s;;
     FileUtils.save_results_to_json (Stage2 (stage2_success p)) configGS_stage2s;;
     FileUtils.save_results_to_json (Filtered (already_processed p))
                                    configGS_filtered;;
     mret tt)
    (fun _ => mret tt).

(** [original_id]: the part after the first ['_'], if there is one *)
Fixpoint after_first_underscore (s : pystr) : option pystr :=
  match s with
  | [] => None
  | c :: rest => if (c =? 95)%N then Some rest else after_first_underscore rest
  end.

(** The [for announcement_id, entry in full_data.items()] loop of [main] *)
Fixpoint process_all (full_data : list (pystr * gmap pystr pystr)) : M unit :=
  match full_data with
  | [] => mret tt
  | (announcement_id, entry) :: rest =>
    s ← get_state;
    match already_processed (processor s) !! announcement_id with
    | Some _ => process_all rest
    | None =>
      let original_id :=
        default announcement_id (after_first_underscore announcement_id) in
      process_announcement original_id entry;;
      process_all rest
    end
  end.

(** [main] around discovery: the processor is created and loads the seen
    map, then [main] calls [process_page] or [process_multiple_sites],
    which are not part of this definition; [full_data] stands for the
    dictionary that call returned, in iteration order, and the requests
    of discovery are not in the log. *)
Definition main (full_data : list (pystr * gmap pystr pystr)) : M unit :=
  modify_processor (fun _ => new_processor);;
  load_processed_data;;
  match full_data with
  | [] => mret tt                 (* not full_data: return *)
  | _ => process_all full_data;; save_results
  end.

(** The run cut short by an interruption that arrives when the first
    [done] announcements of [full_data] have been gone through: the loop
    stops there and [save_results] is not reached. *)
Definition main_interrupted (done : nat)
    (full_data : list (pystr * gmap pystr pystr)) : M unit :=
  modify_processor (fun _ => new_processor);;
  load_processed_data;;
  process_all (take done full_data).

End Main.
End Main.

(* ===================================================================== *)
(** * A concrete runtime, and worlds to run the code in *)
(* ===================================================================== *)

(** An instance of [PyLib] for running the code on examples.  Its string
    functions agree with Python's on Basic Latin and Cyrillic text, which
    is what the examples use; its HTML queries recognise the three example
    pages defined below. *)
Module Runtime.

Definition lower_cp (c : N) : N :=
  if ((65 <=? c) && (c <=? 90))%N then (c + 32)%N
  else if ((1040 <=? c) && (c <=? 1071))%N then (c + 32)%N
  else if ((1024 <=? c) && (c <=? 1039))%N then (c + 80)%N
  else c.

Definition lower (s : pystr) : pystr := map lower_cp s.

Definition is_space (c : N) : bool :=
  (((9 <=? c) && (c <=? 13)) || ((28 <=? c) && (c <=? 32))
   || (c =? 133) || (c =? 160))%N.

Fixpoint lstrip (s : pystr) : pystr :=
  match s with
  | c :: rest => if is_space c then lstrip rest else s
  | [] => []
  end.

Definition strip (s : pystr) : pystr := rev (lstrip (rev (lstrip s))).

Definition is_digit (c : N) : bool := ((48 <=? c) && (c <=? 57))%N.

Definition isdigit (s : pystr) : bool := Str.truthy s && forallb is_digit s.

Definition is_word (c : N) : bool :=
  is_digit c || (((65 <=? c) && (c <=? 90)) || ((97 <=? c) && (c <=? 122))
                 || (c =? 95) || (128 <=? c))%N.

Fixpoint replace_from (fuel : nat) (old new s : pystr) : pystr :=
  match fuel, s with
  | S fuel', c :: rest =>
    if Str.startswith old s
    then new ++ replace_from fuel' old new (drop (length old) s)
    else c :: replace_from fuel' old new rest
  | _, _ => s
  end.

Definition replace (s old new : pystr) : pystr :=
  match old with
  | [] => s
  | _ => replace_from (length s) old new s
  end.

Fixpoint digits_prefix (s : pystr) : pystr * pystr :=
  match s with
  | c :: rest =>
    if is_digit c then let '(d, r) := digits_prefix rest in (c :: d, r)
    else ([], s)
  | [] => ([], [])
  end.

Fixpoint twelve_digits_from (prev_is_word : bool) (s : pystr) : option pystr :=
  match s with
  | [] => None
  | c :: rest =>
    let candidate := take 12 s in
    if negb prev_is_word && (length candidate =? 12)
       && forallb is_digit candidate
       && match drop 12 s with [] => true | d :: _ => negb (is_word d) end
    then Some candidate
    else twelve_digits_from (is_word c) rest
  end.

Definition twelve_digits (s : pystr) : option pystr := twelve_digits_from false s.

Definition show_files_call : pystr := Eval vm_compute in Str.utf8 "actionModalShowFiles(".

Definition show_files_at (s : pystr) : option pystr :=
  if Str.startswith show_files_call s then
    match digits_prefix (drop (length show_files_call) s) with
    | (_ :: _, 44%N :: r) =>
      match digits_prefix r with
      | (c :: d, 41%N :: _) => Some (c :: d)
      | _ => None
      end
    | _ => None
    end
  else None.

Fixpoint show_files (s : pystr) : option pystr :=
  match show_files_at s with
  | Some category => Some category
  | None => match s with [] => None | _ :: rest => show_files rest end
  end.

Definition quoted_filename : pystr :=
  Eval vm_compute in Str.utf8 "filename=" ++ [34%N].

Fixpoint until_quote (s : pystr) : option pystr :=
  match s with
  | [] => None
  | c :: rest => if (c =? 34)%N then Some []
                 else r ← until_quote rest; Some (c :: r)
  end.

(** the quoted [filename="..."] form only *)
Fixpoint filename_of (s : pystr) : option pystr :=
  match s with
  | [] => None
  | c :: rest =>
    if Str.startswith quoted_filename s then
      match drop (length quoted_filename) s with
      | a :: more => r ← until_quote more; Some (a :: r)
      | [] => None
      end
    else filename_of rest
  end.

Fixpoint ext_from (s : pystr) (seen_name : bool) : pystr :=
  match s with
  | [] => []
  | c :: rest =>
    let tail := ext_from rest (seen_name || negb (c =? 46)%N) in
    if (c =? 46)%N && seen_name && negb (Str.contains [46%N] rest) then s
    else tail
  end.

Definition splitext (name : pystr) : pystr := ext_from name false.

(** ["YYYY-MM-DD HH:MM..."] to ["DD.MM.YYYY HH:MM"] *)
Definition to_display (s : pystr) : option pystr :=
  if (16 <=? length s)
     && forallb is_digit (take 4 s ++ Str.slice 5 7 s ++ Str.slice 8 10 s
                          ++ Str.slice 11 13 s ++ Str.slice 14 16 s)
  then Some (Str.slice 8 10 s ++ [46%N] ++ Str.slice 5 7 s ++ [46%N]
             ++ take 4 s ++ [32%N] ++ Str.slice 11 16 s)
  else None.

(** The example pages: a documents tab with one technical-specification
    row, a file listing with one link, an announcement page. *)
Definition documents_page : pystr := Eval vm_compute in Str.utf8 "<documents tab>".
Definition files_page : pystr := Eval vm_compute in Str.utf8 "<file listing>".
Definition announce_page : pystr := Eval vm_compute in Str.utf8 "<announcement>".
Definition file_href : pystr :=
  Eval vm_compute in Str.utf8 "https://v3bl.goszakup.gov.kz/files/download_file/77/".

Definition links (body : pystr) : list pystr :=
  if bool_decide (body = files_page) then [file_href] else [].

Definition doc_rows (body : pystr) : list doc_row :=
  if bool_decide (body = documents_page)
  then [ {| row_columns := 3; row_doc_name := Downloader.tech_spec;
            row_onclick :=
              Some (Str.utf8 "actionModalShowFiles(12345678,3357)") |} ]
  else [].

Definition input_after_label (body label : pystr) : option pystr :=
  if bool_decide (body = announce_page) then
    if bool_decide (label = Downloader.label_number) then Some (Str.utf8 "12345678-1")
    else if bool_decide (label = Downloader.label_name)
    then Some (Str.utf8 "Услуги по сопровождению СЭД")
    else if bool_decide (label = Downloader.label_status) then Some (Str.utf8 "Опубликовано")
    else if bool_decide (label = Downloader.label_start) then Some (Str.utf8 "2025-03-01 09:00:00")
    else if bool_decide (label = Downloader.label_end) then Some (Str.utf8 "2025-03-15 18:00:00")
    else None
  else None.

Definition table_cell (body th : pystr) : option pystr :=
  if bool_decide (body = announce_page) then
    if bool_decide (th = Downloader.th_organizer)
    then Some (Str.utf8 "ТОО Ромашка 123456789012")
    else if bool_decide (th = Downloader.th_amount) then Some (Str.utf8 "1500000")
    else if bool_decide (th = Downloader.th_type) then Some (Str.utf8 "Открытый конкурс")
    else None
  else None.

Definition lib : PyLib := {|
  str_lower := lower;
  str_strip := strip;
  str_isdigit := isdigit;
  str_replace := replace;
  re_show_files := show_files;
  re_twelve_digits := twelve_digits;
  disposition_filename := filename_of;
  splitext_ext := splitext;
  isoformat_to_display := to_display;
  html_links := links;
  html_doc_rows := doc_rows;
  html_input_after_label := input_after_label;
  html_table_cell := table_cell;
|}.

Definition empty_state : state :=
  {| clock := 0; log := []; files := ∅; folders := ∅;
     processor := Main.new_processor |}.

End Runtime.

(** The end-to-end scenario: one announcement whose title the model calls
    "возможно", whose pages and file are served, whose document text of
    500 characters holds three keywords, and a model service that would
    answer "да" to the deep-analysis question. *)
Module Scenario.

Definition announcement_id : pystr := Eval vm_compute in Str.utf8 "12345678-1".
Definition title : pystr := Eval vm_compute in Str.utf8 "Услуги по сопровождению СЭД".

Definition doc_words : pystr := Eval vm_compute in
  Str.utf8 "Электронный документооборот, электронная цифровая подпись, регистрация документов.".

Definition doc_text : pystr := doc_words ++ repeat 32%N (500 - length doc_words).

Definition entry : gmap pystr pystr := {[ Main.key_name := title ]}.

Definition page_of (url : pystr) : pystr :=
  if bool_decide (url = Downloader.url_announce ++ Str.drop_last 2 announcement_id
                        ++ Downloader.tab_documents)
  then Runtime.documents_page
  else if bool_decide (url = Downloader.url_announce
                             ++ Str.drop_last 2 announcement_id)
  then Runtime.announce_page
  else Runtime.files_page.

(** the model service of the scenario *)
Definition answering (kind : chat_kind) : model_reply :=
  match kind with
  | Classify => Content (Str.utf8 "Да")
  | _ => Content (Str.utf8 "Сопровождение системы электронного документооборота.")
  end.

(** a world that serves every page and file, extracts [text] from the
    downloaded documents and answers chat requests with [chat] *)
Definition world_with (text : pystr) (chat : chat_kind -> model_reply) : World := {|
  w_generate := fun _ _ => Content (Str.utf8 "Возможно");
  w_chat := fun _ kind _ => chat kind;
  w_get := fun _ url => Status 200 (page_of url);
  w_head := fun _ _ => Some None;
  w_fetch := fun _ _ => true;
  w_disk_ok := fun _ => true;
  w_intake := fun _ _ => Some (Some (Str.utf8 "4021"));
  w_doc_text := fun _ _ => Some text;
  w_file_base64 := fun _ _ => Some (Str.utf8 "UEsDBBQABgAIAAAAIQ==");
  w_file_md5 := fun _ _ => Some (Str.utf8 "9e107d9d372bb6826bd81d3542a419d6");
|}.

Definition world : World := world_with doc_text answering.

(** a model service that is down *)
Definition silent_world : World := world_with doc_text (fun _ => NoResponse).

(** a document that mentions one keyword only *)
Definition sparse_text : pystr := Eval vm_compute in
  Str.utf8 "Поставка бумаги для офисной техники, внедрение СЭД не требуется.".

Definition sparse_world : World := world_with sparse_text answering.

(** the state once the technical specification has been saved *)
Definition downloaded : state :=
  {| clock := 0; log := []; files := ∅;
     folders := {[ announcement_id := {[ Str.utf8 "3357.pdf" ]} ]};
     processor := Main.new_processor |}.

(** chunks of four characters, at most two of them *)
Definition small_chunks : AppConfig := {|
  scraping := {| scraping_request_delay := 2; scraping_max_retries := 3;
                 scraping_retry_delay := 5 |};
  document := {| document_chunk_size := 4; document_max_chunks := 2;
                 document_keyword_threshold := 2 |};
|}.

(** a server on which the first three calls of the session end on 429,
    the re-sends of the adapter included, and every later call is
    answered 200 *)
Definition throttling_world : World := {|
  w_generate := fun _ _ => NoResponse;
  w_chat := fun _ _ _ => NoResponse;
  w_get := fun t _ => if t <? 3 then Status 429 [] else Status 200 Runtime.files_page;
  w_head := fun _ _ => None;
  w_fetch := fun _ _ => false;
  w_disk_ok := fun _ => true;
  w_intake := fun _ _ => None;
  w_doc_text := fun _ _ => None;
  w_file_base64 := fun _ _ => None;
  w_file_md5 := fun _ _ => None;
|}.

End Scenario.

(* ===================================================================== *)
(** * Vocabulary of the statements *)
(* ===================================================================== *)

Module Spec.

Definition is_summarize (e : event) : bool :=
  match e with EChat Summarize _ => true | _ => false end.

Definition is_translate (e : event) : bool :=
  match e with EChat Translate _ => true | _ => false end.

Definition is_upload (e : event) : bool :=
  match e with EUpload _ => true | _ => false end.


(** how many events of a kind a log holds *)
Definition count (kind : event -> bool) (l : list event) : nat :=
  length (List.filter kind l).

(** An attempt the retry wrapper does not accept: an empty (falsy)
    result or an exception. *)
Definition failed (outcome : res pystr) : Prop :=
  match outcome with
  | Ok (_ :: _) => False
  | _ => True
  end.

(** The state after an attempt of [func] that failed and the pause that
    follows it. *)
Definition after_failed_attempt (func : M pystr) (delay : nat) (s : state) : state :=
  snd (sleep delay (snd (func s))).

(** [ceil(a / b)] *)
Definition ceil_div (a b : nat) : nat := (a + b - 1) / b.

(** The chunks of the long path in the words of the specification: the
    first [min(ceil(L / chunk_size), max_chunks)] fixed-size slices
    [text[i * chunk_size : (i + 1) * chunk_size]]. *)
Definition chunks (text : pystr) (chunk_size max_chunks : nat) : list pystr :=
  (fun i => Str.slice (i * chunk_size) ((i + 1) * chunk_size) text)
    <$> seq 0 (min (ceil_div (length text) chunk_size) max_chunks).

(** the call the loop of the long path makes for one chunk *)
Definition summarize_chunk {lib : PyLib} {W : World} (chunk : pystr) : M pystr :=
  Scorer._retry_model_request (Scorer.get_summary_from_model chunk) 3 5.

(** The names [download_file] tries for a file of a category, in order:
    [{category_id}{ext}], then [{category_id}_{k}{ext}] for k = 1, 2, ... *)
Definition candidate (category_id ext : pystr) (k : nat) : pystr :=
  match k with
  | 0 => category_id ++ ext
  | S _ => category_id ++ Downloader.underscore ++ Str.of_nat k ++ ext
  end.

(** What document acquisition for [raw_id] may do: fetch the documents
    tab, a file listing or the announcement page of the id without its
    last two characters, probe and fetch files, pause, and create the
    folder named by the whole id and files in it. *)
Definition acquisition_event (raw_id : pystr) (e : event) : Prop :=
  let short := Str.drop_last 2 raw_id in
  match e with
  | EGet url =>
    url = Downloader.url_announce ++ short ++ Downloader.tab_documents
    \/ url = Downloader.url_announce ++ short
    \/ exists category_id,
         url = Downloader.url_show_files ++ short ++ Downloader.slash ++ category_id
  | EMkdir folder | EWriteFile folder _ => folder = raw_id
  | EHead _ | EFetch _ | ESleep _ => True
  | _ => False
  end.

(** the folders other than [raw_id] are the same *)
Definition same_outside (raw_id : pystr) (m m' : gmap pystr (gset pystr)) : Prop :=
  forall k, k <> raw_id -> m' !! k = m !! k.

(** the folder [raw_id], once it is there, is still there *)
Definition keeps_folder (raw_id : pystr) (m m' : gmap pystr (gset pystr)) : Prop :=
  is_Some (m !! raw_id) -> is_Some (m' !! raw_id).

(** the stage-1 and stage-2 checkpoint files are the same *)
Definition same_stage_files (m m' : gmap pystr checkpoint) : Prop :=
  m' !! configGS_stage1s = m !! configGS_stage1s /\
  m' !! configGS_stage2s = m !! configGS_stage2s.

Definition same_seen (p p' : TenderProcessor) : Prop :=
  already_processed p' = already_processed p.

Definition same_accepted (p p' : TenderProcessor) : Prop :=
  stage2_success p' = stage2_success p.

Definition anything {A} : relation A := fun _ _ => True.

Definition not_upload (e : event) : Prop := is_upload e = false.

(** the computation returned a value, and the value is not [None] *)
Definition is_Some_ok {A} (outcome : res (option A)) : bool :=
  match outcome with
  | Ok (Some _) => true
  | _ => false
  end.

(** The organizer id, the required fields and the checksum of an upload
    request as the submitter wants them. *)
Definition well_formed_upload {lib : PyLib}
    (company_name bin message file md5sum : pystr) : Prop :=
  company_name <> [] /\ bin <> [] /\ message <> [] /\ file <> [] /\ md5sum <> []
  /\ str_isdigit bin = true /\ length bin = 12 /\ length md5sum = 32.

End Spec.

(* ===================================================================== *)
(** * What a computation leaves alone *)
(* ===================================================================== *)

Module Frame.

(** events that carry no address built from an announcement id *)
Definition quiet (e : event) : bool :=
  match e with
  | ESleep _ | EHead _ | EFetch _ => true
  | _ => false
  end.

(** requests to the model service *)
Definition to_model (e : event) : bool :=
  match e with
  | EGenerate _ | EChat _ _ => true
  | _ => false
  end.

Section Frame.
Variable ev : event -> Prop.
Variable fd : relation (gmap pystr (gset pystr)).
Variable fl : relation (gmap pystr checkpoint).
Variable pr : relation TenderProcessor.

(** [s'] comes after [s] along a computation that logs only events in
    [ev] and moves the document folders along [fd], the checkpoint files
    along [fl] and the processor along [pr]. *)
Definition after (s s' : state) : Prop :=
  (exists new, log s' = log s ++ new /\ Forall ev new) /\
  fd (folders s) (folders s') /\
  fl (files s) (files s') /\
  pr (processor s) (processor s').

Definition preserves {A} (m : M A) : Prop := forall s, after s (snd (m s)).

End Frame.
End Frame.

(* ===================================================================== *)
(** * Vocabulary of the further properties *)
(* ===================================================================== *)

Module Observe.

(** The call [session.get(url)] followed by [response.raise_for_status()]
    raises a [RequestException]: there is no connection, the adapter has
    used up its re-sends on a status of the forcelist, or the status that
    comes back is a 4xx or 5xx one. *)
Definition call_raises (reply : http_reply) : bool :=
  match session_reply reply with
  | ConnError => true
  | Status code _ => (400 <=? code) && (code <? 600)
  end.

(** [k] failed rounds of a retry client, each followed by its pause, and
    one more call. *)
Definition retry_trace (request : event) (pause : nat) (k : nat) : list event :=
  concat (replicate k [request; ESleep pause]) ++ [request].

(** a request for a link to a signature file *)
Definition touches_signature (e : event) : bool :=
  match e with
  | EHead url | EFetch url => Str.contains Downloader.signature url
  | _ => false
  end.

(** the call of the session comes back with status 200 *)
Definition answered_200 (reply : http_reply) : bool :=
  match reply with
  | Status code _ => code =? 200
  | ConnError => false
  end.

(** [result] is what a client that calls the session up to [n] times for
    [url], the first time at [t], gets from the first call that comes
    back with status 200; [requests] is how many calls it makes. *)
Definition first_200_within {W : World} (url : pystr) (t n : nat)
    (result : option pystr) (requests : nat) : Prop :=
  match result with
  | Some body =>
    exists i, i < n /\ requests = S i /\
      (exists code, w_get (t + i) url = Status code body /\ code = 200) /\
      forall j, j < i -> answered_200 (w_get (t + j) url) = false
  | None =>
    requests = n /\
    forall i, i < n -> answered_200 (w_get (t + i) url) = false
  end.

(** the requests of a page walk: the pause and the request for each
    page *)
Definition page_requests (pause : nat) (urls : list pystr) : list event :=
  flat_map (fun url => [ESleep pause; EGet url]) urls.

(** an entry of the result of discovery as [process_announcement] needs
    it: a non-empty id and a non-empty name under the key ['name'] *)
Definition usable_entry (announcement_id : pystr) (entry : gmap pystr pystr)
    : Prop :=
  announcement_id <> [] /\
  exists name, name <> [] /\ entry = {[ Main.key_name := name ]}.

(** the category id of a row of the documents table that names the
    technical specification and whose button opens its files *)
Definition row_category {lib : PyLib} (row : doc_row) : option pystr :=
  if row_columns row <? 3 then None
  else if Str.contains Downloader.tech_spec (row_doc_name row)
          || Str.contains Downloader.tech_task (row_doc_name row)
  then row_onclick row ≫= re_show_files
  else None.

End Observe.

(* ===================================================================== *)
(** * parsers/: the page walk of [BaseParser] and its strategies *)
(* ===================================================================== *)

Module Parsers.

(** [ParsingResult] *)
Record ParsingResult := {
  announcements : gmap pystr (gmap pystr pystr);
  total_pages : nat;
  processed_pages : nat;
  errors : nat;
}.

(** a row of the result table: the text of its first [strong] tag and of
    its first link, when it has them *)
Record search_row := {
  row_strong : option pystr;
  row_link : option pystr;
}.

(** What the parsers take from BeautifulSoup and [re]. *)
Class SoupLib := {
  (** the [href]s of [soup.find('ul', class_='pagination').find_all('a', href=True)];
      [None] without such a list *)
  html_pagination_hrefs : pystr -> option (list pystr);
  (** [int(re.search(r"page=(\d+)", href).group(1))] *)
  re_page_number : pystr -> option nat;
  (** the [tr]s of the [tbody] of [table#search-result]; [None] without
      the table or the body *)
  html_search_rows : pystr -> option (list search_row);
}.

(** The abstract methods of [BaseParser]. *)
Class SiteParser := {
  get_last_page_number : pystr -> M nat;
  extract_announcements_from_page :
    pystr -> nat -> M (gmap pystr (gmap pystr pystr));
  build_page_url : pystr -> nat -> M pystr;
}.

Definition url_search : pystr :=
  Eval vm_compute in Str.utf8 "https://goszakup.gov.kz/ru/search/announce".
Definition amp_page : pystr := Eval vm_compute in Str.utf8 "&page=".

Definition add_error (result : ParsingResult) : ParsingResult :=
  {| announcements := announcements result; total_pages := total_pages result;
     processed_pages := processed_pages result; errors := S (errors result) |}.

(** [result.announcements.update(page_announcements)] and
    [result.processed_pages += 1] *)
Definition add_page (page_announcements : gmap pystr (gmap pystr pystr))
    (result : ParsingResult) : ParsingResult :=
  {| announcements := page_announcements ∪ announcements result;
     total_pages := total_pages result;
     processed_pages := S (processed_pages result); errors := errors result |}.

Section Parsers.
Context {lib : PyLib} {soup : SoupLib} {W : World}.

(** The [for link in page_links] loop of [get_last_page_number] *)
Fixpoint last_page_link (page_links : list pystr) (found : option nat)
    : option nat :=
  match page_links with
  | [] => found
  | href :: rest =>
    if Str.startswith url_search href
    then match re_page_number href with
         | Some n => last_page_link rest (Some n)
         | None => last_page_link rest found
         end
    else last_page_link rest found
  end.

(** The [for row_num, row in enumerate(rows, 1)] loop of
    [extract_announcements_from_page] *)
Fixpoint extract_rows (rows : list search_row)
    (found : gmap pystr (gmap pystr pystr)) : gmap pystr (gmap pystr pystr) :=
  match rows with
  | [] => found
  | row :: rest =>
    match row_strong row with
    | None => extract_rows rest found
    | Some strong_text =>
      match str_strip strong_text with
      | [] => extract_rows rest found
      | announcement_id =>
        match row_link row with
        | None => extract_rows rest found
        | Some link_text =>
          match str_strip link_text with
          | [] => extract_rows rest found
          | name =>
            extract_rows rest
              (<[announcement_id := {[ Main.key_name := name ]}]> found)
          end
        end
      end
    end
  end.

(** [GoszakupParser] *)
Definition GoszakupParser : SiteParser := {|
  get_last_page_number body :=
    match html_pagination_hrefs body with
    | None => mret 1
    | Some page_links => mret (default 1 (last_page_link page_links None))
    end;
  extract_announcements_from_page body page_number :=
    match html_search_rows body with
    | None => mret ∅
    | Some rows => mret (extract_rows rows ∅)
    end;
  build_page_url base_url page_number :=
    mret (base_url ++ amp_page ++ Str.of_nat page_number);
|}.

(** [Site3Parser], a placeholder *)
Definition Site3Parser : SiteParser := {|
  get_last_page_number body := mret 1;
  extract_announcements_from_page body page_number := mret ∅;
  build_page_url base_url page_number := mret base_url;
|}.

(** The [for page_number in range(1, last_page + 1)] loop of
    [BaseParser.parse_site]; an exception in the body is counted as an
    error and the loop goes on. *)
Fixpoint parse_pages {parser : SiteParser} (config : BaseParser.SiteConfig)
    (search_url : pystr) (pages : list nat) (result : ParsingResult)
    : M ParsingResult :=
  match pages with
  | [] => mret result
  | page_number :: rest =>
    outcome ← attempt
      (current_url ← build_page_url search_url page_number;
       sleep (BaseParser.request_delay config);;
       response ← BaseParser.request_with_retry config current_url;
       match response with
       | None => mret None
       | Some body =>
         page_announcements ← extract_announcements_from_page body page_number;
         mret (Some page_announcements)
       end);
    match outcome with
    | Ok (Some page_announcements) =>
      parse_pages config search_url rest (add_page page_announcements result)
    | _ => parse_pages config search_url rest (add_error result)
    end
  end.

(** [BaseParser.parse_site(self, search_url)] *)
Definition parse_site {parser : SiteParser} (config : BaseParser.SiteConfig)
    (search_url : pystr) : M ParsingResult :=
  let result := {| announcements := ∅; total_pages := 0;
                   processed_pages := 0; errors := 0 |} in
  try_except
    (first_response ← BaseParser.request_with_retry config search_url;
     match first_response with
     | None => mret result
     | Some body =>
       last_page ← get_last_page_number body;
       parse_pages config search_url (seq 1 last_page)
         {| announcements := ∅; total_pages := last_page;
            processed_pages := 0; errors := 0 |}
     end)
    (fun _ => mret result).

End Parsers.
End Parsers.

(** A search page to run the parsers on: two pagination links, the one
    to page 7 before the one to page 3, and three rows, of which the
    second has no [strong] tag and the third a blank title. *)
Module Listing.

Definition page_eq : pystr := Eval vm_compute in Str.utf8 "page=".

Definition digit_value (c : N) : nat := N.to_nat (c - 48).

Definition int (digits : pystr) : nat :=
  fold_left (fun n c => 10 * n + digit_value c) digits 0.

(** [re.search(r"page=(\d+)", href)] *)
Fixpoint page_number (href : pystr) : option nat :=
  match href with
  | [] => None
  | c :: rest =>
    if Str.startswith page_eq href then
      match Runtime.digits_prefix (drop (length page_eq) href) with
      | (d :: digits, _) => Some (int (d :: digits))
      | _ => page_number rest
      end
    else page_number rest
  end.

Definition search_page : pystr := Eval vm_compute in Str.utf8 "<search results>".

Definition search_url : pystr :=
  Eval vm_compute in
    Str.utf8 "https://goszakup.gov.kz/ru/search/announce?count_record=2000".

Definition soup : Parsers.SoupLib := {|
  Parsers.html_pagination_hrefs body :=
    if bool_decide (body = search_page)
    then Some [ search_url ++ Str.utf8 "&page=7";
                Str.utf8 "https://goszakup.gov.kz/ru/help?page=9";
                search_url ++ Str.utf8 "&page=3";
                Str.utf8 "#" ]
    else None;
  Parsers.re_page_number := page_number;
  Parsers.html_search_rows body :=
    if bool_decide (body = search_page)
    then Some [ {| Parsers.row_strong := Some (Str.utf8 " 12345678-1 ");
                   Parsers.row_link := Some (Str.utf8 "Услуги по сопровождению СЭД") |};
                {| Parsers.row_strong := None;
                   Parsers.row_link := Some (Str.utf8 "Поставка бумаги") |};
                {| Parsers.row_strong := Some (Str.utf8 "12345679-1");
                   Parsers.row_link := Some (Str.utf8 "   ") |} ]
    else None;
|}.

(** every request is served the search page *)
Definition world : World := {|
  w_generate := fun _ _ => NoResponse;
  w_chat := fun _ _ _ => NoResponse;
  w_get := fun _ _ => Status 200 search_page;
  w_head := fun _ _ => None;
  w_fetch := fun _ _ => false;
  w_disk_ok := fun _ => true;
  w_intake := fun _ _ => None;
  w_doc_text := fun _ _ => None;
  w_file_base64 := fun _ _ => None;
  w_file_md5 := fun _ _ => None;
|}.

Definition config : BaseParser.SiteConfig :=
  {| BaseParser.base_url := Str.utf8 "https://goszakup.gov.kz";
     BaseParser.search_url := search_url;
     BaseParser.request_delay := 2; BaseParser.max_retries := 3;
     BaseParser.retry_delay := 5 |}.

End Listing.

(** Servers that are down. *)
Module Outage.

(** no connection can be made *)
Definition offline_world : World := {|
  w_generate := fun _ _ => NoResponse;
  w_chat := fun _ _ _ => NoResponse;
  w_get := fun _ _ => ConnError;
  w_head := fun _ _ => None;
  w_fetch := fun _ _ => false;
  w_disk_ok := fun _ => true;
  w_intake := fun _ _ => None;
  w_doc_text := fun _ _ => None;
  w_file_base64 := fun _ _ => None;
  w_file_md5 := fun _ _ => None;
|}.

(** every call finds nothing at the address: status 404 *)
Definition missing_world : World := {|
  w_generate := fun _ _ => NoResponse;
  w_chat := fun _ _ _ => NoResponse;
  w_get := fun _ _ => Status 404 [];
  w_head := fun _ _ => None;
  w_fetch := fun _ _ => false;
  w_disk_ok := fun _ => true;
  w_intake := fun _ _ => None;
  w_doc_text := fun _ _ => None;
  w_file_base64 := fun _ _ => None;
  w_file_md5 := fun _ _ => None;
|}.

(** every call ends on status 503, the re-sends of the adapter included *)
Definition unavailable_world : World := {|
  w_generate := fun _ _ => NoResponse;
  w_chat := fun _ _ _ => NoResponse;
  w_get := fun _ _ => Status 503 [];
  w_head := fun _ _ => None;
  w_fetch := fun _ _ => false;
  w_disk_ok := fun _ => true;
  w_intake := fun _ _ => None;
  w_doc_text := fun _ _ => None;
  w_file_base64 := fun _ _ => None;
  w_file_md5 := fun _ _ => None;
|}.

End Outage.

(* ===================================================================== *)
(** * Reasoning about computations *)
(* ===================================================================== *)

Section Laws.

Lemma run_bind {A B} (m : M A) (k : A -> M B) (s : state) :
  (m ≫= k) s =
  match m s with
  | (Ok a, s') => k a s'
  | (Raise e, s') => (Raise e, s')
  end.
Proof. reflexivity. Qed.

Lemma run_ret {A} (a : A) (s : state) : (mret a : M A) s = (Ok a, s).
Proof. reflexivity. Qed.

Lemma run_raise_bind {A B} (e : exn) (k : A -> M B) (s : state) :
  (raise e ≫= k) s = (Raise e, s).
Proof. reflexivity. Qed.

Lemma run_try_except {A} (m : M A) (h : exn -> M A) (s : state) :
  try_except m h s =
  match m s with
  | (Ok a, s') => (Ok a, s')
  | (Raise e, s') => h e s'
  end.
Proof. reflexivity. Qed.

Lemma or_default_None (d : nat) : or_default None d = d.
Proof. reflexivity. Qed.

Lemma or_default_pos (n d : nat) : 0 < n -> or_default (Some n) d = n.
Proof. destruct n; [lia | reflexivity]. Qed.

End Laws.

(* ===================================================================== *)
(** * The keyword gate *)
(* ===================================================================== *)

Section KeywordGate.
Context {lib : PyLib} {cfg : AppConfig} {W : World}.

(** The configured keywords are pairwise distinct: counting the entries
    of [KEYWORDS] that occur counts distinct keywords. *)
Lemma KEYWORDS_NoDup : NoDup Scorer.KEYWORDS.
Proof. apply (bool_decide_unpack _). by vm_compute. Qed.

(** C3. When fewer than the configured threshold of the keywords occur
    in the document text (as substrings, both sides lower-cased),
    [final_score] returns the rejection ("нет" with an empty summary) and
    leaves the state as it found it: the log is unchanged, so no
    summarization, classification or translation request was issued. *)
Theorem keyword_gate_rejects_without_model_call
    (announcement_id : pystr) (names : gset pystr) (text : pystr) (s : state) :
  folders s !! announcement_id = Some names ->
  w_doc_text announcement_id names = Some text ->
  length (List.filter
            (fun keyword => Str.contains (str_lower keyword) (str_lower text))
            Scorer.KEYWORDS)
    < document_keyword_threshold document ->
  Scorer.final_score announcement_id s = (Ok Scorer.rejection, s).
Proof.
  intros Hfolder Htext Hcount.
  unfold Scorer.final_score, Scorer.final_score_evaluate,
    FileUtils.get_docx_or_pdf_content_by_announcement_id.
  rewrite run_try_except, !run_bind.
  unfold get_state. rewrite Hfolder, run_ret, Htext.
  destruct text as [|c text]; [reflexivity|].
  unfold Scorer._has_enough_keywords. rewrite or_default_None.
  apply Nat.leb_gt in Hcount. rewrite Hcount. reflexivity.
Qed.

End KeywordGate.

Lemma keyword_gate_witness :
  Scorer.final_score (lib := Runtime.lib) (cfg := default_config)
                     (W := Scenario.sparse_world)
                     Scenario.announcement_id Scenario.downloaded
  = (Ok Scorer.rejection, Scenario.downloaded).
Proof.
  apply (keyword_gate_rejects_without_model_call
           (lib := Runtime.lib) (cfg := default_config)
           (W := Scenario.sparse_world)
           Scenario.announcement_id {[ Str.utf8 "3357.pdf" ]}
           Scenario.sparse_text Scenario.downloaded).
  - reflexivity.
  - reflexivity.
  - vm_compute. lia.
Defined.

(* ===================================================================== *)
(** * The intake submitter validates before it posts *)
(* ===================================================================== *)

Section UploadValidation.
Context {lib : PyLib} {W : World}.

(** C9. An upload request whose organizer id is not twelve digits, or
    one of whose required fields is empty, or whose checksum is not 32
    characters long, makes [upload] return [None] from an unchanged
    state: nothing was logged, so no request left for the intake
    system. *)
Theorem upload_rejects_malformed_request_without_network
    (company_name bin message file md5sum kratkij_ii_analiz_ts : pystr)
    (s : state) :
  ~ Spec.well_formed_upload company_name bin message file md5sum ->
  Uploader.upload company_name bin message file md5sum kratkij_ii_analiz_ts s
  = (Ok None, s).
Proof.
  intros Hbad.
  unfold Uploader.upload, Uploader._validate_input_data.
  rewrite run_bind. unfold attempt.
  destruct (negb (forallb Str.truthy [company_name; bin; message; file; md5sum]))
    eqn:Hall; [reflexivity|].
  destruct (negb (str_isdigit bin) || negb (length bin =? 12)) eqn:Hbin;
    [reflexivity|].
  destruct (negb (Str.truthy file)) eqn:Hfile; [reflexivity|].
  destruct (negb (Str.truthy md5sum) || negb (length md5sum =? 32)) eqn:Hmd5;
    [reflexivity|].
  exfalso. apply Hbad.
  apply negb_false_iff in Hall. simpl in Hall.
  repeat (apply andb_prop in Hall; destruct Hall as [? Hall]).
  apply orb_false_elim in Hbin as [Hdigit Hlen].
  apply orb_false_elim in Hmd5 as [_ Hlen32].
  apply negb_false_iff in Hdigit, Hlen, Hlen32.
  apply Nat.eqb_eq in Hlen, Hlen32.
  unfold Spec.well_formed_upload.
  destruct company_name, bin, message, file, md5sum; try discriminate.
  repeat split; (discriminate || assumption).
Qed.

End UploadValidation.

(** An organizer id of eleven digits. *)
Lemma upload_eleven_digits_witness :
  Uploader.upload (lib := Runtime.lib) (W := Scenario.world)
    (Str.utf8 "ТОО Ромашка") (Str.utf8 "12345678901") (Str.utf8 "Название: ...")
    (Str.utf8 "UEsDBBQABgAIAAAAIQ==") (Str.utf8 "9e107d9d372bb6826bd81d3542a419d6")
    [] Runtime.empty_state
  = (Ok None, Runtime.empty_state).
Proof.
  apply (upload_rejects_malformed_request_without_network
           (lib := Runtime.lib) (W := Scenario.world)).
  unfold Spec.well_formed_upload. vm_compute. intros (_ & _ & _ & _ & _ & _ & H & _).
  discriminate H.
Defined.

(* ===================================================================== *)
(** * The retry wrapper around model calls *)
(* ===================================================================== *)

Section RetryModelRequest.

Lemma iter_shift (f : state -> state) (k : nat) (s : state) :
  Nat.iter k f (f s) = Nat.iter (S k) f s.
Proof. induction k as [|k IH]; simpl in *; [reflexivity | by rewrite IH]. Qed.

(** What a call of [_retry_model_request] does: some [k <= max_retry]
    first attempts come back empty or raise, each followed by a pause of
    [delay] seconds; then either the budget is used up and the result is
    "нет", or the next attempt gives a non-empty result, which is
    returned. *)
Lemma retry_model_request_run
    (func : M pystr) (max_retry delay : nat) (s : state) :
  exists k,
    k <= max_retry /\
    (forall j, j < k ->
       Spec.failed (fst (func (Nat.iter j (Spec.after_failed_attempt func delay) s)))) /\
    let sk := Nat.iter k (Spec.after_failed_attempt func delay) s in
    (k = max_retry /\
     Scorer._retry_model_request func max_retry delay s = (Ok Scorer.net, sk))
    \/
    (k < max_retry /\
     exists r s', r <> [] /\ func sk = (Ok r, s') /\
       Scorer._retry_model_request func max_retry delay s = (Ok r, s')).
Proof.
  revert s. induction max_retry as [|n IH]; intros s.
  - exists 0. split; [lia|]. split; [intros j Hj; lia|].
    left. split; reflexivity.
  - cbn [Scorer._retry_model_request]. rewrite run_bind. unfold attempt.
    destruct (func s) as [outcome s1] eqn:Hrun.
    assert (Hfail : Spec.failed outcome ->
      exists k, k <= S n /\
        (forall j, j < k ->
           Spec.failed (fst (func (Nat.iter j (Spec.after_failed_attempt func delay) s)))) /\
        let sk := Nat.iter k (Spec.after_failed_attempt func delay) s in
        (k = S n /\
         (sleep delay;; Scorer._retry_model_request func n delay) s1 = (Ok Scorer.net, sk))
        \/
        (k < S n /\
         exists r s', r <> [] /\ func sk = (Ok r, s') /\
           (sleep delay;; Scorer._retry_model_request func n delay) s1 = (Ok r, s'))).
    { intros Hout.
      destruct (IH (Spec.after_failed_attempt func delay s)) as (k & Hk & Hfailed & Hend).
      exists (S k). split; [lia|]. split.
      - intros [|j] Hj.
        + simpl. by rewrite Hrun.
        + rewrite <- iter_shift. apply Hfailed. lia.
      - cbn zeta in *. rewrite <- !iter_shift.
        assert (Hstep : forall x,
                  (sleep delay;; Scorer._retry_model_request func n delay) s1 = x <->
                  Scorer._retry_model_request func n delay
                    (Spec.after_failed_attempt func delay s) = x).
        { intros x. unfold Spec.after_failed_attempt. rewrite Hrun. reflexivity. }
        destruct Hend as [[-> Hres] | (Hlt & r & s' & Hr & Hfunc & Hres)].
        + left. split; [reflexivity|]. by apply Hstep.
        + right. split; [lia|]. exists r, s'. repeat split; try assumption.
          by apply Hstep. }
    destruct outcome as [[|c r]|e].
    + apply Hfail. exact I.
    + exists 0. split; [lia|]. split; [intros j Hj; lia|].
      right. split; [lia|]. exists (c :: r), s1. repeat split; try done.
    + apply Hfail. exact I.
Qed.

Lemma retry_model_request_returns
    (func : M pystr) (max_retry delay : nat) (s : state) :
  exists r s', Scorer._retry_model_request func max_retry delay s = (Ok r, s').
Proof.
  destruct (retry_model_request_run func max_retry delay s)
    as (k & _ & _ & [[_ Hrun] | (_ & r & s' & _ & _ & Hrun)]); eauto.
Qed.

Lemma mapM_returns {A B} (f : A -> M B) :
  (forall a s, exists r s', f a s = (Ok r, s')) ->
  forall l s, exists r s', mapM f l s = (Ok r, s').
Proof.
  intros Hf. induction l as [|a l IH]; intros s; cbn [mapM].
  - rewrite run_ret. eauto.
  - rewrite run_bind. destruct (Hf a s) as (r & s1 & ->).
    rewrite run_bind. destruct (IH s1) as (rs & s2 & ->).
    rewrite run_ret. eauto.
Qed.

End RetryModelRequest.

(** C5, where it fails.  With a model service that is down, the short path
    asks for its summary once and takes the empty answer (three requests
    would show a retry), and a wrapped summarization whose attempts are
    used up yields "нет", not an empty summary. *)
Lemma short_summary_is_not_retried_and_exhaustion_yields_net :
  let run :=
    Scorer._process_short_text (lib := Runtime.lib) (W := Scenario.silent_world)
                               Scenario.doc_text Runtime.empty_state in
  Spec.count Spec.is_summarize (log (snd run)) = 1 /\
  fst run = Ok ([], Scorer.net) /\
  fst (Scorer._retry_model_request
         (Scorer.get_summary_from_model (lib := Runtime.lib)
            (W := Scenario.silent_world) Scenario.doc_text)
         3 5 Runtime.empty_state)
  = Ok Scorer.net /\
  Scorer.net <> [].
Proof. vm_compute. repeat split; discriminate. Qed.

(* ===================================================================== *)
(** * Translation of the summary *)
(* ===================================================================== *)

Section Translation.
Context {lib : PyLib} {cfg : AppConfig} {W : World}.

(** One call of [get_translate_of_summary] issues at most one request. *)
Lemma translate_issues_at_most_one_request (text : pystr) (s : state) :
  let s' := snd (Scorer.get_translate_of_summary text s) in
  log s' = log s \/ log s' = log s ++ [EChat Translate text].
Proof.
  unfold Scorer.get_translate_of_summary, Scorer.load_global.
  rewrite run_bind.
  destruct (bool_decide _); [|left; reflexivity].
  rewrite run_ret, run_bind. unfold ask.
  right. by destruct (w_chat _ _ _).
Qed.

(** C6 (as amended).  The translation is called once, outside any retry
    wrapper, and when it raises, the [except] clause of [final_score]
    turns the failure into the rejection ("нет", empty summary): the
    caller gets a result, not an exception. *)
Theorem translation_failure_is_caught_by_final_score
    (announcement_id summary decision : pystr) (e : exn) (s s1 s2 : state) :
  Scorer.final_score_evaluate announcement_id s = (Ok (Some (summary, decision)), s1) ->
  Scorer.get_translate_of_summary summary s1 = (Raise e, s2) ->
  Scorer.final_score announcement_id s = (Ok Scorer.rejection, s2)
  /\ Spec.count Spec.is_translate (log s2) <= S (Spec.count Spec.is_translate (log s1)).
Proof.
  intros Heval Htrans. split.
  - unfold Scorer.final_score.
    rewrite run_try_except, run_bind, Heval, run_bind, Htrans. reflexivity.
  - pose proof (translate_issues_at_most_one_request summary s1) as Hlog.
    rewrite Htrans in Hlog. cbn in Hlog.
    destruct Hlog as [-> | ->]; [lia|].
    unfold Spec.count. rewrite List.filter_app, length_app. simpl. lia.
Qed.

End Translation.

Lemma translation_failure_witness :
  exists s2,
    Scorer.final_score (lib := Runtime.lib) (cfg := default_config)
      (W := Scenario.world) Scenario.announcement_id Scenario.downloaded
    = (Ok Scorer.rejection, s2).
Proof.
  eexists.
  eapply (translation_failure_is_caught_by_final_score
            (lib := Runtime.lib) (cfg := default_config) (W := Scenario.world)
            Scenario.announcement_id).
  - vm_compute. reflexivity.
  - vm_compute. reflexivity.
Defined.

(** C6, where it fails: in the scenario the translation raises, and
    [final_score] returns the rejection to its caller. *)
Lemma translation_failure_does_not_propagate :
  let evaluated :=
    Scorer.final_score_evaluate (lib := Runtime.lib) (cfg := default_config)
      (W := Scenario.world) Scenario.announcement_id Scenario.downloaded in
  (exists summary decision,
     fst evaluated = Ok (Some (summary, decision)) /\
     fst (Scorer.get_translate_of_summary (lib := Runtime.lib)
            (W := Scenario.world) summary (snd evaluated))
     = Raise NameError) /\
  fst (Scorer.final_score (lib := Runtime.lib) (cfg := default_config)
         (W := Scenario.world) Scenario.announcement_id Scenario.downloaded)
  = Ok Scorer.rejection.
Proof.
  split.
  - eexists _, _. split; vm_compute; reflexivity.
  - vm_compute. reflexivity.
Qed.

(* ===================================================================== *)
(** * The retry client and rate limiting *)
(* ===================================================================== *)

Section RateLimit.
Context {cfg : AppConfig} {W : World}.

Lemma session_reply_forcelist (code : nat) (body : pystr) :
  code ∈ status_forcelist -> session_reply (Status code body) = ConnError.
Proof. intros Hcode. cbn. by rewrite bool_decide_eq_true_2. Qed.

Lemma session_reply_other (code : nat) (body : pystr) :
  code ∉ status_forcelist ->
  session_reply (Status code body) = Status code body.
Proof. intros Hcode. cbn. by rewrite bool_decide_eq_false_2. Qed.

Lemma too_many_requests_is_forced : 429 ∈ status_forcelist.
Proof. apply (bool_decide_unpack _). by vm_compute. Qed.

Lemma ok_is_not_forced : 200 ∉ status_forcelist.
Proof. apply (bool_decide_unpack _). by vm_compute. Qed.

Lemma throttled_loop (url body : pystr) (retries pause : nat) :
  forall (remaining k attempt : nat) (s : state),
    (forall i, i < k -> exists b, w_get (clock s + i) url = Status 429 b) ->
    w_get (clock s + k) url = Status 200 body ->
    exists s',
      Parser.request_with_retry_loop url retries pause attempt remaining s
      = (Ok (if k <? remaining then Some body else None), s') /\
      clock s' = clock s + (if k <? remaining then S k else remaining).
Proof.
  induction remaining as [|n IH]; intros k attempt s Hthrottled Hok.
  - exists s. split; [reflexivity|]. cbn. lia.
  - destruct k as [|k].
    + cbn [Parser.request_with_retry_loop]. cbn zeta. rewrite run_bind. unfold ask.
      rewrite Nat.add_0_r in Hok.
      rewrite Hok, (session_reply_other 200) by apply ok_is_not_forced.
      eexists. split; [reflexivity|]. cbn. lia.
    + destruct (Hthrottled 0 ltac:(lia)) as [b Hb].
      rewrite Nat.add_0_r in Hb.
      assert (Hnext : forall s2,
        clock s2 = S (clock s) ->
        exists s',
          Parser.request_with_retry_loop url retries pause (S attempt) n s2
          = (Ok (if S k <? S n then Some body else None), s') /\
          clock s' = clock s + (if S k <? S n then S (S k) else S n)).
      { intros s2 Hclock.
        destruct (IH k (S attempt) s2) as (s' & IHrun & IHclock).
        - intros i Hi. rewrite Hclock.
          replace (S (clock s) + i) with (clock s + S i) by lia.
          apply Hthrottled. lia.
        - rewrite Hclock.
          replace (S (clock s) + k) with (clock s + S k) by lia. exact Hok.
        - exists s'. rewrite IHrun, IHclock, Hclock.
          change (S k <? S n) with (k <? n).
          destruct (k <? n); split; (reflexivity || lia). }
      cbn [Parser.request_with_retry_loop]. cbn zeta. rewrite run_bind.
      unfold ask at 1.
      rewrite Hb, (session_reply_forcelist 429) by apply too_many_requests_is_forced.
      destruct (attempt <? retries);
        cbv beta iota delta [mbind M_bind sleep emit mret M_ret];
        cbn [clock log files folders processor]; by apply Hnext.
Qed.

(** C7 (as amended).  A response 429 is sent again by the adapter of the
    session within the attempt; an attempt that still ends on 429 is a
    failed attempt like any other and uses up one of the [retries]
    attempts.  When the first [k] attempts end on 429 and the next is
    answered 200, the call succeeds exactly when [k < retries], after
    [k + 1] calls of the session; otherwise it has spent all its attempts
    and returns [None].  Both copies of the client behave so. *)
Theorem rate_limited_responses_use_up_attempts
    (url body : pystr) (retries pause : option nat) (config : BaseParser.SiteConfig)
    (k : nat) (s : state) :
  (forall i, i < k -> exists b, w_get (clock s + i) url = Status 429 b) ->
  w_get (clock s + k) url = Status 200 body ->
  let budget := or_default retries (scraping_max_retries scraping) in
  let web := Parser.request_with_retry url retries pause s in
  let base := BaseParser.request_with_retry config url s in
  (fst web = Ok (if k <? budget then Some body else None) /\
   clock (snd web) = clock s + (if k <? budget then S k else budget))
  /\
  (fst base = Ok (if k <? BaseParser.max_retries config then Some body else None) /\
   clock (snd base)
   = clock s + (if k <? BaseParser.max_retries config
                then S k else BaseParser.max_retries config)).
Proof.
  intros Hthrottled Hok. cbn zeta.
  unfold Parser.request_with_retry, BaseParser.request_with_retry. split.
  - destruct (throttled_loop url body
                (or_default retries (scraping_max_retries scraping))
                (or_default pause (scraping_retry_delay scraping))
                (or_default retries (scraping_max_retries scraping)) k 1 s
                Hthrottled Hok) as (s' & -> & Hclock).
    by split.
  - destruct (throttled_loop url body (BaseParser.max_retries config)
                (BaseParser.retry_delay config)
                (BaseParser.max_retries config) k 1 s Hthrottled Hok)
      as (s' & -> & Hclock).
    by split.
Qed.

End RateLimit.

Lemma rate_limit_witness :
  let url := Downloader.url_announce in
  let web :=
    Parser.request_with_retry (cfg := default_config) (W := Scenario.throttling_world)
      url None None Runtime.empty_state in
  fst web = Ok None /\ clock (snd web) = 3.
Proof.
  pose proof (rate_limited_responses_use_up_attempts
                (cfg := default_config) (W := Scenario.throttling_world)
                Downloader.url_announce Runtime.files_page None None
                {| BaseParser.base_url := []; BaseParser.search_url := [];
                   BaseParser.request_delay := 2; BaseParser.max_retries := 3;
                   BaseParser.retry_delay := 5 |}
                3 Runtime.empty_state) as H.
  destruct H as [[Hres Hclock] _].
  - intros i Hi. exists []. destruct i as [|[|[|i]]]; try reflexivity. lia.
  - reflexivity.
  - split; [exact Hres | exact Hclock].
Defined.

(** C7, where it fails: the first three attempts end on 429 and the
    fourth would be answered 200; with the default three attempts the
    call gives up, and it has waited the configured 5 seconds between the
    attempts, never 60. *)
Lemma three_throttled_responses_exhaust_the_client :
  let url := Downloader.url_announce in
  let run :=
    Parser.request_with_retry (cfg := default_config)
      (W := Scenario.throttling_world) url None None Runtime.empty_state in
  w_get (World := Scenario.throttling_world) 0 url = Status 429 [] /\
  w_get (World := Scenario.throttling_world) 1 url = Status 429 [] /\
  w_get (World := Scenario.throttling_world) 2 url = Status 429 [] /\
  w_get (World := Scenario.throttling_world) 3 url = Status 200 Runtime.files_page /\
  fst run = Ok None /\
  log (snd run) = [EGet url; ESleep 5; EGet url; ESleep 5; EGet url].
Proof. vm_compute. repeat split. Qed.

(* ===================================================================== *)
(** * Chunking of long documents *)
(* ===================================================================== *)

Section Chunking.
Context {lib : PyLib} {cfg : AppConfig} {W : World}.

Lemma ceil_div_step (d step : nat) :
  0 < step -> 0 < d -> Spec.ceil_div d step = S (Spec.ceil_div (d - step) step).
Proof.
  intros Hstep Hd. unfold Spec.ceil_div.
  destruct (Nat.le_gt_cases step d) as [Hle|Hlt].
  - replace (d + step - 1) with ((d - step + step - 1) + 1 * step) by lia.
    rewrite Nat.div_add by lia. lia.
  - replace (d - step) with 0 by lia.
    replace (d + step - 1) with ((d - 1) + 1 * step) by lia.
    rewrite Nat.div_add by lia.
    rewrite !Nat.div_small by lia. reflexivity.
Qed.

Lemma ceil_div_zero (step : nat) : 0 < step -> Spec.ceil_div 0 step = 0.
Proof. intros Hstep. unfold Spec.ceil_div. apply Nat.div_small. lia. Qed.


(** The starts that [range(start, stop, step)] yields. *)
Lemma range_from_spec (step : nat) :
  0 < step ->
  forall fuel start stop,
    stop - start <= fuel ->
    Scorer.range_from fuel start stop step
    = (fun i => start + i * step) <$> seq 0 (Spec.ceil_div (stop - start) step).
Proof.
  intros Hstep. induction fuel as [|fuel IH]; intros start stop Hfuel.
  - replace (stop - start) with 0 by lia. by rewrite ceil_div_zero.
  - cbn [Scorer.range_from]. destruct (Nat.ltb_spec start stop) as [Hlt|Hge].
    + rewrite (ceil_div_step (stop - start) step) by lia.
      cbn [seq fmap list_fmap]. f_equal; [lia|].
      rewrite IH by lia. rewrite <- fmap_S_seq, <- list_fmap_compose.
      replace (stop - start - step) with (stop - (start + step)) by lia.
      apply list_fmap_ext. intros _ i _. cbn. lia.
    + replace (stop - start) with 0 by lia. by rewrite ceil_div_zero.
Qed.

(** The loop visits the first [max_chunks - i] starts it is given, in
    order, and appends their summaries. *)
Lemma long_text_loop_spec (text : pystr) (chunk_size max_chunks : nat) :
  forall (starts : list nat) (i : nat) (summaries : list pystr) (s : state),
    Scorer._process_long_text_loop text chunk_size max_chunks i starts summaries s
    = (more ← mapM Spec.summarize_chunk
                ((fun start => Str.slice start (start + chunk_size) text)
                   <$> take (max_chunks - i) starts);
       mret (summaries ++ more)) s.
Proof.
  induction starts as [|start rest IH]; intros i summaries s.
  - rewrite take_nil. cbn [Scorer._process_long_text_loop fmap list_fmap mapM].
    rewrite run_bind, !run_ret. by rewrite app_nil_r.
  - cbn [Scorer._process_long_text_loop].
    destruct (Nat.leb_spec max_chunks i) as [Hle|Hgt].
    + replace (max_chunks - i) with 0 by lia. cbn [take fmap list_fmap mapM].
      rewrite run_bind, !run_ret. by rewrite app_nil_r.
    + replace (max_chunks - i) with (S (max_chunks - S i)) by lia.
      cbn [take fmap list_fmap mapM]. rewrite !run_bind.
      fold (Spec.summarize_chunk (Str.slice start (start + chunk_size) text)).
      destruct (Spec.summarize_chunk _ s) as [[summary|e] s1]; [|reflexivity].
      rewrite IH, !run_bind.
      match goal with |- context [mapM ?f ?l s1] => destruct (mapM f l s1) as [[more|e] s2] end;
        [|reflexivity].
      rewrite !run_ret. by rewrite <- app_assoc.
Qed.


Lemma process_long_text_run (text : pystr) (s : state) :
  0 < document_chunk_size document ->
  Scorer._process_long_text text None None s
  = (summaries ← mapM Spec.summarize_chunk
                  (Spec.chunks text (document_chunk_size document)
                               (document_max_chunks document));
     Scorer._process_long_text_decide summaries) s.
Proof.
  intros Hpos.
  set (chunk_size := document_chunk_size document) in *.
  set (max_chunks := document_max_chunks document).
  set (chunks := Spec.chunks text chunk_size max_chunks).
  unfold Scorer._process_long_text. rewrite !or_default_None.
  fold chunk_size max_chunks. unfold Scorer.py_range.
  destruct (Nat.eqb_spec chunk_size 0) as [H0|_]; [lia|].
  rewrite run_bind, run_ret, run_bind, long_text_loop_spec, !run_bind.
  rewrite range_from_spec by lia.
  rewrite !Nat.sub_0_r, <- fmap_take, take_seq, <- list_fmap_compose.
  assert (Heq :
    ((fun start => Str.slice start (start + chunk_size) text)
       ∘ (fun i => 0 + i * chunk_size))
      <$> seq 0 (min max_chunks (Spec.ceil_div (length text) chunk_size)) = chunks).
  { unfold chunks, Spec.chunks. rewrite (Nat.min_comm max_chunks).
    apply list_fmap_ext. intros _ i _. unfold compose.
    rewrite Nat.add_0_l. f_equal. lia. }
  rewrite Heq.
  destruct (mapM Spec.summarize_chunk chunks s) as [[summaries|e] s1]; reflexivity.
Qed.


(** C5 (as amended).  With a positive chunk size, the long path calls
    the model through [_retry_model_request] with [max_retry = 3] and
    [delay = 5] for the summary of every chunk, for the combined summary
    and for the classification, and the short path does so for its
    classification (its own summary is asked for without the wrapper);
    neither path raises.  A call of the wrapper never raises and calls
    [func] at most [max_retry] times: some [k <= max_retry] first
    attempts come back empty or raise, each followed by a pause of [delay]
    seconds; then either the budget is used up and the result is "нет",
    or the next attempt gives a non-empty result, which is returned. *)
Theorem retry_model_request_is_bounded_and_total
    (func : M pystr) (max_retry delay : nat) (text : pystr) (s : state) :
  0 < document_chunk_size document ->
  let wrapped (request : M pystr) := Scorer._retry_model_request request 3 5 in
  Scorer._process_long_text text None None s
  = (summaries ←
       mapM (fun chunk => wrapped (Scorer.get_summary_from_model chunk))
            (Spec.chunks text (document_chunk_size document)
                         (document_max_chunks document));
     let full_summary := Str.join Scorer.newline summaries in
     decision_summary ← wrapped (Scorer.get_summary_from_model full_summary);
     final_decision ← wrapped (Scorer.final_request_to_model decision_summary);
     mret (full_summary, Scorer._normalize_decision final_decision)) s
  /\ Scorer._process_short_text text s
     = (summary ← Scorer.get_summary_from_model text;
        decision ← wrapped (Scorer.final_request_to_model text);
        mret (summary, Scorer._normalize_decision decision)) s
  /\ (exists r s', Scorer._process_long_text text None None s = (Ok r, s'))
  /\ (exists r s', Scorer._process_short_text text s = (Ok r, s'))
  /\ exists k,
       k <= max_retry /\
       (forall j, j < k ->
          Spec.failed
            (fst (func (Nat.iter j (Spec.after_failed_attempt func delay) s)))) /\
       let sk := Nat.iter k (Spec.after_failed_attempt func delay) s in
       (k = max_retry /\
        Scorer._retry_model_request func max_retry delay s = (Ok Scorer.net, sk))
       \/
       (k < max_retry /\
        exists r s', r <> [] /\ func sk = (Ok r, s') /\
          Scorer._retry_model_request func max_retry delay s = (Ok r, s')).
Proof.
  intros Hpos wrapped.
  split; [by apply process_long_text_run|]. split; [reflexivity|].
  split; [|split; [|apply retry_model_request_run]].
  - rewrite process_long_text_run by exact Hpos. rewrite run_bind.
    destruct (mapM_returns Spec.summarize_chunk
                ltac:(intros; apply retry_model_request_returns)
                (Spec.chunks text (document_chunk_size document)
                             (document_max_chunks document)) s)
      as (summaries & s1 & ->).
    unfold Scorer._process_long_text_decide. cbn zeta. rewrite run_bind.
    destruct (retry_model_request_returns
                (Scorer.get_summary_from_model
                   (Str.join Scorer.newline summaries)) 3 5 s1)
      as (decision_summary & s2 & ->).
    rewrite run_bind.
    destruct (retry_model_request_returns
                (Scorer.final_request_to_model decision_summary) 3 5 s2)
      as (final_decision & s3 & ->).
    rewrite run_ret. eauto.
  - unfold Scorer._process_short_text. rewrite run_bind.
    assert (Hsummary : exists summary s1,
              Scorer.get_summary_from_model text s = (Ok summary, s1)).
    { unfold Scorer.get_summary_from_model. rewrite run_try_except, run_bind.
      unfold ask at 1. destruct (w_chat (clock s) Summarize text); eauto. }
    destruct Hsummary as (summary & s1 & ->). rewrite run_bind.
    destruct (retry_model_request_returns
                (Scorer.final_request_to_model text) 3 5 s1)
      as (decision & s2 & ->).
    rewrite run_ret. eauto.
Qed.

End Chunking.

(** The short and the long path with a model service that is down and
    chunks of four characters. *)
Lemma retry_model_request_witness :
  let text := Str.utf8 "0123456789A" in
  (exists r s',
     Scorer._process_long_text (lib := Runtime.lib) (cfg := Scenario.small_chunks)
       (W := Scenario.silent_world) text None None Runtime.empty_state
     = (Ok r, s'))
  /\ (exists r s',
        Scorer._process_short_text (lib := Runtime.lib)
          (W := Scenario.silent_world) text Runtime.empty_state
        = (Ok r, s')).
Proof.
  pose proof (retry_model_request_is_bounded_and_total
                (lib := Runtime.lib) (cfg := Scenario.small_chunks)
                (W := Scenario.silent_world)
                (Scorer.get_summary_from_model (lib := Runtime.lib)
                   (W := Scenario.silent_world) (Str.utf8 "0123456789A"))
                3 5 (Str.utf8 "0123456789A") Runtime.empty_state) as H.
  destruct H as (_ & _ & Hlong & Hshort & _).
  - cbn. lia.
  - split; [exact Hlong | exact Hshort].
Defined.


(* ===================================================================== *)
(** * Names of downloaded files *)
(* ===================================================================== *)

Section FileNames.
Context {lib : PyLib} {cfg : AppConfig} {W : World}.

Lemma ascii_codes_inv (l : list ascii) : map ascii_of_N (map N_of_ascii l) = l.
Proof.
  induction l as [|c l IH]; [reflexivity|].
  cbn [map]. by rewrite ascii_N_embedding, IH.
Qed.

Lemma of_nat_inj (a b : nat) : Str.of_nat a = Str.of_nat b -> a = b.
Proof.
  unfold Str.of_nat. intros H.
  apply (f_equal (map ascii_of_N)) in H.
  rewrite !ascii_codes_inv in H.
  apply (f_equal string_of_list_ascii) in H.
  rewrite !string_of_list_ascii_of_string in H.
  by apply (inj pretty) in H.
Qed.

Lemma candidate_inj (category_id ext : pystr) :
  Inj (=) (=) (Spec.candidate category_id ext).
Proof.
  intros [|a] [|b] H; cbn [Spec.candidate] in H.
  - reflexivity.
  - apply (f_equal length) in H. rewrite !length_app in H. cbn in H. lia.
  - apply (f_equal length) in H. rewrite !length_app in H. cbn in H. lia.
  - apply app_inv_head, app_inv_head, app_inv_tail in H. by apply of_nat_inj.
Qed.

(** Pigeonhole: the first [n] candidate names cannot all be in a folder
    with fewer than [n] files. *)
Lemma candidates_in_folder (folder : gset pystr) (category_id ext : pystr) (n : nat) :
  (forall j, j < n -> Spec.candidate category_id ext j ∈ folder) ->
  n <= size folder.
Proof.
  intros Hin.
  pose proof (candidate_inj category_id ext) as Hinj.
  set (names := Spec.candidate category_id ext <$> seq 0 n).
  assert (Hnodup : NoDup names) by (apply NoDup_fmap_2; [exact Hinj | apply NoDup_seq]).
  assert (Hsub : list_to_set (C := gset pystr) names ⊆ folder).
  { intros x Hx. apply elem_of_list_to_set, list_elem_of_fmap in Hx.
    destruct Hx as (j & -> & Hj). apply Hin.
    apply elem_of_seq in Hj. lia. }
  apply subseteq_size in Hsub.
  rewrite size_list_to_set in Hsub by exact Hnodup.
  unfold names in Hsub. by rewrite length_fmap, length_seq in Hsub.
Qed.

(** The renaming loop ends, within its fuel, on the first candidate that
    is not in the folder. *)
Lemma unique_name_loop_spec (folder : gset pystr) (category_id ext : pystr) :
  forall fuel i,
    (forall j, j < i -> Spec.candidate category_id ext j ∈ folder) ->
    size folder < i + fuel ->
    exists k,
      i <= k /\
      Downloader.unique_name_loop fuel folder category_id ext
        (Spec.candidate category_id ext i) (S i)
      = Spec.candidate category_id ext k /\
      (Spec.candidate category_id ext k ∉ folder) /\
      (forall j, j < k -> Spec.candidate category_id ext j ∈ folder).
Proof.
  induction fuel as [|fuel IH]; intros i Hbelow Hfuel.
  - pose proof (candidates_in_folder folder category_id ext i Hbelow). lia.
  - cbn [Downloader.unique_name_loop]. case_bool_decide as Hin.
    + destruct (IH (S i)) as (k & Hk & Hloop & Hfresh & Hall).
      * intros j Hj. destruct (decide (j = i)) as [->|]; [exact Hin|].
        apply Hbelow. lia.
      * lia.
      * exists k. split; [lia|]. split; [exact Hloop|]. by split.
    + exists i. by repeat split.
Qed.

Lemma unique_name_spec (folder : gset pystr) (category_id ext : pystr) :
  exists k,
    Downloader.unique_name folder category_id ext = Spec.candidate category_id ext k /\
    (Spec.candidate category_id ext k ∉ folder) /\
    (forall j, j < k -> Spec.candidate category_id ext j ∈ folder).
Proof.
  destruct (unique_name_loop_spec folder category_id ext (S (size folder)) 0)
    as (k & _ & Hloop & Hfresh & Hall).
  - intros j Hj. lia.
  - lia.
  - exists k. by repeat split.
Qed.

Lemma unique_name_fresh (folder : gset pystr) (category_id ext : pystr) :
  Downloader.unique_name folder category_id ext ∉ folder.
Proof.
  destruct (unique_name_spec folder category_id ext) as (k & -> & Hfresh & _).
  exact Hfresh.
Qed.


End FileNames.



(* ===================================================================== *)
(** * Frame rules: what each function leaves alone *)
(* ===================================================================== *)

Section FrameRules.
Context (ev : event -> Prop).
Context (fd : relation (gmap pystr (gset pystr))) {fd_preorder : PreOrder fd}.
Context (fl : relation (gmap pystr checkpoint)) {fl_preorder : PreOrder fl}.
Context (pr : relation TenderProcessor) {pr_preorder : PreOrder pr}.
Hypothesis ev_quiet : forall e, Frame.quiet e = true -> ev e.

Abbreviation after := (Frame.after ev fd fl pr).
Abbreviation preserves := (Frame.preserves ev fd fl pr).

Lemma after_refl (s : state) : after s s.
Proof.
  split; [exists []; by rewrite app_nil_r|]. repeat split; reflexivity.
Qed.

Lemma after_trans (s1 s2 s3 : state) : after s1 s2 -> after s2 s3 -> after s1 s3.
Proof.
  intros ((n1 & Hl1 & He1) & Hf1 & Hx1 & Hp1) ((n2 & Hl2 & He2) & Hf2 & Hx2 & Hp2).
  split.
  - exists (n1 ++ n2). rewrite Hl2, Hl1, <- app_assoc. split; [reflexivity|].
    by apply Forall_app.
  - repeat split; by etrans.
Qed.

Lemma preserves_ret {A} (a : A) : preserves (mret a : M A).
Proof. intros s. apply after_refl. Qed.

Lemma preserves_raise {A} (e : exn) : preserves (raise e : M A).
Proof. intros s. apply after_refl. Qed.

Lemma preserves_raise_bind {A B} (e : exn) (k : A -> M B) : preserves (raise e ≫= k).
Proof. intros s. apply after_refl. Qed.

Lemma preserves_get_state : preserves get_state.
Proof. intros s. apply after_refl. Qed.

Lemma preserves_bind {A B} (m : M A) (k : A -> M B) :
  preserves m -> (forall a, preserves (k a)) -> preserves (m ≫= k).
Proof.
  intros Hm Hk s. rewrite run_bind. specialize (Hm s).
  destruct (m s) as [[a|e] s1]; cbn in *; [|exact Hm].
  eapply after_trans; [exact Hm | apply Hk].
Qed.

Lemma preserves_try_except {A} (m : M A) (h : exn -> M A) :
  preserves m -> (forall e, preserves (h e)) -> preserves (try_except m h).
Proof.
  intros Hm Hh s. rewrite run_try_except. specialize (Hm s).
  destruct (m s) as [[a|e] s1]; cbn in *; [exact Hm|].
  eapply after_trans; [exact Hm | apply Hh].
Qed.

Lemma preserves_attempt {A} (m : M A) : preserves m -> preserves (attempt m).
Proof.
  intros Hm s. unfold attempt. specialize (Hm s). by destruct (m s).
Qed.

Lemma preserves_ask {A} (e : event) (answer : nat -> A) :
  ev e -> preserves (ask e answer).
Proof.
  intros He s. split; [exists [e]; split; [reflexivity | by constructor]|].
  repeat split; reflexivity.
Qed.

Lemma preserves_follow_up {A} (answer : nat -> A) : preserves (follow_up answer).
Proof.
  intros s. split; [exists []; by rewrite app_nil_r|]. repeat split; reflexivity.
Qed.

Lemma preserves_sleep (seconds : nat) : preserves (sleep seconds).
Proof.
  intros s. split.
  - exists [ESleep seconds]. split; [reflexivity|]. constructor; [|constructor].
    by apply ev_quiet.
  - repeat split; reflexivity.
Qed.

Lemma preserves_make_folder (raw_id : pystr) :
  (forall m, fd m (<[raw_id := default ∅ (m !! raw_id)]> m)) ->
  preserves (make_folder raw_id).
Proof.
  intros Hfd s. split; [exists []; by rewrite app_nil_r|].
  split; [apply Hfd|]. split; reflexivity.
Qed.

Lemma preserves_create_file (raw_id name : pystr) :
  (forall m, fd m (<[raw_id := {[name]} ∪ default ∅ (m !! raw_id)]> m)) ->
  preserves (create_file raw_id name).
Proof.
  intros Hfd s. split; [exists []; by rewrite app_nil_r|].
  split; [apply Hfd|]. split; reflexivity.
Qed.

Lemma preserves_write_json (name : pystr) (doc : checkpoint) :
  (forall m, fl m (<[name := doc]> m)) -> preserves (write_json name doc).
Proof.
  intros Hfl s. split; [exists []; by rewrite app_nil_r|].
  split; [reflexivity|]. split; [apply Hfl | reflexivity].
Qed.

Lemma preserves_modify_processor (f : TenderProcessor -> TenderProcessor) :
  (forall p, pr p (f p)) -> preserves (modify_processor f).
Proof.
  intros Hpr s. split; [exists []; by rewrite app_nil_r|].
  split; [reflexivity|]. split; [reflexivity | apply Hpr].
Qed.

(** The same rules for a computation that has already come past a state
    [s0]. *)
Lemma after_bind {A B} (s0 : state) (m : M A) (k : A -> M B) (s : state) :
  after s0 (snd (m s)) -> (forall a, preserves (k a)) ->
  after s0 (snd ((m ≫= k) s)).
Proof.
  intros Hm Hk. rewrite run_bind.
  destruct (m s) as [[a|e] s1]; cbn in *; [|exact Hm].
  eapply after_trans; [exact Hm | apply Hk].
Qed.

Lemma after_try_except {A} (s0 : state) (m : M A) (h : exn -> M A) (s : state) :
  after s0 (snd (m s)) -> (forall e, preserves (h e)) ->
  after s0 (snd (try_except m h s)).
Proof.
  intros Hm Hh. rewrite run_try_except.
  destruct (m s) as [[a|e] s1]; cbn in *; [exact Hm|].
  eapply after_trans; [exact Hm | apply Hh].
Qed.

Ltac frame_step :=
  lazymatch goal with
  | |- Frame.preserves _ _ _ _ (Main.ModelResponse_getitem _ _ ≫= _) =>
    apply preserves_raise_bind
  | |- Frame.preserves _ _ _ _ (_ ≫= _) => apply preserves_bind; [|intros ?]
  | |- Frame.preserves _ _ _ _ (mret _) => apply preserves_ret
  | |- Frame.preserves _ _ _ _ (raise _) => apply preserves_raise
  | |- Frame.preserves _ _ _ _ (try_except _ _) =>
    apply preserves_try_except; [|intros ?]
  | |- Frame.preserves _ _ _ _ (attempt _) => apply preserves_attempt
  | |- Frame.preserves _ _ _ _ get_state => apply preserves_get_state
  | |- Frame.preserves _ _ _ _ (sleep _) => apply preserves_sleep
  | |- Frame.preserves _ _ _ _ (ask _ _) => apply preserves_ask
  | |- Frame.preserves _ _ _ _ (follow_up _) => apply preserves_follow_up
  | |- Frame.preserves _ _ _ _ (make_folder _) => apply preserves_make_folder
  | |- Frame.preserves _ _ _ _ (create_file _ _) => apply preserves_create_file
  | |- Frame.preserves _ _ _ _ (match ?x with _ => _ end) => destruct x
  end.

Ltac frame := repeat frame_step; try (apply ev_quiet; reflexivity); auto.

Section Functions.
Context {lib : PyLib} {cfg : AppConfig} {W : World}.

Lemma get_with_retries_loop_frame (url : pystr) (max_retries delay : nat) :
  ev (EGet url) ->
  forall remaining attempt st,
    preserves (Downloader.get_with_retries_loop url max_retries delay attempt remaining st).
Proof.
  intros Hget. induction remaining as [|n IH]; intros attempt st;
    cbn [Downloader.get_with_retries_loop]; frame.
Qed.

Lemma get_with_retries_frame (st : Downloader.DownloadStats) (url : pystr)
    (max_retries delay : option nat) :
  ev (EGet url) -> preserves (Downloader.get_with_retries st url max_retries delay).
Proof. intros Hget. by apply get_with_retries_loop_frame. Qed.

(** The first call of [get_with_retries] is logged whatever comes back. *)
Lemma get_with_retries_starts (st : Downloader.DownloadStats) (url : pystr)
    (s : state) :
  0 < scraping_max_retries scraping ->
  ev (EGet url) ->
  after {| clock := S (clock s); log := log s ++ [EGet url];
           files := files s; folders := folders s; processor := processor s |}
        (snd (Downloader.get_with_retries st url None None s)).
Proof.
  intros Hpos Hget. unfold Downloader.get_with_retries. cbn zeta.
  rewrite !or_default_None.
  destruct (scraping_max_retries scraping) as [|r] eqn:Hretries; [lia|].
  cbn [Downloader.get_with_retries_loop]. rewrite run_bind. unfold ask at 1.
  match goal with
  | |- after ?s1 (snd (?m ?s1)) => enough (preserves m) as Hrest by apply Hrest
  end.
  frame; by apply get_with_retries_loop_frame.
Qed.

(** A first call that does not raise ends [get_with_retries]. *)
Lemma get_with_retries_served (st : Downloader.DownloadStats) (url : pystr)
    (code : nat) (body : pystr) (s : state) :
  0 < scraping_max_retries scraping ->
  w_get (clock s) url = Status code body ->
  Observe.call_raises (Status code body) = false ->
  Downloader.get_with_retries st url None None s
  = (Ok (Some body, st),
     {| clock := S (clock s); log := log s ++ [EGet url];
        files := files s; folders := folders s; processor := processor s |}).
Proof.
  intros Hpos Hreply Hgood. unfold Downloader.get_with_retries. cbn zeta.
  rewrite !or_default_None.
  destruct (scraping_max_retries scraping) as [|r] eqn:Hretries; [lia|].
  cbn [Downloader.get_with_retries_loop]. rewrite run_bind. unfold ask at 1.
  rewrite Hreply. unfold Observe.call_raises in Hgood.
  destruct (session_reply (Status code body)) as [|code' body'] eqn:Hsession;
    [discriminate|].
  cbn [session_reply] in Hsession.
  destruct (bool_decide (code ∈ status_forcelist)); [discriminate|].
  injection Hsession as <- <-. by rewrite Hgood.
Qed.

(** The search of the documents table ends at the first row that names
    the technical specification and carries a category id. *)
Lemma find_and_download_first_row
    (announcement_id raw_id category_id : pystr)
    (before after_it : list doc_row) (row : doc_row) (s : state) :
  Forall (fun r => Observe.row_category r = None) before ->
  Observe.row_category row = Some category_id ->
  Downloader.find_and_download announcement_id raw_id
                               (before ++ row :: after_it) s
  = Downloader.download_file announcement_id category_id raw_id s.
Proof.
  intros Hbefore Hrow.
  induction Hbefore as [|r before Hr _ IH]; cbn [app Downloader.find_and_download].
  - unfold Observe.row_category in Hrow.
    destruct (row_columns row <? 3); [discriminate|].
    destruct (Str.contains Downloader.tech_spec (row_doc_name row)
              || Str.contains Downloader.tech_task (row_doc_name row));
      [|discriminate].
    destruct (row_onclick row) as [onclick|]; [|discriminate].
    cbn in Hrow. by rewrite Hrow.
  - unfold Observe.row_category in Hr.
    destruct (row_columns r <? 3); [exact IH|].
    destruct (Str.contains Downloader.tech_spec (row_doc_name r)
              || Str.contains Downloader.tech_task (row_doc_name r));
      [|exact IH].
    destruct (row_onclick r) as [onclick|]; [|exact IH].
    cbn in Hr. by rewrite Hr.
Qed.

Lemma get_announcement_info_frame (announcement_id : pystr) :
  ev (EGet (Downloader.url_announce ++ announcement_id)) ->
  preserves (Downloader.get_announcement_info announcement_id).
Proof.
  intros Hget. unfold Downloader.get_announcement_info. cbn zeta.
  frame_step; [|frame]. frame_step; [by apply get_with_retries_frame|].
  frame.
Qed.

Section Folder.
Context (raw_id : pystr).
Hypothesis ev_mkdir : ev (EMkdir raw_id).
Hypothesis ev_write : forall name, ev (EWriteFile raw_id name).
Hypothesis fd_make : forall m, fd m (<[raw_id := default ∅ (m !! raw_id)]> m).
Hypothesis fd_create :
  forall name m, fd m (<[raw_id := {[name]} ∪ default ∅ (m !! raw_id)]> m).

Lemma download_file_loop_frame (announcement_id category_id : pystr) :
  forall file_links downloaded_count st,
    preserves (Downloader.download_file_loop announcement_id category_id raw_id
                 file_links downloaded_count st).
Proof.
  induction file_links as [|href rest IH]; intros downloaded_count st;
    cbn [Downloader.download_file_loop]; cbn zeta; frame.
Qed.

Lemma download_file_stats_frame (announcement_id category_id : pystr) :
  ev (EGet (Downloader.url_show_files ++ announcement_id ++ Downloader.slash
            ++ category_id)) ->
  preserves (Downloader.download_file_stats announcement_id category_id raw_id).
Proof.
  intros Hget. unfold Downloader.download_file_stats. cbn zeta.
  frame_step; [by apply get_with_retries_frame|].
  frame. apply download_file_loop_frame.
Qed.

Lemma download_file_frame (announcement_id category_id : pystr) :
  ev (EGet (Downloader.url_show_files ++ announcement_id ++ Downloader.slash
            ++ category_id)) ->
  preserves (Downloader.download_file announcement_id category_id raw_id).
Proof.
  intros Hget. unfold Downloader.download_file.
  frame_step; [|frame]. frame_step; [by apply download_file_stats_frame|]. frame.
Qed.

(** [download_file] asks for the file listing first. *)
Lemma download_file_starts (announcement_id category_id : pystr) (s : state) :
  let listing_url :=
    Downloader.url_show_files ++ announcement_id ++ Downloader.slash
    ++ category_id in
  0 < scraping_max_retries scraping ->
  ev (EGet listing_url) ->
  after {| clock := S (clock s); log := log s ++ [EGet listing_url];
           files := files s; folders := folders s; processor := processor s |}
        (snd (Downloader.download_file announcement_id category_id raw_id s)).
Proof.
  intros listing_url Hpos Hget. unfold Downloader.download_file.
  apply after_try_except; [|intros e; frame].
  apply after_bind; [|intros a; frame].
  unfold Downloader.download_file_stats. cbn zeta. fold listing_url.
  apply after_bind; [by apply get_with_retries_starts|].
  intros a. frame. apply download_file_loop_frame.
Qed.

(** When the listing is served and names a link, [download_file] makes
    the folder next. *)
Lemma download_file_makes_the_folder (announcement_id category_id : pystr)
    (code : nat) (listing link : pystr) (links : list pystr) (s : state) :
  let listing_url :=
    Downloader.url_show_files ++ announcement_id ++ Downloader.slash
    ++ category_id in
  0 < scraping_max_retries scraping ->
  w_get (clock s) listing_url = Status code listing ->
  Observe.call_raises (Status code listing) = false ->
  html_links listing = link :: links ->
  w_disk_ok (S (clock s)) = true ->
  after {| clock := S (S (clock s));
           log := (log s ++ [EGet listing_url]) ++ [EMkdir raw_id];
           files := files s;
           folders := <[raw_id := default ∅ (folders s !! raw_id)]> (folders s);
           processor := processor s |}
        (snd (Downloader.download_file announcement_id category_id raw_id s)).
Proof.
  intros listing_url Hpos Hreply Hgood Hlinks Hdisk.
  unfold Downloader.download_file.
  apply after_try_except; [|intros e; frame].
  apply after_bind; [|intros a; frame].
  unfold Downloader.download_file_stats. cbn zeta. fold listing_url.
  rewrite run_bind,
    (get_with_retries_served Downloader.new_stats listing_url code listing s
       Hpos Hreply Hgood).
  rewrite Hlinks, run_bind. unfold ask at 1. cbn [clock]. rewrite Hdisk.
  rewrite run_bind. unfold make_folder at 1.
  cbn [clock log files folders processor].
  match goal with
  | |- after ?s1 (snd (?m ?s1)) => enough (preserves m) as Hrest by apply Hrest
  end.
  frame. apply download_file_loop_frame.
Qed.

Lemma find_and_download_frame (announcement_id : pystr) :
  (forall category_id,
     ev (EGet (Downloader.url_show_files ++ announcement_id ++ Downloader.slash
               ++ category_id))) ->
  forall rows, preserves (Downloader.find_and_download announcement_id raw_id rows).
Proof.
  intros Hget. induction rows as [|row rest IH];
    cbn [Downloader.find_and_download]; frame.
  by apply download_file_frame.
Qed.

End Folder.

Lemma process_by_announcement_id_frame (announcement_id : pystr) :
  let short := Str.drop_last 2 announcement_id in
  ev (EGet (Downloader.url_announce ++ short ++ Downloader.tab_documents)) ->
  ev (EGet (Downloader.url_announce ++ short)) ->
  (forall category_id,
     ev (EGet (Downloader.url_show_files ++ short ++ Downloader.slash ++ category_id))) ->
  ev (EMkdir announcement_id) ->
  (forall name, ev (EWriteFile announcement_id name)) ->
  (forall m, fd m (<[announcement_id := default ∅ (m !! announcement_id)]> m)) ->
  (forall name m,
     fd m (<[announcement_id := {[name]} ∪ default ∅ (m !! announcement_id)]> m)) ->
  preserves (Downloader.process_by_announcement_id announcement_id).
Proof.
  intros short Hdocs Hinfo Hfiles Hmkdir Hwrite Hmake Hcreate.
  unfold Downloader.process_by_announcement_id. cbn zeta. fold short.
  frame_step; [|frame]. frame_step; [by apply get_with_retries_frame|].
  frame.
  - by apply find_and_download_frame.
  - by apply get_announcement_info_frame.
Qed.

(** [process_by_announcement_id] asks for the documents tab of the id
    without its last two characters first. *)
Lemma process_by_announcement_id_starts (announcement_id : pystr) (s : state) :
  let short := Str.drop_last 2 announcement_id in
  let page_url := Downloader.url_announce ++ short ++ Downloader.tab_documents in
  0 < scraping_max_retries scraping ->
  ev (EGet page_url) ->
  ev (EGet (Downloader.url_announce ++ short)) ->
  (forall category_id,
     ev (EGet (Downloader.url_show_files ++ short ++ Downloader.slash ++ category_id))) ->
  ev (EMkdir announcement_id) ->
  (forall name, ev (EWriteFile announcement_id name)) ->
  (forall m, fd m (<[announcement_id := default ∅ (m !! announcement_id)]> m)) ->
  (forall name m,
     fd m (<[announcement_id := {[name]} ∪ default ∅ (m !! announcement_id)]> m)) ->
  after {| clock := S (clock s); log := log s ++ [EGet page_url];
           files := files s; folders := folders s; processor := processor s |}
        (snd (Downloader.process_by_announcement_id announcement_id s)).
Proof.
  intros short page_url Hpos Hdocs Hinfo Hfiles Hmkdir Hwrite Hmake Hcreate.
  unfold Downloader.process_by_announcement_id. cbn zeta. fold short page_url.
  apply after_try_except; [|intros e; frame].
  apply after_bind; [by apply get_with_retries_starts|].
  intros a. frame.
  - by apply find_and_download_frame.
  - by apply get_announcement_info_frame.
Qed.

Section Served.
Context (announcement_id category_id : pystr) (code : nat) (body : pystr).
Context (before after_it : list doc_row) (row : doc_row) (s : state).

Abbreviation short := (Str.drop_last 2 announcement_id).
Abbreviation page_url :=
  (Downloader.url_announce ++ short ++ Downloader.tab_documents).
Abbreviation listing_url :=
  (Downloader.url_show_files ++ short ++ Downloader.slash ++ category_id).

Hypothesis retries_pos : 0 < scraping_max_retries scraping.
Hypothesis page_served : w_get (clock s) page_url = Status code body.
Hypothesis page_good : Observe.call_raises (Status code body) = false.
Hypothesis page_rows : html_doc_rows body = before ++ row :: after_it.
Hypothesis rows_before : Forall (fun r => Observe.row_category r = None) before.
Hypothesis row_found : Observe.row_category row = Some category_id.
Hypothesis ev_info : ev (EGet (Downloader.url_announce ++ short)).
Hypothesis ev_mkdir : ev (EMkdir announcement_id).
Hypothesis ev_write : forall name, ev (EWriteFile announcement_id name).
Hypothesis fd_make :
  forall m, fd m (<[announcement_id := default ∅ (m !! announcement_id)]> m).
Hypothesis fd_create :
  forall name m,
    fd m (<[announcement_id := {[name]} ∪ default ∅ (m !! announcement_id)]> m).

(** When the documents tab is served and a row of its table carries a
    category id, the file listing is asked for under the id without its
    last two characters. *)
Lemma process_by_announcement_id_asks_for_the_listing :
  ev (EGet listing_url) ->
  after {| clock := S (S (clock s));
           log := ((log s ++ [EGet page_url]) ++ [ESleep 2]) ++ [EGet listing_url];
           files := files s; folders := folders s; processor := processor s |}
        (snd (Downloader.process_by_announcement_id announcement_id s)).
Proof.
  intros Hlisting.
  unfold Downloader.process_by_announcement_id. cbn zeta.
  apply after_try_except; [|intros e; frame].
  rewrite run_bind,
    (get_with_retries_served Downloader.new_stats page_url code body s
       retries_pos page_served page_good).
  rewrite run_bind. unfold sleep at 1, emit at 1.
  cbn [clock log files folders processor].
  apply after_bind; [|intros found; by apply get_announcement_info_frame].
  rewrite page_rows,
    (find_and_download_first_row short announcement_id category_id
       before after_it row _ rows_before row_found).
  match goal with
  | |- after _ (snd (_ ?s2)) =>
    pose proof (download_file_starts announcement_id ev_mkdir ev_write fd_make
                  fd_create short category_id s2 retries_pos Hlisting) as Hrun
  end.
  exact Hrun.
Qed.

(** When the listing is served too and names a link, the folder is made
    under the whole id. *)
Lemma process_by_announcement_id_makes_the_folder
    (code' : nat) (listing link : pystr) (links : list pystr) :
  w_get (S (clock s)) listing_url = Status code' listing ->
  Observe.call_raises (Status code' listing) = false ->
  html_links listing = link :: links ->
  w_disk_ok (S (S (clock s))) = true ->
  after {| clock := S (S (S (clock s)));
           log := (((log s ++ [EGet page_url]) ++ [ESleep 2])
                   ++ [EGet listing_url]) ++ [EMkdir announcement_id];
           files := files s;
           folders := <[announcement_id :=
                          default ∅ (folders s !! announcement_id)]> (folders s);
           processor := processor s |}
        (snd (Downloader.process_by_announcement_id announcement_id s)).
Proof.
  intros Hreply Hgood Hlinks Hdisk.
  unfold Downloader.process_by_announcement_id. cbn zeta.
  apply after_try_except; [|intros e; frame].
  rewrite run_bind,
    (get_with_retries_served Downloader.new_stats page_url code body s
       retries_pos page_served page_good).
  rewrite run_bind. unfold sleep at 1, emit at 1.
  cbn [clock log files folders processor].
  apply after_bind; [|intros found; by apply get_announcement_info_frame].
  rewrite page_rows,
    (find_and_download_first_row short announcement_id category_id
       before after_it row _ rows_before row_found).
  match goal with
  | |- after _ (snd (_ ?s2)) =>
    pose proof (download_file_makes_the_folder announcement_id ev_write
                  fd_create short category_id code' listing link links s2
                  retries_pos Hreply Hgood Hlinks Hdisk) as Hrun
  end.
  exact Hrun.
Qed.

End Served.


Section Models.
Hypothesis ev_model : forall e, Frame.to_model e = true -> ev e.

Ltac model := frame; try (apply ev_model; reflexivity).

Lemma request_to_model_frame (description : pystr) :
  preserves (Scorer.request_to_model description).
Proof. unfold Scorer.request_to_model. cbn zeta. model. Qed.

Lemma get_summary_from_model_frame (text : pystr) :
  preserves (Scorer.get_summary_from_model text).
Proof. unfold Scorer.get_summary_from_model. model. Qed.

Lemma load_global_frame (name : string) : preserves (Scorer.load_global name).
Proof. unfold Scorer.load_global. model. Qed.

Lemma get_translate_of_summary_frame (text : pystr) :
  preserves (Scorer.get_translate_of_summary text).
Proof.
  unfold Scorer.get_translate_of_summary.
  frame_step; [apply load_global_frame|]. model.
Qed.

Lemma final_request_to_model_frame (text : pystr) :
  preserves (Scorer.final_request_to_model text).
Proof.
  unfold Scorer.final_request_to_model.
  frame_step; [apply load_global_frame|]. model.
Qed.

Lemma retry_model_request_frame (func : M pystr) (delay : nat) :
  preserves func ->
  forall max_retry, preserves (Scorer._retry_model_request func max_retry delay).
Proof.
  intros Hfunc. induction max_retry as [|n IH];
    cbn [Scorer._retry_model_request]; model.
Qed.

Lemma process_short_text_frame (text : pystr) :
  preserves (Scorer._process_short_text text).
Proof.
  unfold Scorer._process_short_text.
  frame_step; [apply get_summary_from_model_frame|].
  frame_step; [|model].
  apply retry_model_request_frame, final_request_to_model_frame.
Qed.

Lemma process_long_text_loop_frame (text : pystr) (chunk_size max_chunks : nat) :
  forall starts i summaries,
    preserves (Scorer._process_long_text_loop text chunk_size max_chunks i
                 starts summaries).
Proof.
  induction starts as [|start rest IH]; intros i summaries;
    cbn [Scorer._process_long_text_loop]; cbn zeta; model.
  apply retry_model_request_frame, get_summary_from_model_frame.
Qed.

Lemma process_long_text_decide_frame (summaries : list pystr) :
  preserves (Scorer._process_long_text_decide summaries).
Proof.
  unfold Scorer._process_long_text_decide. cbn zeta.
  frame_step;
    [apply retry_model_request_frame, get_summary_from_model_frame|].
  frame_step; [|model].
  apply retry_model_request_frame, final_request_to_model_frame.
Qed.

Lemma process_long_text_frame (text : pystr) (chunk_size max_chunks : option nat) :
  preserves (Scorer._process_long_text text chunk_size max_chunks).
Proof.
  unfold Scorer._process_long_text, Scorer.py_range. cbn zeta.
  frame_step; [model|].
  frame_step; [apply process_long_text_loop_frame|].
  apply process_long_text_decide_frame.
Qed.

Lemma get_docx_frame (announcement_id : pystr) :
  preserves (FileUtils.get_docx_or_pdf_content_by_announcement_id announcement_id).
Proof.
  unfold FileUtils.get_docx_or_pdf_content_by_announcement_id. model.
Qed.

Lemma final_score_evaluate_frame (announcement_id : pystr) :
  preserves (Scorer.final_score_evaluate announcement_id).
Proof.
  unfold Scorer.final_score_evaluate, Scorer._save_result.
  frame_step; [apply get_docx_frame|].
  repeat (frame_step; try apply process_short_text_frame;
          try apply process_long_text_frame).
Qed.

Lemma final_score_frame (announcement_id : pystr) :
  preserves (Scorer.final_score announcement_id).
Proof.
  unfold Scorer.final_score.
  frame_step; [|model]. frame_step; [apply final_score_evaluate_frame|].
  repeat (frame_step; try apply get_translate_of_summary_frame).
Qed.

End Models.

Section Orchestrator.
Hypothesis ev_other : forall e, Spec.is_upload e = false -> ev e.
Hypothesis pr_stats : forall f p,
  pr p {| stats := f (stats p); stage1_success := stage1_success p;
          stage2_success := stage2_success p;
          already_processed := already_processed p |}.
Hypothesis pr_stage1 : forall k p,
  pr p {| stats := stats p; stage1_success := <[k := true]> (stage1_success p);
          stage2_success := stage2_success p;
          already_processed := already_processed p |}.

Ltac other := frame; try (apply ev_other; reflexivity).

Lemma modify_stats_frame (f : ProcessingStats -> ProcessingStats) :
  preserves (Main.modify_stats f).
Proof. apply preserves_modify_processor. intros p. apply pr_stats. Qed.

Lemma entry_getitem_frame (entry : gmap pystr pystr) (key : pystr) :
  preserves (Main.entry_getitem entry key).
Proof. unfold Main.entry_getitem. frame. Qed.

Lemma process_announcement_stages_frame (announcement_id : pystr)
    (entry : gmap pystr pystr) :
  (forall m, fd m (<[announcement_id := default ∅ (m !! announcement_id)]> m)) ->
  (forall name m,
     fd m (<[announcement_id := {[name]} ∪ default ∅ (m !! announcement_id)]> m)) ->
  preserves (Main.process_announcement_stages announcement_id entry).
Proof.
  intros Hmake Hcreate. unfold Main.process_announcement_stages.
  frame_step; [apply entry_getitem_frame|].
  frame_step; [apply request_to_model_frame; intros e He; apply ev_other;
               by destruct e|].
  frame_step; [|frame].
  frame_step; [apply modify_stats_frame|].
  frame_step; [apply preserves_modify_processor; intros p; apply pr_stage1|].
  frame_step.
  { apply process_by_announcement_id_frame; cbn zeta; intros;
      try (apply ev_other; reflexivity); auto. }
  frame_step; [|apply modify_stats_frame].
  frame_step; [|frame].
  apply final_score_frame. intros e He. apply ev_other. by destruct e.
Qed.

Section Mark.
Hypothesis fl_filtered : forall doc m, fl m (<[configGS_filtered := doc]> m).
Hypothesis pr_seen : forall k v p,
  pr p {| stats := stats p; stage1_success := stage1_success p;
          stage2_success := stage2_success p;
          already_processed := <[k := v]> (already_processed p) |}.
Hypothesis fd_any : forall m m', fd m m'.

Lemma save_filtered_frame (doc : checkpoint) :
  preserves (FileUtils.save_results_to_json doc configGS_filtered).
Proof.
  unfold FileUtils.save_results_to_json. other;
    apply preserves_write_json; intros m; apply fl_filtered.
Qed.

Lemma process_announcement_mark_frame (announcement_id : pystr)
    (entry : gmap pystr pystr) :
  preserves (Main.process_announcement_mark announcement_id entry).
Proof.
  unfold Main.process_announcement_mark.
  frame_step; [apply modify_stats_frame|].
  frame_step; [apply entry_getitem_frame|].
  frame_step; [apply preserves_modify_processor; intros p; apply pr_seen|].
  frame_step; [frame|]. frame_step; [apply save_filtered_frame|]. frame.
Qed.

Lemma process_announcement_frame (announcement_id : pystr)
    (entry : gmap pystr pystr) :
  preserves (Main.process_announcement announcement_id entry).
Proof.
  unfold Main.process_announcement.
  frame_step; [|apply modify_stats_frame].
  frame_step; [apply process_announcement_mark_frame|].
  apply process_announcement_stages_frame; intros; apply fd_any.
Qed.

Lemma process_all_frame (full_data : list (pystr * gmap pystr pystr)) :
  preserves (Main.process_all full_data).
Proof.
  induction full_data as [|[announcement_id entry] rest IH];
    cbn [Main.process_all]; cbn zeta; frame.
  apply process_announcement_frame.
Qed.

Lemma main_interrupted_frame (done : nat)
    (full_data : list (pystr * gmap pystr pystr)) :
  (forall p p', pr p p') ->
  preserves (Main.main_interrupted done full_data).
Proof.
  intros Hany. unfold Main.main_interrupted, Main.load_processed_data,
    FileUtils.get_results_from_json.
  frame_step; [apply preserves_modify_processor; intros p; apply Hany|].
  frame_step; [|apply process_all_frame].
  frame_step; [frame|]. apply preserves_modify_processor. intros p. apply Hany.
Qed.

End Mark.
End Orchestrator.
End Functions.
End FrameRules.

#[global] Instance anything_preorder {A} : PreOrder (@Spec.anything A).
Proof. split; by intros. Qed.

#[global] Instance same_outside_preorder (raw_id : pystr) :
  PreOrder (Spec.same_outside raw_id).
Proof.
  split.
  - by intros m k Hk.
  - intros m1 m2 m3 H12 H23 k Hk. by rewrite H23, H12.
Qed.

#[global] Instance keeps_folder_preorder (raw_id : pystr) :
  PreOrder (Spec.keeps_folder raw_id).
Proof.
  split.
  - intros m Hthere. exact Hthere.
  - intros m1 m2 m3 H12 H23 Hthere. apply H23, H12, Hthere.
Qed.

#[global] Instance same_stage_files_preorder : PreOrder Spec.same_stage_files.
Proof.
  split.
  - by intros m.
  - intros m1 m2 m3 [H1 H2] [H3 H4]. split; congruence.
Qed.

#[global] Instance same_seen_preorder : PreOrder Spec.same_seen.
Proof. split; [by intros p | intros p1 p2 p3 H1 H2; unfold Spec.same_seen in *; congruence]. Qed.

#[global] Instance same_accepted_preorder : PreOrder Spec.same_accepted.
Proof. split; [by intros p | intros p1 p2 p3 H1 H2; unfold Spec.same_accepted in *; congruence]. Qed.

(* ===================================================================== *)
(** * Document acquisition: which id goes where *)
(* ===================================================================== *)

Section Acquisition.
Context {lib : PyLib} {cfg : AppConfig} {W : World}.

Lemma keeps_folder_insert (raw_id : pystr) (folder : gset pystr)
    (m : gmap pystr (gset pystr)) :
  Spec.keeps_folder raw_id m (<[raw_id := folder]> m).
Proof. intros _. rewrite lookup_insert_eq. by eexists. Qed.

(** C10. Whatever the id, as long as the configuration allows one attempt:
    [process_by_announcement_id] first asks for the documents tab at an
    address built from the id without its last two characters, and every
    page it asks for afterwards (a file listing, the announcement page)
    has such an address too, whereas the folder it creates and the files
    it writes are under the whole id, and no other folder changes.  When
    the documents tab is served and a row of its table gives a category,
    the file listing is asked for under the shortened id; when the
    listing is served too and names a link, the folder is made under the
    whole id and is there at the end. *)
Theorem acquisition_truncates_the_id_in_urls_but_not_in_the_folder
    (announcement_id : pystr) (s : state) :
  0 < scraping_max_retries scraping ->
  let short := Str.drop_last 2 announcement_id in
  let page_url := Downloader.url_announce ++ short ++ Downloader.tab_documents in
  let s' := snd (Downloader.process_by_announcement_id announcement_id s) in
  (exists new,
     log s' = log s ++ EGet page_url :: new /\
     Forall (Spec.acquisition_event announcement_id) new)
  /\ Spec.same_outside announcement_id (folders s) (folders s')
  /\ (forall code body before row after_it category_id,
        w_get (clock s) page_url = Status code body ->
        Observe.call_raises (Status code body) = false ->
        html_doc_rows body = before ++ row :: after_it ->
        Forall (fun r => Observe.row_category r = None) before ->
        Observe.row_category row = Some category_id ->
        let listing_url :=
          Downloader.url_show_files ++ short ++ Downloader.slash
          ++ category_id in
        (exists rest,
           log s' = log s ++ [EGet page_url; ESleep 2; EGet listing_url] ++ rest)
        /\ (forall code' listing link links,
              w_get (S (clock s)) listing_url = Status code' listing ->
              Observe.call_raises (Status code' listing) = false ->
              html_links listing = link :: links ->
              w_disk_ok (S (S (clock s))) = true ->
              (exists rest,
                 log s' = log s ++ [EGet page_url; ESleep 2; EGet listing_url;
                                    EMkdir announcement_id] ++ rest)
              /\ is_Some (folders s' !! announcement_id))).
Proof.
  intros Hpos short page_url s'.
  split; [|split].
  - destruct (process_by_announcement_id_starts
                (Spec.acquisition_event announcement_id)
                (Spec.same_outside announcement_id)
                Spec.anything Spec.anything ltac:(by intros [])
                announcement_id s Hpos)
      as ((new & Hlog & Hnew) & _); cbn [Spec.acquisition_event]; eauto.
    + intros m k Hk. by rewrite lookup_insert_ne.
    + intros name m k Hk. by rewrite lookup_insert_ne.
    + exists new. cbn [log] in Hlog. fold s' in Hlog.
      by rewrite Hlog, <- app_assoc.
  - destruct (process_by_announcement_id_frame
                (Spec.acquisition_event announcement_id)
                (Spec.same_outside announcement_id)
                Spec.anything Spec.anything ltac:(by intros [])
                announcement_id) with (s := s)
      as (_ & Hfolders & _); cbn [Spec.acquisition_event]; eauto.
    + intros m k Hk. by rewrite lookup_insert_ne.
    + intros name m k Hk. by rewrite lookup_insert_ne.
  - intros code body before row after_it category_id
      Hserved Hgood Hrows Hbefore Hrow listing_url.
    split.
    + destruct (process_by_announcement_id_asks_for_the_listing
                  (fun _ => True) Spec.anything Spec.anything Spec.anything
                  ltac:(done) announcement_id category_id code body before
                  after_it row s Hpos Hserved Hgood Hrows Hbefore Hrow)
        as ((rest & Hlog & _) & _); try done.
      exists rest. cbn [log] in Hlog. fold s' in Hlog.
      by rewrite Hlog, <- !app_assoc.
    + intros code' listing link links Hserved' Hgood' Hlinks Hdisk.
      destruct (process_by_announcement_id_makes_the_folder
                  (fun _ => True) (Spec.keeps_folder announcement_id)
                  Spec.anything Spec.anything
                  ltac:(done) announcement_id category_id code body before
                  after_it row s Hpos Hserved Hgood Hrows Hbefore Hrow)
        with (code' := code') (listing := listing) (link := link)
             (links := links)
        as ((rest & Hlog & _) & Hfolder & _); try done;
        try (intros; apply keeps_folder_insert).
      cbn [log folders] in Hlog, Hfolder. fold s' in Hlog, Hfolder. split.
      * exists rest. by rewrite Hlog, <- !app_assoc.
      * apply Hfolder. rewrite lookup_insert_eq. by eexists.
Qed.

End Acquisition.

(** In the scenario the documents tab and the file listing are asked for
    under "12345678", and the folder "12345678-1" is made. *)
Lemma acquisition_witness :
  let s' :=
    snd (Downloader.process_by_announcement_id
           (lib := Runtime.lib) (cfg := default_config) (W := Scenario.world)
           Scenario.announcement_id Runtime.empty_state) in
  (exists rest,
     log s'
     = [] ++ [ EGet (Str.utf8 "https://goszakup.gov.kz/ru/announce/index/12345678?tab=documents");
               ESleep 2;
               EGet (Str.utf8 "https://goszakup.gov.kz/ru/announce/actionAjaxModalShowFiles/12345678/3357");
               EMkdir (Str.utf8 "12345678-1") ] ++ rest)
  /\ is_Some (folders s' !! Str.utf8 "12345678-1").
Proof.
  pose proof (acquisition_truncates_the_id_in_urls_but_not_in_the_folder
                (lib := Runtime.lib) (cfg := default_config)
                (W := Scenario.world)
                Scenario.announcement_id Runtime.empty_state) as H.
  destruct H as (_ & _ & Hserved).
  - cbn. lia.
  - destruct (Hserved 200 Runtime.documents_page []
                {| row_columns := 3; row_doc_name := Downloader.tech_spec;
                   row_onclick :=
                     Some (Str.utf8 "actionModalShowFiles(12345678,3357)") |}
                [] (Str.utf8 "3357"))
      as (_ & Hfolder); try reflexivity; try apply Forall_nil_2.
    destruct (Hfolder 200 Runtime.files_page Runtime.file_href [])
      as (Hlog & Hthere); try reflexivity.
    split; [exact Hlog | exact Hthere].
Defined.

(** An id without a discriminator suffix loses its last two digits all
    the same. *)
Example acquisition_of_an_id_without_suffix :
  log (snd (Downloader.process_by_announcement_id
              (lib := Runtime.lib) (cfg := default_config) (W := Scenario.world)
              (Str.utf8 "12345678") Runtime.empty_state))
  = [ EGet (Str.utf8 "https://goszakup.gov.kz/ru/announce/index/123456?tab=documents");
      ESleep 2;
      EGet (Str.utf8 "https://goszakup.gov.kz/ru/announce/index/123456") ].
Proof. vm_compute. reflexivity. Qed.

(** In the scenario the pages are asked for under "12345678" and the file
    lands in the folder "12345678-1". *)
Example acquisition_of_the_scenario :
  let s' :=
    snd (Downloader.process_by_announcement_id
           (lib := Runtime.lib) (cfg := default_config) (W := Scenario.world)
           Scenario.announcement_id Runtime.empty_state) in
  folders s' !! Str.utf8 "12345678-1" = Some {[ Str.utf8 "3357.pdf" ]} /\
  folders s' !! Str.utf8 "12345678" = None /\
  head (log s')
  = Some (EGet (Str.utf8 "https://goszakup.gov.kz/ru/announce/index/12345678?tab=documents")).
Proof. vm_compute. repeat split. Qed.

(* ===================================================================== *)
(** * Checkpoint files *)
(* ===================================================================== *)

Section Checkpoints.
Context {lib : PyLib} {cfg : AppConfig} {W : World}.

Lemma filtered_is_not_a_stage_file :
  configGS_filtered <> configGS_stage1s /\ configGS_filtered <> configGS_stage2s.
Proof. split; discriminate. Qed.

Lemma stage_files_survive_filtered (doc : checkpoint) (m : gmap pystr checkpoint) :
  Spec.same_stage_files m (<[configGS_filtered := doc]> m).
Proof.
  destruct filtered_is_not_a_stage_file as [H1 H2].
  split; by rewrite lookup_insert_ne.
Qed.

(** What the start of [process_announcement] does, when the entry has a
    name and the disk takes the write. *)
Lemma process_announcement_mark_run
    (announcement_id name : pystr) (entry : gmap pystr pystr) (s : state) :
  entry !! Main.key_name = Some name ->
  w_disk_ok (clock s) = true ->
  exists s1,
    Main.process_announcement_mark announcement_id entry s = (Ok tt, s1) /\
    files s1 = <[configGS_filtered :=
                   Filtered (<[announcement_id := name]>
                               (already_processed (processor s)))]> (files s) /\
    already_processed (processor s1)
    = <[announcement_id := name]> (already_processed (processor s)).
Proof.
  intros Hname Hdisk. eexists.
  unfold Main.process_announcement_mark, Main.modify_stats,
    Main.set_already_processed, Main.entry_getitem,
    FileUtils.save_results_to_json.
  rewrite Hname.
  cbv beta iota delta [mbind M_bind mret M_ret modify_processor get_state ask
                       write_json].
  cbn [clock]. rewrite Hdisk. cbv beta iota.
  split; [reflexivity|]. split; reflexivity.
Qed.

(** [save_results], when the disk takes the three writes *)
Lemma save_results_run (s : state) :
  w_disk_ok (clock s) = true ->
  w_disk_ok (S (clock s)) = true ->
  w_disk_ok (S (S (clock s))) = true ->
  files (snd (Main.save_results s))
  = <[configGS_filtered := Filtered (already_processed (processor s))]>
      (<[configGS_stage2s := Stage2 (stage2_success (processor s))]>
         (<[configGS_stage1s := Stage1 (stage1_success (processor s))]> (files s))).
Proof.
  intros H0 H1 H2.
  unfold Main.save_results, FileUtils.save_results_to_json.
  cbv beta iota delta [try_except mbind M_bind mret M_ret get_state ask write_json].
  rewrite H0. cbv beta iota. cbn [clock]. rewrite H1. cbv beta iota.
  cbn [clock]. rewrite H2. reflexivity.
Qed.

(** C2 (as amended).  Of the three checkpoint files, the run rewrites only
    "filtered" per announcement: [process_announcement] dumps the seen map
    into it right after it has marked the announcement, before the title
    goes to the model, and the file still holds that map when the
    announcement is done.  "stage1_success" and "stage2_success" are not
    written while announcements are processed, so a run interrupted in the
    loop leaves them as they were at its start; [save_results], after the
    loop, writes all three. *)
Theorem only_the_filtered_checkpoint_is_written_per_announcement
    (announcement_id name : pystr) (entry : gmap pystr pystr) (s : state) :
  entry !! Main.key_name = Some name ->
  w_disk_ok (clock s) = true ->
  let s' := snd (Main.process_announcement announcement_id entry s) in
  (files s' !! configGS_filtered = Some (Filtered (already_processed (processor s')))
   /\ already_processed (processor s') !! announcement_id = Some name)
  /\ Spec.same_stage_files (files s) (files s')
  /\ (forall done full_data s0,
        Spec.same_stage_files
          (files s0) (files (snd (Main.main_interrupted done full_data s0))))
  /\ (forall s0,
        w_disk_ok (clock s0) = true ->
        w_disk_ok (S (clock s0)) = true ->
        w_disk_ok (S (S (clock s0))) = true ->
        let saved := files (snd (Main.save_results s0)) in
        saved !! configGS_stage1s = Some (Stage1 (stage1_success (processor s0))) /\
        saved !! configGS_stage2s = Some (Stage2 (stage2_success (processor s0))) /\
        saved !! configGS_filtered = Some (Filtered (already_processed (processor s0)))).
Proof.
  intros Hname Hdisk s'.
  destruct filtered_is_not_a_stage_file as [Hne1 Hne2].
  split; [|split; [|split]].
  - destruct (process_announcement_mark_run announcement_id name entry s Hname Hdisk)
      as (s1 & Hmark & Hfiles & Hseen).
    pose proof (process_announcement_stages_frame
                  (fun _ => True) Spec.anything eq Spec.same_seen
                  ltac:(done) (lib := lib) (cfg := cfg) (W := W)
                  ltac:(done) ltac:(by intros) ltac:(by intros)
                  announcement_id entry ltac:(done) ltac:(done) s1)
      as (_ & _ & Hfl & Hpr).
    pose proof (modify_stats_frame
                  (fun _ => True) Spec.anything eq Spec.same_seen
                  ltac:(by intros) Main.incr_errors) as Herr.
    subst s'. unfold Main.process_announcement.
    rewrite run_try_except, run_bind, Hmark.
    destruct (Main.process_announcement_stages announcement_id entry s1)
      as [[[]|e] s2]; cbn [snd] in *.
    + unfold Spec.same_seen in Hpr. rewrite <- Hfl, Hpr, Hfiles, Hseen.
      by rewrite !lookup_insert_eq.
    + destruct (Herr s2) as (_ & _ & Hfl2 & Hpr2).
      unfold Spec.same_seen in Hpr, Hpr2.
      rewrite <- Hfl2, Hpr2, <- Hfl, Hpr, Hfiles, Hseen.
      by rewrite !lookup_insert_eq.
  - pose proof (process_announcement_frame
                  (fun _ => True) Spec.anything Spec.same_stage_files Spec.anything
                  ltac:(done) (lib := lib) (cfg := cfg) (W := W)
                  ltac:(done) ltac:(done) ltac:(done)
                  stage_files_survive_filtered ltac:(done) ltac:(done)
                  announcement_id entry s)
      as (_ & _ & Hfl & _).
    exact Hfl.
  - intros done full_data s0.
    pose proof (main_interrupted_frame
                  (fun _ => True) Spec.anything Spec.same_stage_files Spec.anything
                  ltac:(done) (lib := lib) (cfg := cfg) (W := W)
                  ltac:(done) ltac:(done) ltac:(done)
                  stage_files_survive_filtered ltac:(done) ltac:(done)
                  done full_data ltac:(done) s0)
      as (_ & _ & Hfl & _).
    exact Hfl.
  - intros s0 H0 H1 H2 saved. subst saved.
    rewrite (save_results_run s0 H0 H1 H2).
    assert (configGS_stage1s <> configGS_stage2s) by discriminate.
    repeat split.
    + rewrite lookup_insert_ne, lookup_insert_ne by done. by rewrite lookup_insert_eq.
    + rewrite lookup_insert_ne by done. by rewrite lookup_insert_eq.
    + by rewrite lookup_insert_eq.
Qed.

End Checkpoints.

Lemma filtered_checkpoint_witness :
  let s' :=
    snd (Main.process_announcement (lib := Runtime.lib) (cfg := default_config)
           (W := Scenario.world) Scenario.announcement_id Scenario.entry
           Runtime.empty_state) in
  files s' !! configGS_filtered = Some (Filtered (already_processed (processor s')))
  /\ already_processed (processor s') !! Scenario.announcement_id
     = Some Scenario.title.
Proof.
  pose proof (only_the_filtered_checkpoint_is_written_per_announcement
                (lib := Runtime.lib) (cfg := default_config) (W := Scenario.world)
                Scenario.announcement_id Scenario.title Scenario.entry
                Runtime.empty_state) as H.
  destruct H as [Hfiltered _].
  - reflexivity.
  - reflexivity.
  - exact Hfiltered.
Defined.

(** C2, where it fails: the run is interrupted when the first announcement
    is through.  Its title passed stage 1, and the processor has it in
    [stage1_success], but there is no "stage1_success" file: only
    "filtered" was written. *)
Lemma stage1_checkpoint_is_not_written_after_the_transition :
  let s' :=
    snd (Main.main_interrupted (lib := Runtime.lib) (cfg := default_config)
           (W := Scenario.world) 1
           [(Scenario.announcement_id, Scenario.entry)] Runtime.empty_state) in
  stage1_success (processor s') !! Scenario.announcement_id = Some true /\
  files s' !! configGS_stage1s = None /\
  files s' !! configGS_filtered
  = Some (Filtered {[ Scenario.announcement_id := Scenario.title ]}).
Proof. vm_compute. repeat split. Qed.

(* ===================================================================== *)
(** * The end-to-end scenario *)
(* ===================================================================== *)

Section EndToEnd.
Context {lib : PyLib} {cfg : AppConfig} {W : World}.

Lemma count_upload_app (l new : list event) :
  Forall Spec.not_upload new ->
  Spec.count Spec.is_upload (l ++ new) = Spec.count Spec.is_upload l.
Proof.
  intros Hnew. unfold Spec.count. rewrite List.filter_app, length_app.
  induction Hnew as [|e new He _ IH]; [cbn; lia|].
  cbn [List.filter]. unfold Spec.not_upload in He. rewrite He. exact IH.
Qed.

(** Whatever the announcement and whatever the world answers,
    [process_announcement] neither adds an entry to [stage2_success] nor
    posts to the intake system: [final_score] always returns a
    [ModelResponse], and subscripting it raises. *)
Lemma process_announcement_never_accepts
    (announcement_id : pystr) (entry : gmap pystr pystr) (s : state) :
  let s' := snd (Main.process_announcement announcement_id entry s) in
  stage2_success (processor s') = stage2_success (processor s) /\
  Spec.count Spec.is_upload (log s') = Spec.count Spec.is_upload (log s).
Proof.
  pose proof (process_announcement_frame
                Spec.not_upload Spec.anything Spec.anything Spec.same_accepted
                ltac:(by intros []) (lib := lib) (cfg := cfg) (W := W)
                ltac:(done) ltac:(done) ltac:(done)
                ltac:(done) ltac:(done) ltac:(done)
                announcement_id entry s)
    as ((new & Hlog & Hnew) & _ & _ & Hpr).
  split; [exact Hpr|]. cbn zeta. rewrite Hlog. by apply count_upload_app.
Qed.

End EndToEnd.

(** C1 on its scenario: the title is classified "возможно", the documents
    are acquired, the text of 500 characters holds three keywords and the
    model service would answer "да"; yet the announcement ends with no
    entry in [stage2_success], no upload attempt and one error counted.
    [final_score] itself already returns the rejection: the
    classification and the translation read the unbound global
    [model_name]. *)
Theorem scenario_ends_without_stage2_entry_and_without_upload :
  let start := Runtime.empty_state in
  let run :=
    Main.process_announcement (lib := Runtime.lib) (cfg := default_config)
      (W := Scenario.world) Scenario.announcement_id Scenario.entry start in
  let acquired :=
    Downloader.process_by_announcement_id (lib := Runtime.lib)
      (cfg := default_config) (W := Scenario.world)
      Scenario.announcement_id start in
  (* the scenario *)
  (fst (Scorer.request_to_model (lib := Runtime.lib) (W := Scenario.world)
          Scenario.title start) = Ok Scorer.possible /\
   Spec.is_Some_ok (fst acquired) = true /\
   length Scenario.doc_text = 500 /\
   length (List.filter
             (fun keyword =>
                Str.contains (Runtime.lower keyword) (Runtime.lower Scenario.doc_text))
             Scorer.KEYWORDS) = 3 /\
   w_chat (World := Scenario.world) 0 Classify Scenario.doc_text
   = Content (Str.utf8 "Да")) /\
  (* what the code does *)
  (stage2_success (processor (snd run)) = ∅ /\
   Spec.count Spec.is_upload (log (snd run)) = 0 /\
   errors (stats (processor (snd run))) = 1 /\
   fst (Scorer.final_score (lib := Runtime.lib) (cfg := default_config)
          (W := Scenario.world) Scenario.announcement_id (snd acquired))
   = Ok Scorer.rejection).
Proof. vm_compute. repeat split. Qed.

(* ===================================================================== *)
(** * Further properties of the scorer *)
(* ===================================================================== *)

Section ScorerFacts.
Context {lib : PyLib} {cfg : AppConfig} {W : World}.

(** [model_name] is not bound in scorer.py: the two functions that read it
    raise before they post anything. *)
Lemma final_request_to_model_raises (text : pystr) (s : state) :
  Scorer.final_request_to_model text s = (Raise NameError, s).
Proof. reflexivity. Qed.

Lemma get_translate_of_summary_raises (text : pystr) (s : state) :
  Scorer.get_translate_of_summary text s = (Raise NameError, s).
Proof. reflexivity. Qed.

(** The wrapped deep-analysis classification spends its three attempts
    and fifteen seconds without a single request, and yields "нет". *)
Lemma wrapped_classification_run (text : pystr) (s : state) :
  Scorer._retry_model_request (Scorer.final_request_to_model text) 3 5 s
  = (Ok Scorer.net,
     {| clock := clock s; log := log s ++ [ESleep 5; ESleep 5; ESleep 5];
        files := files s; folders := folders s; processor := processor s |}).
Proof.
  cbn [Scorer._retry_model_request].
  cbv beta iota delta [mbind M_bind mret M_ret attempt sleep emit].
  rewrite !final_request_to_model_raises. cbv beta iota.
  cbn [clock log files folders processor].
  by rewrite <- !app_assoc.
Qed.

(** [final_score] never raises and never accepts: whatever the documents
    and whatever the model service answers, it returns the rejection. *)
Lemma final_score_result (announcement_id : pystr) (s : state) :
  fst (Scorer.final_score announcement_id s) = Ok Scorer.rejection.
Proof.
  unfold Scorer.final_score. rewrite run_try_except, run_bind.
  destruct (Scorer.final_score_evaluate announcement_id s)
    as [[[[summary decision]|]|e] s1]; [|reflexivity..].
  by rewrite run_bind, get_translate_of_summary_raises.
Qed.

(** X1.  [final_score] returns the rejection, decision "нет" with an empty
    summary, for every announcement and whatever the model service
    answers: when the text passes the keyword gate, the translation of
    the summary reads the unbound global [model_name], and the [except]
    clause of [final_score] turns the [NameError] into the rejection. *)
Theorem final_score_always_returns_the_rejection
    (announcement_id : pystr) (s : state) :
  fst (Scorer.final_score announcement_id s) = Ok Scorer.rejection
  /\ Scorer.decision Scorer.rejection = Scorer.net
  /\ Scorer.summary Scorer.rejection = [].
Proof. split; [apply final_score_result|]. by split. Qed.

(** The short path asks for one summary, once, and never reaches the
    model with its classification question. *)
(** X2.  On the short path the summary is requested once, without retry; the
    three wrapped attempts at the classification all fail before any
    request is sent, each followed by a pause of 5 seconds, and the
    decision is what [_normalize_decision] makes of "нет". *)
Theorem short_path_issues_one_summary_request_and_no_classification
    (text : pystr) (s : state) :
  let run := Scorer._process_short_text text s in
  fst run
  = Ok (match w_chat (clock s) Summarize text with
        | Content c => str_strip c
        | _ => []
        end,
        Scorer._normalize_decision Scorer.net)
  /\ log (snd run)
     = log s ++ [EChat Summarize text; ESleep 5; ESleep 5; ESleep 5]
  /\ clock (snd run) = S (clock s).
Proof.
  unfold Scorer._process_short_text.
  cbv beta iota zeta delta [mbind M_bind mret M_ret Scorer.get_summary_from_model
                            try_except ask raise].
  destruct (w_chat (clock s) Summarize text) as [| |c];
    cbv beta iota; rewrite wrapped_classification_run; cbv beta iota;
    cbn [fst snd clock log]; rewrite <- app_assoc; repeat split.
Qed.

(** Stage 1 asks the model once, never raises, and answers one of its
    three words; "возможно" wins when the reply holds both tokens, and a
    missing reply is "неизвестно". *)
(** X3.  [request_to_model] sends exactly one request, never raises, and
    answers "возможно", "нет" or "неизвестно": "возможно" whenever the
    lowered answer of the model contains it, "неизвестно" when the
    service gives no response. *)
Theorem request_to_model_asks_once_and_answers_one_of_three
    (description : pystr) (s : state) :
  let run := Scorer.request_to_model description s in
  (exists r, fst run = Ok r /\
     (r = Scorer.possible \/ r = Scorer.net \/ r = Scorer.unknown))
  /\ log (snd run) = log s ++ [EGenerate description]
  /\ clock (snd run) = S (clock s)
  /\ (forall text,
        w_generate (clock s) description = Content text ->
        Str.contains Scorer.possible (str_lower (str_strip text)) = true ->
        fst run = Ok Scorer.possible)
  /\ (w_generate (clock s) description = NoResponse ->
      fst run = Ok Scorer.unknown).
Proof.
  unfold Scorer.request_to_model.
  cbv beta iota zeta delta [mbind M_bind mret M_ret try_except ask raise].
  destruct (w_generate (clock s) description) as [| |text]; cbv beta iota.
  - repeat split; eauto; try discriminate.
  - repeat split; eauto; try discriminate.
  - destruct (Str.contains Scorer.possible _) eqn:Hp;
      [|destruct (Str.contains Scorer.net _) eqn:Hn];
      (split; [eauto 6|]); repeat split; try discriminate.
    + intros t Ht Hc. injection Ht as <-. congruence.
    + intros t Ht Hc. injection Ht as <-. congruence.
Qed.

End ScorerFacts.

(* ===================================================================== *)
(** * Further properties of the intake submitter *)
(* ===================================================================== *)

Section UploaderFacts.
Context {lib : PyLib} {W : World}.

(** X4.  For a well-formed request [upload] calls [session.post] exactly
    once (within that call the adapter of the session may send the
    request again when the status is in its forcelist), and the result is
    the document id when the response that the call hands over carries
    one, [None] otherwise. *)
Theorem well_formed_upload_calls_the_session_once
    (company_name bin message file md5sum kratkij_ii_analiz_ts : pystr)
    (s : state) :
  Spec.well_formed_upload company_name bin message file md5sum ->
  let data := {| p_bin := bin; p_nazvanie_kompanii := company_name;
                 p_tekst_soobsheniya := message;
                 p_kratkij_ii_analiz_ts := kratkij_ii_analiz_ts;
                 p_base64 := file; p_md5sum := md5sum |} in
  let run := Uploader.upload company_name bin message file md5sum
                             kratkij_ii_analiz_ts s in
  fst run = Ok (match w_intake (clock s) data with
                | Some (Some document_id) => Some document_id
                | _ => None
                end)
  /\ log (snd run) = log s ++ [EUpload data]
  /\ clock (snd run) = S (clock s).
Proof.
  intros (Hc & Hb & Hm & Hf & Hmd & Hdigit & Hlen & Hlen32) data run.
  subst run. unfold Uploader.upload, Uploader._validate_input_data.
  destruct company_name, bin, message, file, md5sum; try done.
  cbn [forallb Str.truthy andb negb].
  rewrite Hdigit, Hlen, Hlen32. cbn [negb orb Nat.eqb].
  rewrite ?Nat.eqb_refl. cbn [negb orb].
  cbv beta iota zeta delta [mbind M_bind mret M_ret attempt ask].
  fold data. by destruct (w_intake (clock s) data) as [[?|]|].
Qed.

(** X5.  [executor] never raises, and it gives up with [None], without posting
    and without touching anything, when the announcement has no id, no
    organizer name or no organizer id, or when there is no folder named
    by the announcement id of the record. *)
Theorem executor_gives_up_quietly_on_incomplete_announcements
    (item : Info) (s : state) :
  (exists r s', Uploader.executor item s = (Ok r, s'))
  /\ (i_announcement_id item = [] \/ i_correspondent item = [] \/
      i_correspondent_id item = None \/ i_correspondent_id item = Some [] \/
      folders s !! i_announcement_id item = None ->
      Uploader.executor item s = (Ok None, s)).
Proof.
  unfold Uploader.executor. split.
  - destruct (i_announcement_id item); [by eexists _, _|].
    rewrite run_try_except.
    match goal with |- context [match ?m s with _ => _ end] => destruct (m s) as [[r|e] s1] end;
      by eexists _, _.
  - intros Hwhy.
    destruct (i_announcement_id item) as [|a announcement_id] eqn:Hid; [done|].
    destruct (i_correspondent item) as [|c company_name]; [done|].
    destruct (i_correspondent_id item) as [[|b bin]|]; [done| |done].
    destruct Hwhy as [?|[?|[?|[?|Hfolder]]]]; try done.
    rewrite run_try_except.
    destruct (i_started_at item ≫= isoformat_to_display),
             (i_finished_at item ≫= isoformat_to_display);
      cbv beta iota zeta delta [mbind M_bind mret M_ret
                                FileUtils.get_file_convert get_state];
      by rewrite Hfolder.
Qed.

End UploaderFacts.

(** A request with a twelve-digit organizer id and a 32-character checksum. *)
Lemma well_formed_upload_witness :
  let run :=
    Uploader.upload (lib := Runtime.lib) (W := Scenario.world)
      (Str.utf8 "ТОО Ромашка") (Str.utf8 "123456789012") (Str.utf8 "Название: ...")
      (Str.utf8 "UEsDBBQABgAIAAAAIQ==") (Str.utf8 "9e107d9d372bb6826bd81d3542a419d6")
      [] Runtime.empty_state in
  fst run = Ok (Some (Str.utf8 "4021")) /\ clock (snd run) = 1.
Proof.
  pose proof (well_formed_upload_calls_the_session_once
                (lib := Runtime.lib) (W := Scenario.world)
                (Str.utf8 "ТОО Ромашка") (Str.utf8 "123456789012")
                (Str.utf8 "Название: ...") (Str.utf8 "UEsDBBQABgAIAAAAIQ==")
                (Str.utf8 "9e107d9d372bb6826bd81d3542a419d6") []
                Runtime.empty_state) as H.
  destruct H as (Hres & _ & Hclock).
  - unfold Spec.well_formed_upload. vm_compute. repeat split; discriminate.
  - split; [exact Hres | exact Hclock].
Defined.

(* ===================================================================== *)
(** * Further properties of the downloader *)
(* ===================================================================== *)

Section DownloaderFacts.
Context {lib : PyLib} {cfg : AppConfig} {W : World}.

Lemma retry_trace_S (request : event) (pause k : nat) :
  Observe.retry_trace request pause (S k)
  = [request; ESleep pause] ++ Observe.retry_trace request pause k.
Proof. reflexivity. Qed.

Lemma get_with_retries_loop_failing (url : pystr) (n delay : nat) :
  forall remaining attempt st s,
    attempt + S remaining = n ->
    (forall i, i <= remaining ->
       Observe.call_raises (w_get (clock s + i) url) = true) ->
    Downloader.get_with_retries_loop url n delay attempt (S remaining) st s
    = (Ok (None, Downloader.add_error st),
       {| clock := clock s + S remaining;
          log := log s ++ Observe.retry_trace (EGet url) delay remaining;
          files := files s; folders := folders s; processor := processor s |}).
Proof.
  induction remaining as [|r IH]; intros attempt st s Hn Hfail.
  - pose proof (Hfail 0 ltac:(lia)) as H0. rewrite Nat.add_0_r in H0.
    cbn [Downloader.get_with_retries_loop].
    cbv beta iota zeta delta [mbind M_bind mret M_ret ask].
    replace (attempt <? n - 1) with false by (symmetry; apply Nat.ltb_ge; lia).
    unfold Observe.call_raises in H0.
    replace (clock s + 1) with (S (clock s)) by lia.
    destruct (session_reply (w_get (clock s) url)) as [|code body];
      [reflexivity|].
    by rewrite H0.
  - pose proof (Hfail 0 ltac:(lia)) as H0. rewrite Nat.add_0_r in H0.
    remember (S r) as r' eqn:Hr'.
    cbn [Downloader.get_with_retries_loop].
    cbv beta iota zeta delta [mbind M_bind mret M_ret ask sleep emit].
    replace (attempt <? n - 1) with true by (symmetry; apply Nat.ltb_lt; lia).
    unfold Observe.call_raises in H0.
    assert (Hnext : forall st' s',
      clock s' = S (clock s) ->
      Downloader.get_with_retries_loop url n delay (S attempt) r' st' s'
      = (Ok (None, Downloader.add_error st'),
         {| clock := clock s' + r';
            log := log s' ++ Observe.retry_trace (EGet url) delay r;
            files := files s'; folders := folders s';
            processor := processor s' |})).
    { intros st' s' Hclock. subst r'. apply IH; [lia|].
      intros i Hi. rewrite Hclock.
      replace (S (clock s) + i) with (clock s + S i) by lia.
      apply Hfail. lia. }
    destruct (session_reply (w_get (clock s) url)) as [|code body];
      [|rewrite H0];
      cbn [clock log files folders processor];
      (rewrite Hnext by reflexivity); cbn [clock log files folders processor];
      subst r'; rewrite retry_trace_S, <- !app_assoc; do 2 f_equal; lia.
Qed.

(** X6.  When every call of the session raises, for want of a connection,
    with the re-sends of the adapter used up or with a 4xx or 5xx status,
    [get_with_retries] calls [session.get] exactly [max_retries] times,
    pauses after each call but the last, counts one download error and
    returns [None].  It never raises. *)
Theorem get_with_retries_gives_up_after_max_retries
    (st : Downloader.DownloadStats) (url : pystr)
    (max_retries delay : option nat) (s : state) :
  let n := or_default max_retries (scraping_max_retries scraping) in
  let d := or_default delay (scraping_retry_delay scraping) in
  0 < n ->
  (forall i, i < n -> Observe.call_raises (w_get (clock s + i) url) = true) ->
  let run := Downloader.get_with_retries st url max_retries delay s in
  fst run = Ok (None, Downloader.add_error st)
  /\ log (snd run) = log s ++ Observe.retry_trace (EGet url) d (n - 1)
  /\ clock (snd run) = clock s + n
  /\ folders (snd run) = folders s.
Proof.
  intros n d Hn Hfail run. subst run. unfold Downloader.get_with_retries.
  fold n d. destruct n as [|r]; [lia|].
  rewrite get_with_retries_loop_failing; [|lia|intros; apply Hfail; lia].
  cbn [fst snd clock log folders]. by replace (S r - 1) with r by lia.
Qed.

Lemma get_with_retries_loop_recovering (url : pystr) (n delay : nat)
    (code : nat) (body : pystr) :
  forall k remaining attempt st s,
    attempt + S remaining = n ->
    k <= remaining ->
    (forall i, i < k ->
       Observe.call_raises (w_get (clock s + i) url) = true) ->
    w_get (clock s + k) url = Status code body ->
    Observe.call_raises (Status code body) = false ->
    Downloader.get_with_retries_loop url n delay attempt (S remaining) st s
    = (Ok (Some body, st),
       {| clock := clock s + S k;
          log := log s ++ Observe.retry_trace (EGet url) delay k;
          files := files s; folders := folders s; processor := processor s |}).
Proof.
  induction k as [|k IH]; intros remaining attempt st s Hn Hk Hfail Hgood Hok.
  - rewrite Nat.add_0_r in Hgood.
    cbn [Downloader.get_with_retries_loop].
    cbv beta iota zeta delta [mbind M_bind mret M_ret ask].
    rewrite Hgood. unfold Observe.call_raises in Hok.
    destruct (session_reply (Status code body)) as [|code' body'] eqn:Hreply;
      [discriminate|].
    cbn [session_reply] in Hreply.
    destruct (bool_decide (code ∈ status_forcelist)); [discriminate|].
    injection Hreply as <- <-. rewrite Hok.
    by replace (clock s + 1) with (S (clock s)) by lia.
  - pose proof (Hfail 0 ltac:(lia)) as H0. rewrite Nat.add_0_r in H0.
    destruct remaining as [|r]; [lia|].
    remember (S r) as r' eqn:Hr'.
    cbn [Downloader.get_with_retries_loop].
    cbv beta iota zeta delta [mbind M_bind mret M_ret ask sleep emit].
    replace (attempt <? n - 1) with true by (symmetry; apply Nat.ltb_lt; lia).
    unfold Observe.call_raises in H0.
    assert (Hnext : forall s',
      clock s' = S (clock s) ->
      Downloader.get_with_retries_loop url n delay (S attempt) r' st s'
      = (Ok (Some body, st),
         {| clock := clock s' + S k;
            log := log s' ++ Observe.retry_trace (EGet url) delay k;
            files := files s'; folders := folders s';
            processor := processor s' |})).
    { intros s' Hclock. subst r'. apply IH; [lia|lia| |by rewrite Hclock, <- Hgood; f_equal; lia|done].
      intros i Hi. rewrite Hclock.
      replace (S (clock s) + i) with (clock s + S i) by lia.
      apply Hfail. lia. }
    destruct (session_reply (w_get (clock s) url)) as [|code0 body0];
      [|rewrite H0];
      cbn [clock log files folders processor];
      (rewrite Hnext by reflexivity); cbn [clock log files folders processor];
      subst r'; rewrite retry_trace_S, <- !app_assoc; do 2 f_equal; lia.
Qed.

(** X7.  [get_with_retries] returns the body that the first call of the
    session that does not raise comes back with, after a pause for each
    call that raised before it, and leaves the error counter alone. *)
Theorem get_with_retries_returns_the_first_good_response
    (st : Downloader.DownloadStats) (url : pystr)
    (max_retries delay : option nat) (s : state)
    (k code : nat) (body : pystr) :
  let n := or_default max_retries (scraping_max_retries scraping) in
  let d := or_default delay (scraping_retry_delay scraping) in
  k < n ->
  (forall i, i < k -> Observe.call_raises (w_get (clock s + i) url) = true) ->
  w_get (clock s + k) url = Status code body ->
  Observe.call_raises (Status code body) = false ->
  let run := Downloader.get_with_retries st url max_retries delay s in
  fst run = Ok (Some body, st)
  /\ log (snd run) = log s ++ Observe.retry_trace (EGet url) d k
  /\ clock (snd run) = clock s + S k.
Proof.
  intros n d Hk Hfail Hgood Hok run. subst run.
  unfold Downloader.get_with_retries. fold n d.
  destruct n as [|r]; [lia|].
  by rewrite (get_with_retries_loop_recovering url (S r) d code body k r 0 st s)
    by (done || lia).
Qed.

(** What a pass over the links of a file listing does: it returns, it
    sends no request for a signature link, each file it counts as
    downloaded is a new name in the folder, and a write that fails may
    leave one more. *)
Lemma download_file_loop_run (announcement_id category_id raw_id : pystr) :
  forall (file_links : list pystr) (downloaded_count : nat)
         (st : Downloader.DownloadStats) (s : state),
  exists count' st' s' new,
    Downloader.download_file_loop announcement_id category_id raw_id
                                  file_links downloaded_count st s
    = (Ok (count', st'), s') /\
    log s' = log s ++ new /\
    Forall (fun e => Observe.touches_signature e = false) new /\
    default ∅ (folders s !! raw_id) ⊆ default ∅ (folders s' !! raw_id) /\
    size (default ∅ (folders s !! raw_id)) + (count' - downloaded_count)
    <= size (default ∅ (folders s' !! raw_id))
    <= size (default ∅ (folders s !! raw_id)) + length file_links /\
    downloaded_count <= count' <= downloaded_count + length file_links /\
    Downloader.downloaded_files st'
    = Downloader.downloaded_files st + (count' - downloaded_count).
Proof.
  induction file_links as [|href rest IH]; intros downloaded_count st s.
  - exists downloaded_count, st, s, []. rewrite app_nil_r, Nat.sub_diag, !Nat.add_0_r.
    by repeat split.
  - cbn [Downloader.download_file_loop length]. cbn zeta.
    destruct (Str.contains Downloader.signature href) eqn:Hsig.
    { destruct (IH downloaded_count st s)
        as (count' & st' & s' & new & Hrun & Hlog & Hev & Hsub & Hsize & Hle & Hdl).
      exists count', st', s', new. repeat split; auto; lia. }
    rewrite run_bind. unfold ask at 1.
    assert (Hstep : forall (prefix : list event) c st1 s1,
      log s1 = log s ++ prefix ->
      Forall (fun e => Observe.touches_signature e = false) prefix ->
      default ∅ (folders s !! raw_id) ⊆ default ∅ (folders s1 !! raw_id) ->
      size (default ∅ (folders s !! raw_id)) + (c - downloaded_count)
      <= size (default ∅ (folders s1 !! raw_id))
      <= S (size (default ∅ (folders s !! raw_id))) ->
      downloaded_count <= c <= S downloaded_count ->
      Downloader.downloaded_files st1
      = Downloader.downloaded_files st + (c - downloaded_count) ->
      exists count' st' s' new,
        Downloader.download_file_loop announcement_id category_id raw_id
                                      rest c st1 s1
        = (Ok (count', st'), s') /\
        log s' = log s ++ new /\
        Forall (fun e => Observe.touches_signature e = false) new /\
        default ∅ (folders s !! raw_id) ⊆ default ∅ (folders s' !! raw_id) /\
        size (default ∅ (folders s !! raw_id)) + (count' - downloaded_count)
        <= size (default ∅ (folders s' !! raw_id))
        <= size (default ∅ (folders s !! raw_id)) + S (length rest) /\
        downloaded_count <= count' <= downloaded_count + S (length rest) /\
        Downloader.downloaded_files st'
        = Downloader.downloaded_files st + (count' - downloaded_count)).
    { intros prefix c st1 s1 Hlog1 Hev1 Hsub1 Hsize1 Hle1 Hdl1.
      destruct (IH c st1 s1)
        as (count' & st' & s' & new & Hrun & Hlog & Hev & Hsub & Hsize & Hle & Hdl).
      exists count', st', s', (prefix ++ new). split; [exact Hrun|].
      split; [by rewrite Hlog, Hlog1, <- app_assoc|].
      split; [by apply Forall_app|].
      split; [by etrans|].
      split; [lia|]. split; lia. }
    assert (Hhead : Observe.touches_signature (EHead href) = false) by exact Hsig.
    assert (Hfetch : Observe.touches_signature (EFetch href) = false) by exact Hsig.
    set (folder := default ∅ (folders s !! raw_id)) in *.
    assert (Hadd : forall name, name ∉ folder ->
      folder ⊆ {[name]} ∪ folder /\ size ({[name]} ∪ folder) = S (size folder)).
    { intros name Hname. split; [apply union_subseteq_r|].
      rewrite size_union by (apply disjoint_singleton_l; exact Hname).
      by rewrite size_singleton. }
    destruct (w_head (clock s) href) as [content_disposition|].
    2:{ apply (Hstep [EHead href]); cbn [log folders]; fold folder;
          rewrite ?Nat.sub_diag, ?Nat.add_0_r; auto; lia. }
    rewrite run_bind. unfold get_state at 1. cbn [folders]. fold folder.
    set (file_path := Downloader.unique_name folder category_id _).
    assert (Hfresh : file_path ∉ folder) by apply unique_name_fresh.
    destruct (Hadd file_path Hfresh) as [Hsub Hsize].
    rewrite bool_decide_eq_false_2 by exact Hfresh.
    rewrite run_bind. unfold sleep, emit. rewrite run_bind. unfold ask at 1.
    cbn [clock log files folders processor].
    destruct (w_fetch (S (clock s)) href).
    2:{ apply (Hstep [EHead href; ESleep 3; EFetch href]);
          cbn [log folders Downloader.add_error Downloader.downloaded_files];
          fold folder; rewrite <- ?app_assoc, ?Nat.sub_diag, ?Nat.add_0_r;
          auto; try lia; by repeat constructor. }
    rewrite run_bind. unfold ask at 1. cbn [clock log files folders processor].
    destruct (w_disk_ok (S (S (clock s)))).
    + rewrite run_bind. unfold create_file at 1.
      cbn [clock log files folders processor]. fold folder.
      apply (Hstep [EHead href; ESleep 3; EFetch href;
                    EWriteFile raw_id file_path]);
        cbn [log folders Downloader.add_downloaded Downloader.downloaded_files];
        rewrite <- ?app_assoc, ?lookup_insert_eq; cbn [default from_option id];
        auto; try lia; by repeat constructor.
    + rewrite run_bind. unfold follow_up at 1.
      cbn [clock log files folders processor].
      destruct (w_disk_ok (S (S (S (clock s))))); rewrite run_bind.
      * unfold create_file at 1. cbn [clock log files folders processor].
        fold folder.
        apply (Hstep [EHead href; ESleep 3; EFetch href;
                      EWriteFile raw_id file_path]);
          cbn [log folders Downloader.add_error Downloader.downloaded_files];
          rewrite <- ?app_assoc, ?lookup_insert_eq, ?Nat.sub_diag, ?Nat.add_0_r;
          cbn [default from_option id]; auto; try lia; by repeat constructor.
      * rewrite run_ret.
        apply (Hstep [EHead href; ESleep 3; EFetch href;
                      EWriteFile raw_id file_path]);
          cbn [log folders Downloader.add_error Downloader.downloaded_files];
          fold folder; rewrite <- ?app_assoc, ?Nat.sub_diag, ?Nat.add_0_r;
          auto; try lia; by repeat constructor.
Qed.

(** X8.  [download_file] sends neither the HEAD nor the GET request for a link
    whose address contains "signature", whatever the other links of the
    listing are. *)
Theorem signature_links_are_never_requested
    (announcement_id category_id raw_id : pystr) (file_links : list pystr)
    (downloaded_count : nat) (st : Downloader.DownloadStats) (s : state) :
  let run := Downloader.download_file_loop announcement_id category_id raw_id
               file_links downloaded_count st s in
  exists new,
    log (snd run) = log s ++ new /\
    Forall (fun e => Observe.touches_signature e = false) new.
Proof.
  destruct (download_file_loop_run announcement_id category_id raw_id
              file_links downloaded_count st s)
    as (count' & st' & s' & new & Hrun & Hlog & Hev & _).
  cbn zeta. rewrite Hrun. by exists new.
Qed.

(** X9.  The pass over the links never removes or replaces a file of the
    folder.  Every download it counts is a new name in the folder; a
    write that fails after the file was opened leaves a file that is not
    counted, so the folder grows by the number of counted downloads at
    least and by one name for each link at most.  The downloaded counter
    grows with the count. *)
Theorem each_download_adds_one_new_file_to_the_folder
    (announcement_id category_id raw_id : pystr) (file_links : list pystr)
    (st : Downloader.DownloadStats) (s : state) :
  let run := Downloader.download_file_loop announcement_id category_id raw_id
               file_links 0 st s in
  let before := default ∅ (folders s !! raw_id) in
  let after := default ∅ (folders (snd run) !! raw_id) in
  exists downloaded_count st',
    fst run = Ok (downloaded_count, st') /\
    before ⊆ after /\
    size before + downloaded_count <= size after
    <= size before + length file_links /\
    Downloader.downloaded_files st'
    = Downloader.downloaded_files st + downloaded_count.
Proof.
  destruct (download_file_loop_run announcement_id category_id raw_id
              file_links 0 st s)
    as (count' & st' & s' & new & Hrun & Hlog & Hev & Hsub & Hsize & Hle & Hdl).
  cbn zeta. rewrite Hrun. cbn [fst snd]. rewrite Nat.sub_0_r in Hsize, Hdl.
  exists count', st'. repeat split; auto; lia.
Qed.

Lemma download_file_run (announcement_id category_id raw_id : pystr) (s : state) :
  exists ok s',
    Downloader.download_file announcement_id category_id raw_id s = (Ok ok, s') /\
    default ∅ (folders s !! raw_id) ⊆ default ∅ (folders s' !! raw_id) /\
    (ok = true -> size (default ∅ (folders s !! raw_id))
                  < size (default ∅ (folders s' !! raw_id))).
Proof.
  unfold Downloader.download_file, Downloader.download_file_stats.
  rewrite run_try_except, !run_bind.
  pose proof (get_with_retries_frame (fun _ => True) eq eq eq ltac:(done)
                Downloader.new_stats
                (Downloader.url_show_files ++ announcement_id
                 ++ Downloader.slash ++ category_id) None None I s)
    as (_ & Hfolders & _).
  assert (Hnothing : forall s1 : state,
    folders s = folders s1 ->
    exists ok s',
      (Ok false, s1) = (Ok ok, s') /\
      default ∅ (folders s !! raw_id) ⊆ default ∅ (folders s' !! raw_id) /\
      (ok = true -> size (default ∅ (folders s !! raw_id))
                    < size (default ∅ (folders s' !! raw_id)))).
  { intros s1 Hs1. exists false, s1. rewrite <- Hs1.
    split_and!; [done|done|discriminate]. }
  destruct (Downloader.get_with_retries _ _ _ _ s) as [[[response st]|e] s1];
    cbn [snd] in Hfolders; [|exact (Hnothing _ Hfolders)].
  destruct response as [body|]; [|exact (Hnothing _ Hfolders)].
  destruct (html_links body) as [|href rest]; [exact (Hnothing _ Hfolders)|].
  rewrite run_bind. unfold ask at 1.
  destruct (w_disk_ok (clock s1));
    [|cbv beta iota delta [raise mret M_ret]; apply Hnothing; exact Hfolders].
  rewrite run_bind. unfold make_folder at 1. rewrite run_bind.
  match goal with
  | |- context [Downloader.download_file_loop _ _ _ ?links 0 st ?s2] =>
    destruct (download_file_loop_run announcement_id category_id raw_id
                links 0 st s2)
      as (count' & st' & s' & new & Hrun & Hlog & Hev & Hsub & Hsize & Hle & Hdl);
    rewrite Hrun
  end.
  cbn [folders] in Hsub, Hsize.
  rewrite lookup_insert_eq, <- Hfolders in Hsub, Hsize.
  cbn [default from_option id] in Hsub, Hsize.
  exists (0 <? count'), s'. split; [done|]. split; [exact Hsub|].
  intros Hok%Nat.ltb_lt. lia.
Qed.

(** X10.  [download_file] never raises and never removes a file of the
    folder of the announcement, and when it answers [True] the folder has
    gained a file. *)
Theorem download_file_reports_whether_the_folder_grew
    (announcement_id category_id raw_id : pystr) (s : state) :
  let run := Downloader.download_file announcement_id category_id raw_id s in
  let before := default ∅ (folders s !! raw_id) in
  let after := default ∅ (folders (snd run) !! raw_id) in
  exists ok,
    fst run = Ok ok /\
    before ⊆ after /\
    (ok = true -> size before < size after).
Proof.
  destruct (download_file_run announcement_id category_id raw_id s)
    as (ok & s' & Hrun & Hsub & Hok).
  cbn zeta. rewrite Hrun. by exists ok.
Qed.

End DownloaderFacts.

(** Three refused attempts with the default configuration. *)
Lemma get_with_retries_gives_up_witness :
  let run :=
    Downloader.get_with_retries (cfg := default_config)
      (W := Outage.missing_world) Downloader.new_stats
      Downloader.url_announce None None Runtime.empty_state in
  fst run = Ok (None, Downloader.add_error Downloader.new_stats)
  /\ log (snd run)
     = [EGet Downloader.url_announce; ESleep 5;
        EGet Downloader.url_announce; ESleep 5; EGet Downloader.url_announce].
Proof.
  pose proof (get_with_retries_gives_up_after_max_retries
                (cfg := default_config) (W := Outage.missing_world)
                Downloader.new_stats Downloader.url_announce None None
                Runtime.empty_state) as H.
  destruct H as (Hres & Hlog & _).
  - cbn. lia.
  - intros i Hi. reflexivity.
  - split; [exact Hres | exact Hlog].
Defined.

(** Three throttled attempts and a fourth that is served, with four
    attempts allowed. *)
Lemma get_with_retries_first_good_response_witness :
  let run :=
    Downloader.get_with_retries (cfg := default_config)
      (W := Scenario.throttling_world) Downloader.new_stats
      Downloader.url_announce (Some 4) None Runtime.empty_state in
  fst run = Ok (Some Runtime.files_page, Downloader.new_stats)
  /\ clock (snd run) = 4.
Proof.
  pose proof (get_with_retries_returns_the_first_good_response
                (cfg := default_config) (W := Scenario.throttling_world)
                Downloader.new_stats Downloader.url_announce (Some 4) None
                Runtime.empty_state 3 200 Runtime.files_page) as H.
  destruct H as (Hres & _ & Hclock).
  - cbn. lia.
  - intros i Hi. destruct i as [|[|[|i]]]; try reflexivity. lia.
  - reflexivity.
  - reflexivity.
  - split; [exact Hres | exact Hclock].
Defined.

(* ===================================================================== *)
(** * Further properties of the retry client of the parsers *)
(* ===================================================================== *)

Section RetryClientFacts.
Context {cfg : AppConfig} {W : World}.

Lemma request_with_retry_loop_first_200 (url : pystr) (retries pause : nat) :
  forall remaining attempt s,
  exists r s' requests,
    Parser.request_with_retry_loop url retries pause attempt remaining s
    = (Ok r, s') /\
    clock s' = clock s + requests /\
    Observe.first_200_within url (clock s) remaining r requests.
Proof.
  induction remaining as [|n IH]; intros attempt s.
  - exists None, s, 0. split; [reflexivity|]. split; [lia|]. split; [lia|].
    intros i Hi. lia.
  - cbn [Parser.request_with_retry_loop]. rewrite run_bind. unfold ask at 1.
    assert (Hnext : forall s2,
      clock s2 = S (clock s) ->
      Observe.answered_200 (w_get (clock s) url) = false ->
      exists r s' requests,
        Parser.request_with_retry_loop url retries pause (S attempt) n s2
        = (Ok r, s') /\
        clock s' = clock s + requests /\
        Observe.first_200_within url (clock s) (S n) r requests).
    { intros s2 Hclock Hfirst.
      destruct (IH (S attempt) s2) as (r & s' & k & Hrun & Hk & Hr).
      exists r, s', (S k). split; [exact Hrun|]. split; [lia|].
      rewrite Hclock in Hr.
      destruct r as [body|]; cbn [Observe.first_200_within] in *.
      - destruct Hr as (i & Hi & Hreq & (code & Hget & Hcode) & Hbefore).
        exists (S i). split; [lia|]. split; [lia|]. split.
        + exists code. split; [|exact Hcode].
          by replace (clock s + S i) with (S (clock s) + i) by lia.
        + intros [|j] Hj; [by rewrite Nat.add_0_r|].
          replace (clock s + S j) with (S (clock s) + j) by lia.
          apply Hbefore. lia.
      - destruct Hr as (Hreq & Hnone). split; [lia|].
        intros [|i] Hi; [by rewrite Nat.add_0_r|].
        replace (clock s + S i) with (S (clock s) + i) by lia.
        apply Hnone. lia. }
    destruct (w_get (clock s) url) as [|code body] eqn:Hget.
    + cbn [session_reply].
      destruct (attempt <? retries);
        cbv beta iota delta [mbind M_bind mret M_ret sleep emit];
        by apply Hnext.
    + cbn [Observe.answered_200 session_reply] in *.
      case_bool_decide as Hforced.
      { assert (Hcode : (code =? 200) = false).
        { apply Nat.eqb_neq. intros ->. by apply ok_is_not_forced. }
        destruct (attempt <? retries);
          cbv beta iota delta [mbind M_bind mret M_ret sleep emit];
          by apply Hnext. }
      destruct (code =? 200) eqn:Hcode.
      * eexists (Some body), _, 1. split; [reflexivity|].
        cbn [clock]. split; [lia|].
        exists 0. split; [lia|]. split; [lia|]. split.
        -- exists code. rewrite Nat.add_0_r. split; [exact Hget|].
           by apply Nat.eqb_eq.
        -- intros j Hj. lia.
      * destruct (code =? 429);
          cbv beta iota delta [mbind M_bind mret M_ret sleep emit];
          by apply Hnext.
Qed.

(** X11.  Both copies of the retry client never raise.  They call the
    session at most [retries] times and return the body of the first
    call that comes back with status 200, or [None] when none of these
    calls does.  They stop at that call. *)
Theorem retry_client_returns_the_first_200_response
    (url : pystr) (retries pause : option nat) (config : BaseParser.SiteConfig)
    (s : state) :
  let budget := or_default retries (scraping_max_retries scraping) in
  let web := Parser.request_with_retry url retries pause s in
  let base := BaseParser.request_with_retry config url s in
  (exists r requests,
     fst web = Ok r /\ clock (snd web) = clock s + requests /\
     Observe.first_200_within url (clock s) budget r requests)
  /\
  (exists r requests,
     fst base = Ok r /\ clock (snd base) = clock s + requests /\
     Observe.first_200_within url (clock s) (BaseParser.max_retries config)
                              r requests).
Proof.
  cbn zeta. unfold Parser.request_with_retry, BaseParser.request_with_retry.
  split.
  - destruct (request_with_retry_loop_first_200 url
                (or_default retries (scraping_max_retries scraping))
                (or_default pause (scraping_retry_delay scraping))
                (or_default retries (scraping_max_retries scraping)) 1 s)
      as (r & s' & k & Hrun & Hk & Hr).
    rewrite Hrun. by exists r, k.
  - destruct (request_with_retry_loop_first_200 url
                (BaseParser.max_retries config) (BaseParser.retry_delay config)
                (BaseParser.max_retries config) 1 s)
      as (r & s' & k & Hrun & Hk & Hr).
    rewrite Hrun. by exists r, k.
Qed.

Lemma request_with_retry_loop_offline (url : pystr) (retries pause : nat) :
  forall remaining attempt s,
    attempt + remaining = retries ->
    (forall i, i <= remaining -> w_get (clock s + i) url = ConnError) ->
    Parser.request_with_retry_loop url retries pause attempt (S remaining) s
    = (Ok None,
       {| clock := clock s + S remaining;
          log := log s ++ Observe.retry_trace (EGet url) pause remaining;
          files := files s; folders := folders s; processor := processor s |}).
Proof.
  induction remaining as [|r IH]; intros attempt s Hn Hdown.
  - pose proof (Hdown 0 ltac:(lia)) as H0. rewrite Nat.add_0_r in H0.
    cbn [Parser.request_with_retry_loop].
    cbv beta iota zeta delta [mbind M_bind mret M_ret ask].
    rewrite H0. cbn [session_reply].
    replace (attempt <? retries) with false by (symmetry; apply Nat.ltb_ge; lia).
    by replace (clock s + 1) with (S (clock s)) by lia.
  - pose proof (Hdown 0 ltac:(lia)) as H0. rewrite Nat.add_0_r in H0.
    remember (S r) as r' eqn:Hr'.
    cbn [Parser.request_with_retry_loop].
    cbv beta iota zeta delta [mbind M_bind mret M_ret ask sleep emit].
    rewrite H0. cbn [session_reply].
    replace (attempt <? retries) with true by (symmetry; apply Nat.ltb_lt; lia).
    cbv beta iota. subst r'. rewrite IH; cbn [clock log files folders processor].
    + rewrite retry_trace_S, <- !app_assoc. do 2 f_equal. lia.
    + lia.
    + intros i Hi. replace (S (clock s) + i) with (clock s + S i) by lia.
      apply Hdown. lia.
Qed.

(** X12.  When no connection can be made, the client sends [retries] requests
    and pauses between them, but not after the last one, and returns
    [None]. *)
Theorem connection_errors_are_not_followed_by_a_last_pause
    (url : pystr) (retries pause : option nat) (s : state) :
  let n := or_default retries (scraping_max_retries scraping) in
  let p := or_default pause (scraping_retry_delay scraping) in
  0 < n ->
  (forall i, i < n -> w_get (clock s + i) url = ConnError) ->
  let run := Parser.request_with_retry url retries pause s in
  fst run = Ok None
  /\ log (snd run) = log s ++ Observe.retry_trace (EGet url) p (n - 1).
Proof.
  intros n p Hn Hdown run. subst run. unfold Parser.request_with_retry.
  fold n p. destruct n as [|r]; [lia|].
  rewrite request_with_retry_loop_offline; [|lia|intros; apply Hdown; lia].
  cbn [fst snd log]. by replace (S r - 1) with r by lia.
Qed.



Lemma request_with_retry_loop_pauses (url : pystr) (retries pause : nat) :
  forall remaining attempt s,
  exists r s' new,
    Parser.request_with_retry_loop url retries pause attempt remaining s
    = (Ok r, s') /\
    log s' = log s ++ new /\
    Forall (fun e => e = EGet url \/ e = ESleep pause) new.
Proof.
  induction remaining as [|n IH]; intros attempt s.
  - exists None, s, []. by rewrite app_nil_r.
  - cbn [Parser.request_with_retry_loop]. rewrite run_bind. unfold ask at 1.
    assert (Hnext : forall (prefix : list event) s2,
      log s2 = log s ++ prefix ->
      Forall (fun e => e = EGet url \/ e = ESleep pause) prefix ->
      exists r s' new,
        Parser.request_with_retry_loop url retries pause (S attempt) n s2
        = (Ok r, s') /\
        log s' = log s ++ new /\
        Forall (fun e => e = EGet url \/ e = ESleep pause) new).
    { intros prefix s2 Hlog2 Hprefix.
      destruct (IH (S attempt) s2) as (r & s' & new & Hrun & Hlog & Hnew).
      exists r, s', (prefix ++ new). split; [exact Hrun|].
      split; [by rewrite Hlog, Hlog2, <- app_assoc|]. by apply Forall_app. }
    destruct (session_reply (w_get (clock s) url)) as [|code body] eqn:Hreply.
    + destruct (attempt <? retries);
        cbv beta iota delta [mbind M_bind mret M_ret sleep emit];
        cbn [clock log files folders processor].
      * apply (Hnext [EGet url; ESleep pause]);
          [by rewrite <- app_assoc|repeat first [apply Forall_nil_2 | apply Forall_cons_2; [first [by left | by right]|]]].
      * apply (Hnext [EGet url]); [done|repeat first [apply Forall_nil_2 | apply Forall_cons_2; [first [by left | by right]|]]].
    + destruct (code =? 200) eqn:H200.
      { eexists (Some body), _, [EGet url]. split; [reflexivity|].
        split; [reflexivity|]. repeat first [apply Forall_nil_2 | apply Forall_cons_2; [first [by left | by right]|]]. }
      destruct (code =? 429) eqn:H429.
      { exfalso. apply Nat.eqb_eq in H429 as ->.
        destruct (w_get (clock s) url) as [|code' body']; [discriminate|].
        cbn [session_reply] in Hreply. case_bool_decide as Hforced;
          [discriminate|].
        injection Hreply as -> _. by apply Hforced, too_many_requests_is_forced. }
      cbv beta iota delta [mbind M_bind mret M_ret sleep emit];
        cbn [clock log files folders processor].
      apply (Hnext [EGet url; ESleep pause]);
        [by rewrite <- app_assoc|repeat first [apply Forall_nil_2 | apply Forall_cons_2; [first [by left | by right]|]]].
Qed.

(** X28.  Whatever the server does, every pause of the retry client is the
    configured one: the branch that waits 60 seconds on a response 429 is
    never taken, because the adapter of the session does not hand such a
    response over. *)
Theorem retry_client_never_takes_the_long_pause
    (url : pystr) (retries pause : option nat) (config : BaseParser.SiteConfig)
    (s : state) :
  let web := Parser.request_with_retry url retries pause s in
  let base := BaseParser.request_with_retry config url s in
  (exists new,
     log (snd web) = log s ++ new /\
     Forall (fun e => e = EGet url \/
                      e = ESleep (or_default pause (scraping_retry_delay scraping)))
            new)
  /\
  (exists new,
     log (snd base) = log s ++ new /\
     Forall (fun e => e = EGet url \/
                      e = ESleep (BaseParser.retry_delay config)) new).
Proof.
  cbn zeta. unfold Parser.request_with_retry, BaseParser.request_with_retry.
  split.
  - destruct (request_with_retry_loop_pauses url
                (or_default retries (scraping_max_retries scraping))
                (or_default pause (scraping_retry_delay scraping))
                (or_default retries (scraping_max_retries scraping)) 1 s)
      as (r & s' & new & -> & Hlog & Hnew).
    by exists new.
  - destruct (request_with_retry_loop_pauses url
                (BaseParser.max_retries config) (BaseParser.retry_delay config)
                (BaseParser.max_retries config) 1 s)
      as (r & s' & new & -> & Hlog & Hnew).
    by exists new.
Qed.

End RetryClientFacts.

(** Three refused connections with the default configuration: two pauses. *)
Lemma connection_errors_witness :
  let run :=
    Parser.request_with_retry (cfg := default_config) (W := Outage.offline_world)
      Downloader.url_announce None None Runtime.empty_state in
  fst run = Ok None
  /\ log (snd run)
     = [EGet Downloader.url_announce; ESleep 5;
        EGet Downloader.url_announce; ESleep 5; EGet Downloader.url_announce].
Proof.
  pose proof (connection_errors_are_not_followed_by_a_last_pause
                (cfg := default_config) (W := Outage.offline_world)
                Downloader.url_announce None None Runtime.empty_state) as H.
  destruct H as (Hres & Hlog).
  - cbn. lia.
  - intros i Hi. reflexivity.
  - split; [exact Hres | exact Hlog].
Defined.


(** A status of the forcelist reaches the loop as an exception: with 503
    throughout there is no pause after the last attempt. *)
Example forcelist_statuses_reach_the_loop_as_errors :
  log (snd (Parser.request_with_retry (cfg := default_config)
              (W := Outage.unavailable_world)
              Downloader.url_announce None None Runtime.empty_state))
  = [EGet Downloader.url_announce; ESleep 5;
     EGet Downloader.url_announce; ESleep 5; EGet Downloader.url_announce].
Proof. vm_compute. reflexivity. Qed.

(* ===================================================================== *)
(** * Further properties of the orchestrator *)
(* ===================================================================== *)

Section OrchestratorFacts.
Context {lib : PyLib} {cfg : AppConfig} {W : World}.

Lemma try_except_ret_run {A} (m : M A) (d : A) (s : state) :
  exists r s', try_except m (fun _ => mret d) s = (Ok r, s').
Proof.
  rewrite run_try_except. destruct (m s) as [[r|e] s']; by eexists _, _.
Qed.

Lemma request_to_model_run (description : pystr) (s : state) :
  exists r s',
    Scorer.request_to_model description s = (Ok r, s') /\
    processor s' = processor s.
Proof.
  pose proof (request_to_model_frame (fun _ => True) Spec.anything Spec.anything
                eq ltac:(done) description s) as (_ & _ & _ & Hpr).
  unfold Scorer.request_to_model in *.
  cbv beta iota zeta delta [mbind M_bind mret M_ret try_except ask raise] in *.
  destruct (w_generate (clock s) description) as [| |text]; cbv beta iota in *;
    try destruct (Str.contains Scorer.possible _);
    try destruct (Str.contains Scorer.net _); by eexists _, _.
Qed.

Lemma process_by_announcement_id_run (announcement_id : pystr) (s : state) :
  exists r s',
    Downloader.process_by_announcement_id announcement_id s = (Ok r, s') /\
    processor s' = processor s.
Proof.
  pose proof (process_by_announcement_id_frame (fun _ => True)
                Spec.anything Spec.anything eq ltac:(done) announcement_id
                I I ltac:(done) I ltac:(done) ltac:(done) ltac:(done) s)
    as (_ & _ & _ & Hpr).
  destruct (try_except_ret_run
              (let raw_id := announcement_id in
               let announcement_id := Str.drop_last 2 announcement_id in
               let page_url := Downloader.url_announce ++ announcement_id
                               ++ Downloader.tab_documents in
               '(response, _) ← Downloader.get_with_retries Downloader.new_stats
                                  page_url None None;
               match response with
               | None => mret None
               | Some body =>
                 sleep 2;;
                 found ← Downloader.find_and_download announcement_id raw_id
                           (html_doc_rows body);
                 Downloader.get_announcement_info announcement_id
               end) None s) as (r & s' & Hrun).
  change (Downloader.process_by_announcement_id announcement_id s = (Ok r, s'))
    in Hrun.
  rewrite Hrun in Hpr. by exists r, s'.
Qed.

Lemma final_score_run (announcement_id : pystr) (s : state) :
  exists s',
    Scorer.final_score announcement_id s = (Ok Scorer.rejection, s') /\
    processor s' = processor s.
Proof.
  pose proof (final_score_frame (fun _ => True) Spec.anything Spec.anything
                eq ltac:(done) ltac:(done) announcement_id s)
    as (_ & _ & _ & Hpr).
  pose proof (final_score_result announcement_id s) as Hres.
  destruct (Scorer.final_score announcement_id s) as [r s'].
  cbn [fst snd] in *. subst r. by exists s'.
Qed.

(** What [process_announcement] does to the counters. *)
Lemma process_announcement_run
    (announcement_id : pystr) (entry : gmap pystr pystr) (s : state) :
  exists s',
    Main.process_announcement announcement_id entry s = (Ok tt, s') /\
    let st := stats (processor s) in
    let st' := stats (processor s') in
    total_processed st' = S (total_processed st) /\
    stats_stage2_success st' = stats_stage2_success st /\
    uploads_successful st' = uploads_successful st /\
    match entry !! Main.key_name with
    | None =>
      errors st' = S (errors st) /\
      stats_stage1_success st' = stats_stage1_success st /\
      already_processed (processor s') = already_processed (processor s)
    | Some name =>
      ((errors st' = errors st /\
        stats_stage1_success st' = stats_stage1_success st) \/
       (errors st' = S (errors st) /\
        stats_stage1_success st' = S (stats_stage1_success st))) /\
      already_processed (processor s')
      = <[announcement_id := name]> (already_processed (processor s))
    end.
Proof.
  unfold Main.process_announcement. rewrite run_try_except, run_bind.
  unfold Main.process_announcement_mark, Main.process_announcement_stages,
    Main.entry_getitem.
  destruct (entry !! Main.key_name) as [name|].
  2:{ eexists. split; [reflexivity|]. cbn. by repeat split. }
  unfold Main.modify_stats, Main.set_already_processed,
    FileUtils.save_results_to_json.
  cbv beta iota delta [mbind M_bind mret M_ret modify_processor get_state ask
                       follow_up write_json].
  cbn [clock log files folders processor].
  assert (Hgo : forall s1 : state,
    processor s1
    = {| stats := Main.incr_total (stats (processor s));
         stage1_success := stage1_success (processor s);
         stage2_success := stage2_success (processor s);
         already_processed :=
           <[announcement_id := name]> (already_processed (processor s)) |} ->
    exists s',
      match
        (let (r, s2) := Scorer.request_to_model name s1 in
         match r with
         | Ok result1 =>
           (if Str.eqb result1 Scorer.possible
            then
              Main.modify_stats Main.incr_stage1;;
              Main.set_stage1_success announcement_id;;
              info ← Downloader.process_by_announcement_id announcement_id;
              match info with
              | None => Main.modify_stats Main.incr_errors
              | Some info =>
                result2 ← Scorer.final_score announcement_id;
                _ ← Main.ModelResponse_getitem result2 "decision";
                _ ← Main.ModelResponse_getitem result2 "decision";
                decision ← Main.ModelResponse_getitem result2 "decision";
                if Str.eqb decision Scorer.da
                then
                  Main.modify_stats Main.incr_stage2;;
                  summary ← Main.ModelResponse_getitem result2 "summary";
                  let info := Main.with_summary info summary in
                  Main.set_stage2_success announcement_id info;;
                  document_id ← Uploader.executor info;
                  match document_id with
                  | Some (_ :: _) => Main.modify_stats Main.incr_uploads
                  | _ => Main.modify_stats Main.incr_errors
                  end
                else mret tt
              end
            else mret tt) s2
         | Raise e => (Raise e, s2)
         end)
      with
      | (Ok a, s') => (Ok a, s')
      | (Raise _, s') => Main.modify_stats Main.incr_errors s'
      end = (Ok tt, s') /\
      let st := stats (processor s) in
      let st' := stats (processor s') in
      total_processed st' = S (total_processed st) /\
      stats_stage2_success st' = stats_stage2_success st /\
      uploads_successful st' = uploads_successful st /\
      ((errors st' = errors st /\
        stats_stage1_success st' = stats_stage1_success st) \/
       (errors st' = S (errors st) /\
        stats_stage1_success st' = S (stats_stage1_success st))) /\
      already_processed (processor s')
      = <[announcement_id := name]> (already_processed (processor s))).
  { intros s1 Hs1.
    destruct (request_to_model_run name s1) as (result1 & s2 & -> & Hs2).
    rewrite Hs1 in Hs2.
    destruct (Str.eqb result1 Scorer.possible).
    2:{ exists s2. split; [reflexivity|]. rewrite Hs2. cbn. repeat split; auto. }
    cbv beta iota delta [mbind M_bind mret M_ret Main.modify_stats
                         Main.set_stage1_success modify_processor].
    match goal with
    | |- context [Downloader.process_by_announcement_id _ ?s3] =>
      destruct (process_by_announcement_id_run announcement_id s3)
        as (info & s4 & -> & Hs4)
    end.
    cbn [processor] in Hs4. rewrite Hs2 in Hs4. cbn in Hs4.
    destruct info as [info|].
    2:{ eexists. split; [reflexivity|]. cbn [processor stats]. rewrite Hs4.
        cbn. repeat split; auto. }
    destruct (final_score_run announcement_id s4) as (s5 & -> & Hs5).
    rewrite Hs4 in Hs5.
    eexists. split; [reflexivity|]. cbn [processor stats]. rewrite Hs5.
    cbn. repeat split; auto. }
  destruct (w_disk_ok (clock s)); cbv beta iota; [by apply Hgo|].
  cbn [clock log files folders processor].
  destruct (w_disk_ok (S (clock s))); cbv beta iota; by apply Hgo.
Qed.

(** X14.  [process_announcement] never raises and counts the announcement once.
    The stage-2 and upload counters never move.  An announcement with a
    name is recorded as seen; when its title passes stage 1 it is also
    counted as an error, and only then.  An entry without a name is
    counted as an error and recorded nowhere. *)
Theorem every_stage1_success_is_counted_as_an_error
    (announcement_id : pystr) (entry : gmap pystr pystr) (s : state) :
  let run := Main.process_announcement announcement_id entry s in
  let st := stats (processor s) in
  let st' := stats (processor (snd run)) in
  fst run = Ok tt
  /\ total_processed st' = S (total_processed st)
  /\ stats_stage2_success st' = stats_stage2_success st
  /\ uploads_successful st' = uploads_successful st
  /\ match entry !! Main.key_name with
     | None =>
       errors st' = S (errors st) /\
       stats_stage1_success st' = stats_stage1_success st
     | Some name =>
       (errors st' = errors st /\
        stats_stage1_success st' = stats_stage1_success st) \/
       (errors st' = S (errors st) /\
        stats_stage1_success st' = S (stats_stage1_success st))
     end.
Proof.
  destruct (process_announcement_run announcement_id entry s)
    as (s' & Hrun & Htotal & Hstage2 & Huploads & Hrest).
  cbn zeta. rewrite Hrun. cbn [fst snd]. repeat split; auto.
  destruct (entry !! Main.key_name); tauto.
Qed.

(** X15.  [process_announcement] records the announcement as seen under the id
    it is given, with the name of the entry, whatever the later stages and
    the checkpoint write do; no other key of the seen map changes.  An
    entry without a name leaves the map as it was. *)
Theorem announcement_is_recorded_as_seen_under_the_given_id
    (announcement_id : pystr) (entry : gmap pystr pystr) (s : state) :
  let run := Main.process_announcement announcement_id entry s in
  already_processed (processor (snd run))
  = match entry !! Main.key_name with
    | Some name => <[announcement_id := name]> (already_processed (processor s))
    | None => already_processed (processor s)
    end.
Proof.
  destruct (process_announcement_run announcement_id entry s)
    as (s' & Hrun & _ & _ & _ & Hrest).
  cbn zeta. rewrite Hrun. cbn [snd].
  destruct (entry !! Main.key_name); tauto.
Qed.

Lemma process_all_run (full_data : list (pystr * gmap pystr pystr)) :
  forall s,
  exists s',
    Main.process_all full_data s = (Ok tt, s') /\
    dom (already_processed (processor s))
    ⊆ dom (already_processed (processor s')) /\
    total_processed (stats (processor s))
    <= total_processed (stats (processor s'))
    <= total_processed (stats (processor s)) + length full_data.
Proof.
  induction full_data as [|[announcement_id entry] rest IH]; intros s.
  - exists s. split; [reflexivity|]. split; [done|]. cbn. lia.
  - cbn [Main.process_all length]. rewrite run_bind. unfold get_state at 1.
    destruct (already_processed (processor s) !! announcement_id).
    + destruct (IH s) as (s' & Hrun & Hdom & Htotal).
      exists s'. split; [exact Hrun|]. split; [exact Hdom|]. lia.
    + cbn zeta. rewrite run_bind.
      destruct (process_announcement_run
                  (default announcement_id
                     (Main.after_first_underscore announcement_id)) entry s)
        as (s1 & -> & Htotal1 & _ & _ & Hseen).
      destruct (IH s1) as (s' & Hrun & Hdom & Htotal).
      exists s'. split; [exact Hrun|]. cbn zeta in Htotal1. split; [|lia].
      clear Htotal Htotal1. etrans; [|exact Hdom].
      destruct (entry !! Main.key_name) as [name|].
      * destruct Hseen as [_ ->]. rewrite dom_insert. set_solver.
      * by destruct Hseen as (_ & _ & ->).
Qed.

(** X16.  The loop of [main] never raises, never drops an id from the seen map
    and counts at most one processed announcement for each item. *)
Theorem main_loop_never_forgets_a_seen_announcement
    (full_data : list (pystr * gmap pystr pystr)) (s : state) :
  let run := Main.process_all full_data s in
  fst run = Ok tt
  /\ dom (already_processed (processor s))
     ⊆ dom (already_processed (processor (snd run)))
  /\ total_processed (stats (processor s))
     <= total_processed (stats (processor (snd run)))
     <= total_processed (stats (processor s)) + length full_data.
Proof.
  destruct (process_all_run full_data s) as (s' & Hrun & Hdom & Htotal).
  cbn zeta. by rewrite Hrun.
Qed.

Lemma process_all_skips
    (full_data : list (pystr * gmap pystr pystr)) (s : state) :
  Forall (fun item => is_Some (already_processed (processor s) !! item.1))
         full_data ->
  Main.process_all full_data s = (Ok tt, s).
Proof.
  induction 1 as [|[announcement_id entry] rest [name Hseen] _ IH];
    [reflexivity|].
  cbn [Main.process_all]. rewrite run_bind. unfold get_state at 1.
  cbn [fst] in Hseen. by rewrite Hseen.
Qed.

(** X17.  When every announcement that discovery returned is in the seen map
    already, the loop of [main] does nothing at all: no request, no file,
    no counter. *)
Theorem seen_announcements_are_skipped_without_any_effect
    (full_data : list (pystr * gmap pystr pystr)) (s : state) :
  Forall (fun item => is_Some (already_processed (processor s) !! item.1))
         full_data ->
  Main.process_all full_data s = (Ok tt, s).
Proof. apply process_all_skips. Qed.

Lemma after_first_underscore_shorter (key original : pystr) :
  Main.after_first_underscore key = Some original ->
  length original < length key.
Proof.
  revert original. induction key as [|c key IH]; intros original Hsplit;
    [discriminate|].
  cbn [Main.after_first_underscore length] in *.
  destruct (c =? 95)%N.
  - injection Hsplit as <-. lia.
  - specialize (IH _ Hsplit). lia.
Qed.

(** X18.  An announcement whose key contains an underscore is processed and
    recorded under the part after the first underscore, while the test
    that skips seen announcements looks the whole key up: the key is
    still unseen after the announcement has been processed, and the loop
    processes it again the next time it meets it. *)
Theorem prefixed_key_is_still_unseen_after_processing
    (key original : pystr) (entry : gmap pystr pystr) (s : state) :
  Main.after_first_underscore key = Some original ->
  already_processed (processor s) !! key = None ->
  let once := snd (Main.process_all [(key, entry)] s) in
  let twice := snd (Main.process_all [(key, entry)] once) in
  already_processed (processor once) !! key = None
  /\ already_processed (processor once) !! original
     = match entry !! Main.key_name with
       | Some name => Some name
       | None => already_processed (processor s) !! original
       end
  /\ total_processed (stats (processor twice))
     = S (S (total_processed (stats (processor s)))).
Proof.
  intros Hsplit Hunseen.
  assert (Hne : original <> key).
  { intros ->. apply after_first_underscore_shorter in Hsplit. lia. }
  assert (Hpass : forall s0,
    already_processed (processor s0) !! key = None ->
    Main.process_all [(key, entry)] s0
    = Main.process_announcement original entry s0).
  { intros s0 Hs0. cbn [Main.process_all]. rewrite run_bind.
    unfold get_state at 1. rewrite Hs0, Hsplit. cbn [default from_option id].
    rewrite run_bind.
    destruct (process_announcement_run original entry s0) as (s1 & Hrun & _).
    by rewrite Hrun. }
  cbn zeta. rewrite (Hpass s Hunseen).
  destruct (process_announcement_run original entry s)
    as (s1 & Hrun1 & Htotal1 & _ & _ & Hseen1).
  rewrite Hrun1. cbn [snd]. cbn zeta in Htotal1.
  assert (Hstill : already_processed (processor s1) !! key = None).
  { destruct (entry !! Main.key_name) as [name|].
    - destruct Hseen1 as [_ ->]. by rewrite lookup_insert_ne.
    - by destruct Hseen1 as (_ & _ & ->). }
  split; [exact Hstill|]. split.
  - destruct (entry !! Main.key_name) as [name|].
    + destruct Hseen1 as [_ ->]. by rewrite lookup_insert_eq.
    + by destruct Hseen1 as (_ & _ & ->).
  - rewrite (Hpass s1 Hstill).
    destruct (process_announcement_run original entry s1)
      as (s2 & Hrun2 & Htotal2 & _).
    rewrite Hrun2. cbn [snd]. cbn zeta in Htotal2. lia.
Qed.

Lemma save_results_to_json_run (results : checkpoint) (name : pystr)
    (s : state) :
  exists ok s',
    FileUtils.save_results_to_json results name s = (Ok ok, s') /\
    log s' = log s ++ [EWriteJson name] /\
    processor s' = processor s /\
    (files s' = files s \/
     files s' = <[name := Truncated]> (files s) \/
     files s' = <[name := results]> (files s)).
Proof.
  unfold FileUtils.save_results_to_json.
  cbv beta iota delta [mbind M_bind mret M_ret ask follow_up write_json].
  destruct (w_disk_ok (clock s)); cbv beta iota;
    cbn [clock log files folders processor];
    [|destruct (w_disk_ok (S (clock s))); cbv beta iota;
      cbn [clock log files folders processor]];
    eexists _, _; (split; [reflexivity|]); cbn [log processor files]; auto.
Qed.

Lemma save_results_events (s : state) :
  exists s',
    Main.save_results s = (Ok tt, s') /\
    log s' = log s ++ [EWriteJson configGS_stage1s; EWriteJson configGS_stage2s;
                       EWriteJson configGS_filtered] /\
    processor s' = processor s /\
    (files s' !! configGS_stage2s = files s !! configGS_stage2s \/
     files s' !! configGS_stage2s = Some Truncated \/
     files s' !! configGS_stage2s = Some (Stage2 (stage2_success (processor s)))).
Proof.
  destruct filtered_is_not_a_stage_file as [_ Hne].
  assert (Hne1 : configGS_stage1s <> configGS_stage2s) by discriminate.
  unfold Main.save_results. rewrite run_try_except, run_bind.
  unfold get_state at 1. cbn zeta. rewrite run_bind.
  destruct (save_results_to_json_run
              (Stage1 (stage1_success (processor s))) configGS_stage1s s)
    as (ok1 & s1 & -> & Hlog1 & Hpr1 & Hfiles1).
  rewrite run_bind.
  destruct (save_results_to_json_run
              (Stage2 (stage2_success (processor s))) configGS_stage2s s1)
    as (ok2 & s2 & -> & Hlog2 & Hpr2 & Hfiles2).
  rewrite run_bind.
  destruct (save_results_to_json_run
              (Filtered (already_processed (processor s))) configGS_filtered s2)
    as (ok3 & s3 & -> & Hlog3 & Hpr3 & Hfiles3).
  rewrite run_ret. exists s3. split; [reflexivity|].
  split; [by rewrite Hlog3, Hlog2, Hlog1, <- !app_assoc|].
  split; [by rewrite Hpr3, Hpr2, Hpr1|].
  assert (H1 : files s1 !! configGS_stage2s = files s !! configGS_stage2s).
  { destruct Hfiles1 as [->|[->| ->]]; by rewrite ?lookup_insert_ne. }
  assert (H3 : files s3 !! configGS_stage2s = files s2 !! configGS_stage2s).
  { destruct Hfiles3 as [->|[->| ->]]; by rewrite ?lookup_insert_ne. }
  rewrite H3. destruct Hfiles2 as [->|[->| ->]];
    rewrite ?lookup_insert_eq; auto.
Qed.

Lemma process_announcement_filtered_file
    (announcement_id name : pystr) (entry : gmap pystr pystr) (s : state) :
  entry !! Main.key_name = Some name ->
  w_disk_ok (clock s) = true ->
  files (snd (Main.process_announcement announcement_id entry s))
    !! configGS_filtered
  = Some (Filtered (<[announcement_id := name]>
                      (already_processed (processor s)))).
Proof.
  intros Hname Hdisk. unfold Main.process_announcement.
  rewrite run_try_except, run_bind.
  destruct (process_announcement_mark_run announcement_id name entry s
              Hname Hdisk) as (s1 & -> & Hfiles & _).
  pose proof (process_announcement_stages_frame (fun _ => True)
                Spec.anything eq Spec.anything ltac:(done) ltac:(done)
                ltac:(done) ltac:(done) announcement_id entry
                ltac:(done) ltac:(done) s1) as (_ & _ & Hsame & _).
  destruct (Main.process_announcement_stages announcement_id entry s1)
    as [[[]|e] s2]; unfold Main.modify_stats, modify_processor;
    cbn [snd files] in *; by rewrite <- Hsame, Hfiles, lookup_insert_eq.
Qed.

(** X19.  A processor that is created afresh and loads the seen map from
    the "filtered" file that [process_announcement] has left has the
    announcement in its map, and the loop of [main] skips the
    announcement without any effect when it meets it again. *)
Theorem reloaded_seen_map_skips_the_recorded_announcement
    (announcement_id name : pystr) (entry entry' : gmap pystr pystr)
    (s : state) :
  entry !! Main.key_name = Some name ->
  w_disk_ok (clock s) = true ->
  let earlier := snd (Main.process_announcement announcement_id entry s) in
  let fresh := snd (modify_processor (fun _ => Main.new_processor) earlier) in
  let loaded := snd (Main.load_processed_data fresh) in
  already_processed (processor loaded)
  = <[announcement_id := name]> (already_processed (processor s))
  /\ log loaded = log earlier
  /\ Main.process_all [(announcement_id, entry')] loaded = (Ok tt, loaded).
Proof.
  intros Hname Hdisk.
  pose proof (process_announcement_filtered_file announcement_id name entry s
                Hname Hdisk) as Hfile.
  cbn zeta. set (earlier := snd (Main.process_announcement _ _ s)) in *.
  unfold Main.load_processed_data, FileUtils.get_results_from_json.
  cbv beta iota delta [mbind M_bind mret M_ret modify_processor get_state].
  cbn [snd files]. rewrite Hfile. cbv beta iota. cbn [snd processor
    already_processed log].
  split; [reflexivity|]. split; [reflexivity|].
  apply process_all_skips. constructor; [|constructor].
  cbn. rewrite lookup_insert_eq. by eexists.
Qed.

Lemma load_processed_data_run (s : state) :
  exists s0,
    Main.load_processed_data s = (Ok tt, s0) /\
    log s0 = log s /\ files s0 = files s /\
    stage2_success (processor s0) = stage2_success (processor s).
Proof.
  unfold Main.load_processed_data, FileUtils.get_results_from_json.
  cbv beta iota delta [mbind M_bind mret M_ret modify_processor get_state].
  destruct (files s !! configGS_filtered) as [[| | |]|]; by eexists.
Qed.

Lemma main_run (full_data : list (pystr * gmap pystr pystr)) (s : state) :
  exists s',
    Main.main full_data s = (Ok tt, s') /\
    stage2_success (processor s') = ∅ /\
    Spec.count Spec.is_upload (log s') = Spec.count Spec.is_upload (log s) /\
    (files s' !! configGS_stage2s = files s !! configGS_stage2s \/
     files s' !! configGS_stage2s = Some Truncated \/
     files s' !! configGS_stage2s = Some (Stage2 ∅)).
Proof.
  unfold Main.main. rewrite run_bind. unfold modify_processor at 1.
  rewrite run_bind.
  match goal with
  | |- context [Main.load_processed_data ?sA] =>
    destruct (load_processed_data_run sA) as (s0 & -> & Hlog0 & Hfiles0 & Hacc0)
  end.
  cbn [log files processor stage2_success Main.new_processor] in *.
  destruct full_data as [|item rest].
  { exists s0. split; [reflexivity|]. rewrite Hlog0, Hfiles0. auto. }
  rewrite run_bind.
  pose proof (process_all_frame
                Spec.not_upload Spec.anything Spec.same_stage_files
                Spec.same_accepted ltac:(by intros [])
                (lib := lib) (cfg := cfg) (W := W)
                ltac:(done) ltac:(done) ltac:(done)
                stage_files_survive_filtered ltac:(done) ltac:(done)
                (item :: rest) s0)
    as ((new & Hlog1 & Hnew) & _ & [_ Hfiles1] & Hacc1).
  destruct (process_all_run (item :: rest) s0) as (s1 & Hrun & _).
  rewrite Hrun in *. cbn [snd] in *.
  destruct (save_results_events s1) as (s2 & -> & Hlog2 & Hpr2 & Hfiles2).
  exists s2. split; [reflexivity|]. unfold Spec.same_accepted in Hacc1.
  rewrite Hpr2, Hacc1, Hacc0, Hlog2, Hlog1, Hlog0.
  split; [done|]. split.
  - rewrite <- app_assoc. apply count_upload_app.
    apply Forall_app. split; [exact Hnew|]. by repeat constructor.
  - rewrite Hacc1, Hacc0, Hfiles1, Hfiles0 in Hfiles2. exact Hfiles2.
Qed.

(** X20.  No run of [main] records a stage-2 success or posts to the intake
    system, whatever discovery returned and whatever the servers answer:
    the map of stage-2 successes is empty at the end, the log holds no
    upload, and the "stage2_success" file is left as it was, or was opened
    for writing and left truncated by a write that failed, or holds the
    empty map. *)
Theorem no_run_accepts_or_uploads_anything
    (full_data : list (pystr * gmap pystr pystr)) (s : state) :
  let run := Main.main full_data s in
  fst run = Ok tt
  /\ stage2_success (processor (snd run)) = ∅
  /\ Spec.count Spec.is_upload (log (snd run))
     = Spec.count Spec.is_upload (log s)
  /\ (files (snd run) !! configGS_stage2s = files s !! configGS_stage2s \/
      files (snd run) !! configGS_stage2s = Some Truncated \/
      files (snd run) !! configGS_stage2s = Some (Stage2 ∅)).
Proof.
  destruct (main_run full_data s) as (s' & Hrun & Hacc & Hlog & Hfiles).
  cbn zeta. by rewrite Hrun.
Qed.

End OrchestratorFacts.

(** A seen map that holds the announcement of the scenario. *)
Lemma seen_announcements_witness :
  let seen :=
    {| clock := 0; log := []; files := ∅; folders := ∅;
       processor :=
         {| stats := stats Main.new_processor; stage1_success := ∅;
            stage2_success := ∅;
            already_processed :=
              {[ Scenario.announcement_id := Scenario.title ]} |} |} in
  Main.process_all (lib := Runtime.lib) (cfg := default_config)
    (W := Scenario.world) [(Scenario.announcement_id, Scenario.entry)] seen
  = (Ok tt, seen).
Proof.
  cbn zeta.
  apply (seen_announcements_are_skipped_without_any_effect
           (lib := Runtime.lib) (cfg := default_config) (W := Scenario.world)).
  constructor; [|constructor]. cbn [fst processor already_processed].
  rewrite lookup_singleton_eq. by eexists.
Defined.

(** The key that [process_multiple_sites] would build for the
    announcement of the scenario. *)
Lemma prefixed_key_witness :
  let key := Str.utf8 "goszakup.gov.kz_12345678-1" in
  let once :=
    snd (Main.process_all (lib := Runtime.lib) (cfg := default_config)
           (W := Scenario.world) [(key, Scenario.entry)] Runtime.empty_state) in
  already_processed (processor once) !! key = None
  /\ already_processed (processor once) !! Scenario.announcement_id
     = Some Scenario.title.
Proof.
  pose proof (prefixed_key_is_still_unseen_after_processing
                (lib := Runtime.lib) (cfg := default_config)
                (W := Scenario.world)
                (Str.utf8 "goszakup.gov.kz_12345678-1")
                Scenario.announcement_id Scenario.entry Runtime.empty_state)
    as H.
  destruct H as (Hkey & Horiginal & _).
  - reflexivity.
  - reflexivity.
  - split; [exact Hkey|]. exact Horiginal.
Defined.

(** The announcement of the scenario, met again by a processor that has
    loaded the seen map left by the scenario's run. *)
Lemma next_run_witness :
  let earlier :=
    snd (Main.process_announcement (lib := Runtime.lib) (cfg := default_config)
           (W := Scenario.world) Scenario.announcement_id Scenario.entry
           Runtime.empty_state) in
  let loaded :=
    snd (Main.load_processed_data
           (snd (modify_processor (fun _ => Main.new_processor) earlier))) in
  log loaded = log earlier
  /\ Main.process_all (lib := Runtime.lib) (cfg := default_config)
       (W := Scenario.world)
       [(Scenario.announcement_id, Scenario.entry)] loaded
     = (Ok tt, loaded).
Proof.
  pose proof (reloaded_seen_map_skips_the_recorded_announcement
                (lib := Runtime.lib) (cfg := default_config)
                (W := Scenario.world)
                Scenario.announcement_id Scenario.title Scenario.entry
                Scenario.entry Runtime.empty_state) as H.
  destruct H as (_ & Hlog & Hskip).
  - reflexivity.
  - reflexivity.
  - split; [exact Hlog | exact Hskip].
Defined.

(* ===================================================================== *)
(** * Further properties of the parsers *)
(* ===================================================================== *)

Section ParserFacts.
Context {lib : PyLib} {soup : Parsers.SoupLib} {W : World}.

Lemma base_request_with_retry_run (config : BaseParser.SiteConfig)
    (url : pystr) (s : state) :
  exists r s', BaseParser.request_with_retry config url s = (Ok r, s').
Proof.
  unfold BaseParser.request_with_retry.
  destruct (request_with_retry_loop_first_200 url
              (BaseParser.max_retries config) (BaseParser.retry_delay config)
              (BaseParser.max_retries config) 1 s)
    as (r & s' & k & Hrun & _).
  by exists r, s'.
Qed.

Lemma parse_pages_run {parser : Parsers.SiteParser}
    (config : BaseParser.SiteConfig) (search_url : pystr) :
  forall (pages : list nat) (result : Parsers.ParsingResult) (s : state),
  exists r s',
    Parsers.parse_pages config search_url pages result s = (Ok r, s') /\
    Parsers.processed_pages r + Parsers.errors r
    = Parsers.processed_pages result + Parsers.errors result + length pages /\
    Parsers.total_pages r = Parsers.total_pages result /\
    dom (Parsers.announcements result) ⊆ dom (Parsers.announcements r).
Proof.
  induction pages as [|page_number rest IH]; intros result s.
  - exists result, s. cbn. split; [reflexivity|]. split; [lia|]. by split.
  - cbn [Parsers.parse_pages length]. rewrite run_bind. unfold attempt at 1.
    match goal with
    | |- context [let '(r, s') := ?m s in _] => destruct (m s) as [outcome s1]
    end.
    assert (Herror : exists r s',
      Parsers.parse_pages config search_url rest (Parsers.add_error result) s1
      = (Ok r, s') /\
      Parsers.processed_pages r + Parsers.errors r
      = Parsers.processed_pages result + Parsers.errors result + S (length rest) /\
      Parsers.total_pages r = Parsers.total_pages result /\
      dom (Parsers.announcements result) ⊆ dom (Parsers.announcements r)).
    { destruct (IH (Parsers.add_error result) s1) as (r & s' & Hrun & Hsum & Htot & Hdom).
      exists r, s'. cbn in *. split; [exact Hrun|]. split; [lia|]. by split. }
    destruct outcome as [[page_announcements|]|e]; try exact Herror.
    destruct (IH (Parsers.add_page page_announcements result) s1)
      as (r & s' & Hrun & Hsum & Htot & Hdom).
    exists r, s'. cbn in *. split; [exact Hrun|]. split; [lia|].
    split; [exact Htot|]. etrans; [|exact Hdom]. rewrite dom_union.
    apply union_subseteq_r.
Qed.

Lemma parse_site_run {parser : Parsers.SiteParser}
    (config : BaseParser.SiteConfig) (search_url : pystr) (s : state) :
  exists r s',
    Parsers.parse_site config search_url s = (Ok r, s') /\
    Parsers.processed_pages r + Parsers.errors r = Parsers.total_pages r /\
    (fst (BaseParser.request_with_retry config search_url s) = Ok None ->
     r = {| Parsers.announcements := ∅; Parsers.total_pages := 0;
            Parsers.processed_pages := 0; Parsers.errors := 0 |} /\
     s' = snd (BaseParser.request_with_retry config search_url s)).
Proof.
  unfold Parsers.parse_site. cbn zeta. rewrite run_try_except, run_bind.
  destruct (base_request_with_retry_run config search_url s)
    as (first_response & s1 & Hfirst).
  rewrite Hfirst. cbn [fst snd].
  destruct first_response as [body|].
  2:{ eexists _, _. split; [reflexivity|]. by split. }
  rewrite run_bind.
  destruct (Parsers.get_last_page_number body s1) as [[last_page|e] s2].
  2:{ eexists _, _. split; [reflexivity|]. split; [done|]. discriminate. }
  destruct (parse_pages_run config search_url (seq 1 last_page)
              {| Parsers.announcements := ∅; Parsers.total_pages := last_page;
                 Parsers.processed_pages := 0; Parsers.errors := 0 |} s2)
    as (r & s' & -> & Hsum & Htot & _).
  exists r, s'. split; [reflexivity|]. cbn in Hsum, Htot.
  rewrite length_seq in Hsum. split; [lia|]. discriminate.
Qed.

(** X21.  Whatever the strategy, [parse_site] never raises, and every page of
    the walk is either processed or counted as an error: the two counters
    add up to the number of pages.  When the first page cannot be
    fetched, the result is empty and nothing but that fetch was tried. *)
Theorem parse_site_accounts_for_every_page {parser : Parsers.SiteParser}
    (config : BaseParser.SiteConfig) (search_url : pystr) (s : state) :
  let run := Parsers.parse_site config search_url s in
  exists r,
    fst run = Ok r /\
    Parsers.processed_pages r + Parsers.errors r = Parsers.total_pages r /\
    (fst (BaseParser.request_with_retry config search_url s) = Ok None ->
     r = {| Parsers.announcements := ∅; Parsers.total_pages := 0;
            Parsers.processed_pages := 0; Parsers.errors := 0 |} /\
     snd run = snd (BaseParser.request_with_retry config search_url s)).
Proof.
  destruct (parse_site_run config search_url s) as (r & s' & Hrun & Hsum & Hnone).
  cbn zeta. rewrite Hrun. by exists r.
Qed.

Lemma served_request (config : BaseParser.SiteConfig) (url : pystr) (s : state) :
  0 < BaseParser.max_retries config ->
  (forall t url', exists body, w_get t url' = Status 200 body) ->
  exists body,
    BaseParser.request_with_retry config url s
    = (Ok (Some body),
       {| clock := S (clock s); log := log s ++ [EGet url]; files := files s;
          folders := folders s; processor := processor s |}).
Proof.
  intros Hretries Hserved. unfold BaseParser.request_with_retry.
  destruct (BaseParser.max_retries config) as [|n]; [lia|].
  cbn [Parser.request_with_retry_loop]. rewrite run_bind. unfold ask at 1.
  destruct (Hserved (clock s) url) as [body ->]. by exists body.
Qed.

Lemma goszakup_pages_served (config : BaseParser.SiteConfig) (search_url : pystr) :
  0 < BaseParser.max_retries config ->
  (forall t url', exists body, w_get t url' = Status 200 body) ->
  forall (pages : list nat) (result : Parsers.ParsingResult) (s : state),
  exists r s',
    Parsers.parse_pages (parser := Parsers.GoszakupParser) config search_url
                        pages result s = (Ok r, s') /\
    Parsers.errors r = Parsers.errors result /\
    Parsers.processed_pages r = Parsers.processed_pages result + length pages /\
    log s' = log s ++ Observe.page_requests (BaseParser.request_delay config)
                        (map (fun n => search_url ++ Parsers.amp_page
                                       ++ Str.of_nat n) pages).
Proof.
  intros Hretries Hserved.
  induction pages as [|page_number rest IH]; intros result s.
  - exists result, s. cbn. rewrite app_nil_r. split; [reflexivity|].
    split; [reflexivity|]. split; [lia|reflexivity].
  - cbn [Parsers.parse_pages length map]. rewrite run_bind. unfold attempt at 1.
    cbn [Parsers.build_page_url Parsers.GoszakupParser
         Parsers.extract_announcements_from_page].
    rewrite !run_bind, run_ret. unfold sleep, emit. rewrite !run_bind.
    match goal with
    | |- context [BaseParser.request_with_retry config ?url ?s1] =>
      destruct (served_request config url s1 Hretries Hserved) as [body ->]
    end.
    assert (Hpage : exists page_announcements,
      (match Parsers.html_search_rows body with
       | Some rows => mret (Parsers.extract_rows rows ∅)
       | None => mret ∅
       end : M (gmap pystr (gmap pystr pystr)))
      = mret page_announcements).
    { destruct (Parsers.html_search_rows body); by eexists. }
    destruct Hpage as [page_announcements ->].
    rewrite !run_bind, !run_ret.
    match goal with
    | |- context [Parsers.parse_pages _ _ rest ?result1 ?s2] =>
      destruct (IH result1 s2) as (r & s' & Hrun & Herr & Hproc & Hlog)
    end.
    exists r, s'. split; [exact Hrun|]. cbn in Herr, Hproc, Hlog.
    split; [exact Herr|]. split; [lia|].
    rewrite Hlog. cbn. by rewrite <- !app_assoc.
Qed.

(** X22.  With a server that answers every request, the walk of the goszakup
    parser fetches the search page once without a page number, to read
    the pagination, and then the pages 1 to [last_page] in order, each
    after the configured pause: the first page is fetched twice.  No page
    is counted as an error. *)
Theorem goszakup_walk_fetches_the_first_page_twice
    (config : BaseParser.SiteConfig) (search_url : pystr) (s : state) :
  0 < BaseParser.max_retries config ->
  (forall t url', exists body, w_get t url' = Status 200 body) ->
  let run := Parsers.parse_site (parser := Parsers.GoszakupParser)
               config search_url s in
  exists r,
    fst run = Ok r /\
    Parsers.errors r = 0 /\
    Parsers.processed_pages r = Parsers.total_pages r /\
    log (snd run)
    = log s ++ [EGet search_url]
            ++ Observe.page_requests (BaseParser.request_delay config)
                 (map (fun n => search_url ++ Parsers.amp_page ++ Str.of_nat n)
                      (seq 1 (Parsers.total_pages r))).
Proof.
  intros Hretries Hserved. cbn zeta.
  unfold Parsers.parse_site. cbn zeta. rewrite run_try_except, run_bind.
  destruct (served_request config search_url s Hretries Hserved) as [body ->].
  rewrite run_bind.
  cbn [Parsers.get_last_page_number Parsers.GoszakupParser].
  assert (Hlast : exists last_page,
    (match Parsers.html_pagination_hrefs body with
     | Some page_links =>
       mret (default 1 (Parsers.last_page_link page_links None))
     | None => mret 1
     end : M nat) = mret last_page).
  { destruct (Parsers.html_pagination_hrefs body); by eexists. }
  destruct Hlast as [last_page ->]. rewrite run_ret.
  match goal with
  | |- context [Parsers.parse_pages _ _ _ ?result1 ?s1] =>
    destruct (goszakup_pages_served config search_url Hretries Hserved
                (seq 1 last_page) result1 s1)
      as (r & s' & Hrun & Herr & Hproc & Hlog);
    destruct (parse_pages_run (parser := Parsers.GoszakupParser) config
                search_url (seq 1 last_page) result1 s1)
      as (r0 & s0 & Hrun0 & _ & Htot & _)
  end.
  rewrite Hrun in Hrun0. injection Hrun0 as <- <-.
  rewrite Hrun. exists r. cbn [fst snd]. cbn in Herr, Hproc, Htot, Hlog.
  rewrite length_seq in Hproc. rewrite Htot, Hlog, <- app_assoc.
  split; [done|]. split; [done|]. split; [lia|done].
Qed.

(** X23.  The goszakup parser gives distinct pages distinct addresses. *)
Theorem goszakup_page_urls_are_distinct (base_url : pystr) (n m : nat)
    (s : state) :
  n <> m ->
  fst (Parsers.build_page_url (SiteParser := Parsers.GoszakupParser)
         base_url n s)
  <> fst (Parsers.build_page_url (SiteParser := Parsers.GoszakupParser)
            base_url m s).
Proof.
  intros Hne H. apply Hne. cbn in H. injection H as H.
  apply of_nat_inj.
  by apply (app_inv_head Parsers.amp_page), (app_inv_head base_url).
Qed.

Lemma extract_rows_usable (rows : list Parsers.search_row) :
  forall found,
    map_Forall Observe.usable_entry found ->
    map_Forall Observe.usable_entry (Parsers.extract_rows rows found) /\
    size (Parsers.extract_rows rows found) <= size found + length rows.
Proof.
  induction rows as [|row rest IH]; intros found Hfound.
  - cbn. split; [exact Hfound|lia].
  - cbn [Parsers.extract_rows length].
    assert (Hskip :
      map_Forall Observe.usable_entry (Parsers.extract_rows rest found) /\
      size (Parsers.extract_rows rest found) <= size found + S (length rest)).
    { destruct (IH found Hfound). split; [done|lia]. }
    destruct (Parsers.row_strong row) as [strong_text|]; [|exact Hskip].
    destruct (str_strip strong_text) as [|c announcement_id]; [exact Hskip|].
    destruct (Parsers.row_link row) as [link_text|]; [|exact Hskip].
    destruct (str_strip link_text) as [|d name]; [exact Hskip|].
    destruct (IH (<[c :: announcement_id := {[ Main.key_name := d :: name ]}]> found))
      as [Hall Hsize].
    { apply map_Forall_insert_2; [|exact Hfound].
      split; [done|]. by exists (d :: name). }
    split; [exact Hall|].
    destruct (found !! (c :: announcement_id)) eqn:Hlook;
      [rewrite map_size_insert_Some in Hsize by eauto
      |rewrite map_size_insert_None in Hsize by done]; lia.
Qed.

(** X24.  Every entry that the goszakup parser takes from a page has a
    non-empty id and a non-empty name under the key ['name'], which is
    what [process_announcement] reads; rows without them are left out.
    The page gives at most one entry for each row, and reading it has no
    effect. *)
Theorem extracted_entries_have_an_id_and_a_name (body : pystr)
    (page_number : nat) (s : state) :
  exists page_announcements,
    Parsers.extract_announcements_from_page
      (SiteParser := Parsers.GoszakupParser) body page_number s
    = (Ok page_announcements, s) /\
    map_Forall Observe.usable_entry page_announcements /\
    size page_announcements
    <= length (default [] (Parsers.html_search_rows body)) /\
    forall announcement_id entry,
      page_announcements !! announcement_id = Some entry ->
      exists name s',
        Main.entry_getitem entry Main.key_name s = (Ok name, s') /\ name <> [].
Proof.
  cbn [Parsers.extract_announcements_from_page Parsers.GoszakupParser].
  assert (Hread : forall page : gmap pystr (gmap pystr pystr),
    map_Forall Observe.usable_entry page ->
    forall announcement_id entry,
      page !! announcement_id = Some entry ->
      exists name s',
        Main.entry_getitem entry Main.key_name s = (Ok name, s') /\ name <> []).
  { intros page Hpage announcement_id entry Hentry.
    destruct (Hpage _ _ Hentry) as (_ & name & Hname & ->).
    exists name, s. unfold Main.entry_getitem.
    by rewrite lookup_singleton_eq. }
  destruct (Parsers.html_search_rows body) as [rows|].
  - destruct (extract_rows_usable rows ∅) as [Hall Hsize];
      [apply map_Forall_empty|].
    exists (Parsers.extract_rows rows ∅). split; [reflexivity|].
    split; [exact Hall|]. rewrite map_size_empty in Hsize.
    split; [exact Hsize|]. by apply Hread.
  - exists ∅. split; [reflexivity|]. split; [apply map_Forall_empty|].
    split; [by rewrite map_size_empty|]. intros ? ? H.
    by rewrite lookup_empty in H.
Qed.

Lemma last_page_link_app (before after : list pystr) (found : option nat) :
  Parsers.last_page_link (before ++ after) found
  = Parsers.last_page_link after (Parsers.last_page_link before found).
Proof.
  revert found. induction before as [|href rest IH]; intros found; [done|].
  cbn [Parsers.last_page_link app].
  destruct (Str.startswith Parsers.url_search href); [|apply IH].
  destruct (Parsers.re_page_number href); apply IH.
Qed.

Lemma last_page_link_none (after : list pystr) (found : option nat) :
  Forall (fun href => Str.startswith Parsers.url_search href = false \/
                      Parsers.re_page_number href = None) after ->
  Parsers.last_page_link after found = found.
Proof.
  induction 1 as [|href rest [Hstart|Hpage] _ IH]; [done|..];
    cbn [Parsers.last_page_link].
  - by rewrite Hstart.
  - rewrite Hpage. by destruct (Str.startswith Parsers.url_search href).
Qed.

(** X25.  [get_last_page_number] of the goszakup parser answers with the page
    number of the last pagination link that leads to the search and
    carries a page number, whatever the numbers of the links before it;
    it is not the largest page number of the list. *)
Theorem last_pagination_link_decides_the_number_of_pages
    (body : pystr) (before after : list pystr) (href : pystr) (n : nat)
    (s : state) :
  Parsers.html_pagination_hrefs body = Some (before ++ href :: after) ->
  Str.startswith Parsers.url_search href = true ->
  Parsers.re_page_number href = Some n ->
  Forall (fun href => Str.startswith Parsers.url_search href = false \/
                      Parsers.re_page_number href = None) after ->
  Parsers.get_last_page_number (SiteParser := Parsers.GoszakupParser) body s
  = (Ok n, s).
Proof.
  intros Hlinks Hstart Hpage Hafter.
  cbn [Parsers.get_last_page_number Parsers.GoszakupParser].
  rewrite Hlinks, last_page_link_app. cbn [Parsers.last_page_link].
  by rewrite Hstart, Hpage, last_page_link_none.
Qed.

End ParserFacts.

(** The search page of the example, on a server that serves it for every
    address: three pages, four requests. *)
Lemma goszakup_walk_witness :
  let run :=
    Parsers.parse_site (W := Listing.world)
      (parser := Parsers.GoszakupParser (lib := Runtime.lib)
                   (soup := Listing.soup))
      Listing.config Listing.search_url Runtime.empty_state in
  exists r,
    fst run = Ok r /\ Parsers.errors r = 0 /\
    Parsers.processed_pages r = Parsers.total_pages r.
Proof.
  destruct (goszakup_walk_fetches_the_first_page_twice
              (lib := Runtime.lib) (soup := Listing.soup) (W := Listing.world)
              Listing.config Listing.search_url Runtime.empty_state)
    as (r & Hres & Herr & Hproc & _).
  - cbn. lia.
  - intros t url'. by exists Listing.search_page.
  - exists r. split; [exact Hres|]. split; [exact Herr | exact Hproc].
Defined.

(** The first two pages of the example search. *)
Lemma goszakup_page_urls_witness :
  fst (Parsers.build_page_url
         (SiteParser := Parsers.GoszakupParser (lib := Runtime.lib)
                          (soup := Listing.soup))
         Listing.search_url 1 Runtime.empty_state)
  <> fst (Parsers.build_page_url
            (SiteParser := Parsers.GoszakupParser (lib := Runtime.lib)
                             (soup := Listing.soup))
            Listing.search_url 2 Runtime.empty_state).
Proof.
  apply (goszakup_page_urls_are_distinct (lib := Runtime.lib)
           (soup := Listing.soup) Listing.search_url 1 2 Runtime.empty_state).
  discriminate.
Defined.

(** The pagination of the example: the link to page 7 comes before the
    link to page 3, and the answer is 3. *)
Lemma last_pagination_link_witness :
  Parsers.get_last_page_number
    (SiteParser := Parsers.GoszakupParser (lib := Runtime.lib)
                     (soup := Listing.soup))
    Listing.search_page Runtime.empty_state
  = (Ok 3, Runtime.empty_state).
Proof.
  apply (last_pagination_link_decides_the_number_of_pages
           (lib := Runtime.lib) (soup := Listing.soup)
           Listing.search_page
           [ Listing.search_url ++ Str.utf8 "&page=7";
             Str.utf8 "https://goszakup.gov.kz/ru/help?page=9" ]
           [ Str.utf8 "#" ]
           (Listing.search_url ++ Str.utf8 "&page=3") 3 Runtime.empty_state).
  - reflexivity.
  - reflexivity.
  - reflexivity.
  - repeat constructor.
Defined.

(* ===================================================================== *)
(** * Further properties of the acquisition and of the run *)
(* ===================================================================== *)

Section SearchFacts.
Context {lib : PyLib} {cfg : AppConfig} {W : World}.

(** X26.  [process_by_announcement_id] downloads the files of one row only:
    the first row of the documents table that names the technical
    specification and carries a category id.  The rows before it send no
    request, and the rows after it are not looked at, whether or not the
    download succeeded. *)
Theorem first_specification_row_ends_the_search
    (announcement_id raw_id category_id : pystr)
    (before after : list doc_row) (row : doc_row) (s : state) :
  Forall (fun r => Observe.row_category r = None) before ->
  Observe.row_category row = Some category_id ->
  Downloader.find_and_download announcement_id raw_id
                               (before ++ row :: after) s
  = Downloader.download_file announcement_id category_id raw_id s.
Proof.
  intros Hbefore Hrow. by apply find_and_download_first_row.
Qed.

(** X27.  When discovery returns nothing, [main] ends right after it has
    loaded the seen map: it sends no request, and it writes no checkpoint
    file, so the files are as the run found them. *)
Theorem empty_discovery_ends_the_run_before_any_checkpoint (s : state) :
  let run := Main.main [] s in
  fst run = Ok tt
  /\ log (snd run) = log s
  /\ files (snd run) = files s
  /\ folders (snd run) = folders s
  /\ stats (processor (snd run)) = stats Main.new_processor.
Proof.
  cbn zeta.
  unfold Main.main, Main.load_processed_data, FileUtils.get_results_from_json.
  cbv beta iota delta [mbind M_bind mret M_ret modify_processor get_state].
  cbn [files]. by destruct (files s !! configGS_filtered) as [[| | |]|].
Qed.

End SearchFacts.

(** The documents table of the example, with a second specification row
    after the first. *)
Lemma first_specification_row_witness :
  let row :=
    {| row_columns := 3; row_doc_name := Downloader.tech_spec;
       row_onclick := Some (Str.utf8 "actionModalShowFiles(12345678,3357)") |} in
  let later :=
    {| row_columns := 3; row_doc_name := Downloader.tech_task;
       row_onclick := Some (Str.utf8 "actionModalShowFiles(12345678,4000)") |} in
  let heading :=
    {| row_columns := 1; row_doc_name := Downloader.tech_spec;
       row_onclick := None |} in
  Downloader.find_and_download (lib := Runtime.lib) (cfg := default_config)
    (W := Scenario.world) (Str.utf8 "12345678") Scenario.announcement_id
    [heading; row; later] Runtime.empty_state
  = Downloader.download_file (lib := Runtime.lib) (cfg := default_config)
      (W := Scenario.world) (Str.utf8 "12345678") (Str.utf8 "3357")
      Scenario.announcement_id Runtime.empty_state.
Proof.
  cbn zeta.
  apply (first_specification_row_ends_the_search
           (lib := Runtime.lib) (cfg := default_config) (W := Scenario.world)
           (Str.utf8 "12345678") Scenario.announcement_id (Str.utf8 "3357")
           [ {| row_columns := 1; row_doc_name := Downloader.tech_spec;
                row_onclick := None |} ]
           [ {| row_columns := 3; row_doc_name := Downloader.tech_task;
                row_onclick :=
                  Some (Str.utf8 "actionModalShowFiles(12345678,4000)") |} ]).
  - repeat constructor.
  - reflexivity.
Defined.
